(** * Sentient-Trader-RL: the episode simulation-and-fusion engine

    A shallow embedding of the scoring, fusion, regret-gate and session
    code of the repository, and the properties its specification states
    about them.

    Conventions of the embedding.
    - A Python [float] (and a NumPy [float64]) is an exact rational [Q]:
      arithmetic is the real arithmetic the code's formulas denote.
      Comparisons are the source's ([<], [<=], [>]), decided by [Qltb]
      and [Qleb].  The one value that is not a number and that the code
      can be handed is [nan], which the regrets of [env_finrl.py] take
      when the oracle answers [null]: the regrets, and what is computed
      from them (the observation, the reward), are of the type [float],
      a rational or [nan].  Infinities are outside the model.
    - A NumPy array is a list; an index assignment is stdpp's list
      insert, with the [IndexError] of the source written out.
    - A Python [dict] used as a registry is a [gmap] keyed by strings.
    - Randomness and every answer of an outside service (the advisory
      oracle, the episode store, a websocket peer) are arguments of the
      function that consumes them, so each function is a deterministic
      function of its inputs.
    - A raised exception is a value: handlers return a [result], and a
      state that was mutated before the exception stays mutated. *)

From Stdlib Require Import QArith Qround Qabs Qminmax Lqa ZArith Lia.
From stdpp Require Import gmap strings list fin_maps pretty.

(** ** Python and NumPy primitives *)

Module Py.
Local Open Scope Q_scope.

Definition Qltb (x y : Q) : bool := negb (Qle_bool y x).
Definition Qleb (x y : Q) : bool := Qle_bool x y.
Definition Qgtb (x y : Q) : bool := Qltb y x.
Definition Qgeb (x y : Q) : bool := Qleb y x.

(** [min(a, b)] and [max(a, b)] of Python: the first argument wins a tie. *)
Definition py_min (a b : Q) : Q := if Qltb b a then b else a.
Definition py_max (a b : Q) : Q := if Qgtb b a then b else a.

(** [np.clip(x, lo, hi)] is [minimum(maximum(x, lo), hi)]. *)
Definition np_clip (x lo hi : Q) : Q := py_min (py_max x lo) hi.

(** A float of NumPy: a number, or [nan], which is what a float array
    holds once [None] (a JSON [null]) is stored in it.  Arithmetic on
    [nan] gives [nan], and every comparison with [nan] is [False]. *)
Inductive float :=
| fin (q : Q)
| nan.

Definition float_map (f : Q -> Q) (x : float) : float :=
  match x with
  | fin q => fin (f q)
  | nan => nan
  end.

Definition float_ltb (x : float) (y : Q) : bool :=
  match x with
  | fin q => Qltb q y
  | nan => false
  end.

Definition float_gtb (x : float) (y : Q) : bool :=
  match x with
  | fin q => Qgtb q y
  | nan => false
  end.

(** Rounding to the nearest integer, ties to the even one. *)
Definition round_half_even (x : Q) : Z :=
  let f := Qfloor x in
  let r := x - inject_Z f in
  if Qltb r (1 # 2) then f
  else if Qltb (1 # 2) r then (f + 1)%Z
  else if Z.even f then f else (f + 1)%Z.

(** [round(x, ndigits)]: the closest multiple of [10 ^ -ndigits].  The
    numbers of the model are rationals, and one that lies exactly halfway
    between two multiples goes to the even one.  Python rounds the float
    that stands for the number: where the number is halfway and its float
    is not (0.0025, 0.0505), [round] returns the multiple on the side of
    the float (0.003, 0.051), which is as close.  Below nothing is stated
    of a rounded value that depends on which of the two is taken (see
    [rounded_to]). *)
Definition round_ndigits (x : Q) (ndigits : nat) : Q :=
  let scale := Z.to_pos (10 ^ Z.of_nat ndigits) in
  Qmake (round_half_even (x * inject_Z (Zpos scale))) scale.

(** [random.uniform(a, b)] and [np.random.uniform(a, b)] scale one raw
    draw [u] of the generator, [0 <= u < 1]. *)
Definition uniform (a b u : Q) : Q := a + (b - a) * u.

(** [x or 0] on a nullable number. *)
Definition or_0 (x : option Q) : Q :=
  match x with
  | Some v => v
  | None => 0
  end.

(** Exceptions are values. *)
Inductive exn :=
| ValidationError
| ZeroDivisionError
| IndexError
| ValueError
| TransportError
| Exception (msg : string)
| HTTPException (status_code : Z) (detail : string).

Inductive result (A : Type) :=
| Ok (a : A)
| Raise (e : exn).
Arguments Ok {A} a.
Arguments Raise {A} e.

#[global] Instance result_ret : MRet result := fun A a => Ok a.
#[global] Instance result_bind : MBind result :=
  fun A B f m => match m with Ok a => f a | Raise e => Raise e end.

(** [x / y] on floats raises on a zero divisor. *)
Definition truediv (x y : Q) : result Q :=
  if Qeq_bool y 0 then Raise ZeroDivisionError else Ok (x / y).

(** [f"{x:.2f}"]: sign, integer part, and [prec] digits of the rounded
    magnitude. *)
Fixpoint zfill (width : nat) (digits : string) : string :=
  match width with
  | O => digits
  | S w => if decide (String.length digits <= w)%nat
           then zfill w ("0" +:+ digits)%string else digits
  end.

Definition format_f (x : Q) (prec : nat) : string :=
  let scale := (10 ^ Z.of_nat prec)%Z in
  let n := round_half_even (Qabs x * inject_Z scale) in
  ((if Qltb x 0 then "-" else EmptyString) +:+ pretty (n / scale)%Z +:+ "." +:+
   zfill prec (pretty (n mod scale)%Z))%string.

(** [l.remove(x)]: drops the first occurrence. *)
Fixpoint list_remove (x : nat) (l : list nat) : list nat :=
  match l with
  | [] => []
  | y :: rest => if decide (x = y) then rest else y :: list_remove x rest
  end.

End Py.

(** ** main.py: the session API *)

Module Main.
Import Py.
Local Open Scope Q_scope.
Local Open Scope string_scope.

(** [PPI_TIER_MAP]: a dict, iterated in insertion order. *)
Definition PPI_TIER_MAP : list ((Z * Z) * string) :=
  [ ((0, 20)%Z, "Survival (Physiological)");
    ((20, 40)%Z, "Safety");
    ((40, 60)%Z, "Belonging");
    ((60, 80)%Z, "Esteem");
    ((80, 100)%Z, "Self-Actualization") ].

Fixpoint get_ppi_tier_loop (items : list ((Z * Z) * string)) (ppi_score : Q)
  : option string :=
  match items with
  | [] => None
  | ((low, high), tier) :: rest =>
      if Qleb (inject_Z low) ppi_score && Qltb ppi_score (inject_Z high)
      then Some tier
      else get_ppi_tier_loop rest ppi_score
  end.

Definition get_ppi_tier (ppi_score : Q) : string :=
  match get_ppi_tier_loop PPI_TIER_MAP ppi_score with
  | Some tier => tier
  | None => "Self-Actualization"
  end.

(** *** Pydantic models

    A model's constructor validates its [Field] bounds and raises
    [ValidationError]; request models are validated by the framework
    before a handler runs, so handlers take them as records. *)

Inductive action_type := buy | sell | hold.

#[global] Instance action_type_eq_dec : EqDecision action_type.
Proof. solve_decision. Defined.

Definition action_type_str (t : action_type) : string :=
  match t with
  | buy => "buy"
  | sell => "sell"
  | hold => "hold"
  end.

(** Validation of a [Literal["buy", "sell", "hold"]] field. *)
Definition action_type_of_str (s : string) : result action_type :=
  if decide (s = "buy") then Ok buy
  else if decide (s = "sell") then Ok sell
  else if decide (s = "hold") then Ok hold
  else Raise ValidationError.

Record MarketState := {
  price : Q;
  volume : Q;
  sentiment : Q;
  timestamp : Z
}.

Record Action := {
  type : action_type;
  size : Q;
  confidence : Q;
  reasoning : string
}.

(** [Action(type=.., size=.., confidence=.., reasoning=..)]:
    [size] and [confidence] are declared [ge=0.0, le=1.0]. *)
Definition new_Action (type : action_type) (size confidence : Q)
    (reasoning : string) : result Action :=
  if Qgeb size 0 && Qleb size 1 && Qgeb confidence 0 && Qleb confidence 1
  then Ok {| type := type; size := size; confidence := confidence;
             reasoning := reasoning |}
  else Raise ValidationError.

Record StartEpisodeRequest := {
  start_agent_name : string;
  start_initial_balance : Q
}.

Record StartEpisodeResponse := {
  started_episode_id : string;
  started_agent_id : string;
  started_agent_name : string;
  started_initial_balance : Q;
  started_timestamp : Z
}.

Record StepRequest := {
  step_episode_id : string;
  market_state : MarketState;
  current_balance : Q;
  current_position : Q
}.

Record StepResponse := {
  resp_episode_id : string;
  step : Z;
  action : Action;
  resp_timestamp : Z
}.

Record EndEpisodeRequest := {
  end_episode_id : string;
  final_pnl : Q;
  end_ppi_score : Q;
  total_steps : Z;
  total_reward : Q
}.

Record EndEpisodeResponse := {
  ended_episode_id : string;
  ended_agent_id : string;
  saved : bool;
  message : string
}.

(** *** MockRLAgent *)

Record MockRLAgent := {
  agent_name : string;
  step_count : Z;
  last_action : action_type
}.

Definition new_MockRLAgent (agent_name : string) : MockRLAgent :=
  {| agent_name := agent_name; step_count := 0; last_action := hold |}.

(** The raw draws of [random.uniform] consumed by one [decide_action]. *)
Record DecideDraws := {
  u_momentum : Q;
  u_noise : Q;
  u_size : Q;
  u_confidence : Q
}.

Definition _generate_reasoning (action : action_type) (score : Q)
    (state : MarketState) : string :=
  let sentiment_desc :=
    if Qgtb state.(sentiment) 0.3 then "bullish"
    else if Qltb state.(sentiment) (-0.3) then "bearish"
    else "neutral" in
  match action with
  | buy =>
      "Market sentiment is " +:+ sentiment_desc +:+ " (" +:+
      format_f state.(sentiment) 2 +:+
      "). Momentum indicator suggests upward movement. Initiating long position."
  | sell =>
      "Market sentiment is " +:+ sentiment_desc +:+ " (" +:+
      format_f state.(sentiment) 2 +:+
      "). Risk management suggests taking profits. Reducing exposure."
  | hold =>
      "Market conditions are " +:+ sentiment_desc +:+
      ". Holding current position and monitoring for clearer signals."
  end.

(** [decide_action] mutates the agent before it builds the [Action], so
    the agent comes back updated also when the constructor raises. *)
Definition decide_action (self : MockRLAgent) (draws : DecideDraws)
    (market_state : MarketState) (current_position : Q)
  : MockRLAgent * result Action :=
  let step_count' := (self.(step_count) + 1)%Z in
  let price_momentum := uniform (-0.05) 0.05 draws.(u_momentum) in
  let sentiment_weight := market_state.(sentiment) * 0.3 in
  let decision_score :=
    price_momentum + sentiment_weight + uniform (-0.2) 0.2 draws.(u_noise) in
  let '(action_type, size) :=
    if Qgtb decision_score 0.15 && Qltb current_position 0.8
    then (buy, uniform 0.1 0.3 draws.(u_size))
    else if Qltb decision_score (-0.15) && Qgtb current_position 0.2
    then (sell, uniform 0.1 (py_min 0.3 current_position) draws.(u_size))
    else (hold, 0) in
  let confidence :=
    py_min 0.95 (Qabs decision_score + uniform 0.3 0.5 draws.(u_confidence)) in
  let reasoning := _generate_reasoning action_type decision_score market_state in
  ({| agent_name := self.(agent_name); step_count := step_count';
      last_action := action_type |},
   new_Action action_type (round_ndigits size 3) (round_ndigits confidence 3)
     reasoning).

(** *** The advisory oracle and the weighted blend *)

Record GrokRequest := {
  grok_price : Q;
  grok_volatility : Q;
  ppiTier : string;
  capital : Q
}.

Record GrokData := {
  data_action : string;
  data_size : Q;
  data_reasoning : string
}.

(** What the POST to the oracle does: it raises (timeout, connection), or
    answers with a status and a body; reading the body raises when it is
    not JSON or lacks a key. *)
Inductive grok_reply :=
| grok_raises (e : exn)
| grok_response (status_code : Z) (json : result GrokData).

Section WithExceptionText.

(** [str(e)], the text of an exception. *)
Variable str : exn -> string.

Definition get_grok_decision (grok : GrokRequest -> grok_reply)
    (market_state : MarketState) (current_balance current_position ppi_score : Q)
  : result Action :=
  let try : result Action :=
    let volatility := py_min 1 (market_state.(volume) / 1000000) in
    let ppi_tier := get_ppi_tier ppi_score in
    quotient ← truediv current_balance market_state.(price);
    let capital_btc := current_position + quotient in
    match grok {| grok_price := market_state.(price);
                  grok_volatility := volatility;
                  ppiTier := ppi_tier;
                  capital := capital_btc |} with
    | grok_raises e => Raise e
    | grok_response status_code json =>
        if decide (status_code = 200%Z) then
          data ← json;
          type ← action_type_of_str data.(data_action);
          new_Action type data.(data_size) 0.85
            ("[Grok AI] " +:+ data.(data_reasoning))
        else
          Raise (Exception ("Grok API returned " +:+ pretty status_code))
    end in
  match try with
  | Ok a => Ok a
  | Raise e =>
      new_Action hold 0 0.5 ("[Grok AI - Fallback] API unavailable: " +:+ str e)
  end.

End WithExceptionText.

Definition action_values (t : action_type) : Z :=
  match t with
  | buy => 1
  | hold => 0
  | sell => -1
  end.

Definition blend_actions (rl_action grok_action : Action) : result Action :=
  let rl_value := action_values rl_action.(type) in
  let grok_value := action_values grok_action.(type) in
  let blended_value := inject_Z (rl_value + grok_value) / 2 in
  let final_action :=
    if Qgtb blended_value 0.3 then buy
    else if Qltb blended_value (-0.3) then sell
    else hold in
  let final_size := (rl_action.(size) + grok_action.(size)) / 2 in
  let agreement :=
    if decide (rl_action.(type) = grok_action.(type)) then 1 else 0.5 in
  let final_confidence :=
    ((rl_action.(confidence) + grok_action.(confidence)) / 2) * agreement in
  let final_reasoning :=
    "[Hybrid Decision]
• RL Agent: " +:+ action_type_str rl_action.(type) +:+ " (" +:+
    format_f rl_action.(size) 2 +:+ ") - " +:+ rl_action.(reasoning) +:+ "
• Grok AI: " +:+ action_type_str grok_action.(type) +:+ " (" +:+
    format_f grok_action.(size) 2 +:+ ") - " +:+ grok_action.(reasoning) +:+ "
→ Final: " +:+ action_type_str final_action +:+ " (" +:+
    format_f final_size 2 +:+ ")" in
  new_Action final_action (round_ndigits final_size 3)
    (round_ndigits final_confidence 3) final_reasoning.

(** *** The live registry and the handlers

    [active_episodes] and [websocket_connections] are the two module-level
    dicts; [supabase] is the store client, absent when not configured.  A
    websocket is known by its identity. *)

Definition WebSocket := nat.

Record EpisodeData := {
  agent_id : string;
  ep_agent_name : string;
  initial_balance : Q;
  current_step : Z;
  agent : MockRLAgent;
  started_at : Z;
  ppi_score : option Q
}.

Record ApiState := {
  supabase : bool;
  active_episodes : gmap string EpisodeData;
  websocket_connections : gmap string (list WebSocket)
}.

Definition set_active_episodes (st : ApiState)
    (m : gmap string EpisodeData) : ApiState :=
  {| supabase := st.(supabase); active_episodes := m;
     websocket_connections := st.(websocket_connections) |}.

Definition set_websocket_connections (st : ApiState)
    (m : gmap string (list WebSocket)) : ApiState :=
  {| supabase := st.(supabase); active_episodes := st.(active_episodes);
     websocket_connections := m |}.

(** A row of the store's [agents] table; the averages are nullable. *)
Record AgentRow := {
  row_id : string;
  row_name : string;
  episodes_trained : Z;
  irr : option Q;
  sharpe : option Q;
  row_ppi_score : option Q
}.

Inductive ws_message :=
| msg_step (data : StepResponse)
| msg_end (episode_id : string) (final_pnl ppi_score irr sharpe : Q).

(** What a handler asks of the outside, in order: the writes it issues to
    the store, and the frames it delivers to websockets. *)
Inductive effect :=
| ws_send (ws : WebSocket) (m : ws_message)
| ws_close (ws : WebSocket)
| actions_insert (episode_id : string) (step : Z) (action_type : action_type)
    (size price reward grok_confidence : Q)
| episodes_update (id : string) (total_reward : Q) (steps : Z) (ppi_score : Q)
| agents_update_stats (id : string) (irr sharpe ppi_score : Q)
| agents_update_episodes_trained (id : string) (episodes_trained : Z)
| agents_insert (name : string) (episodes_trained : Z)
| episodes_insert (agent_id : string) (episode_number : Z).

(** [json.dumps] of a message.  The frame of a step is
    [{"type": "step", "data": response.dict()}], and [dict()] leaves the
    [timestamp] of the response a [datetime], on which [json.dumps] raises
    [TypeError]; the frame of an end holds strings and floats only. *)
Definition serialisable (message : ws_message) : bool :=
  match message with
  | msg_step _ => false
  | msg_end _ _ _ _ _ => true
  end.

(** [websocket.send_json(message)] turns the message into text and then
    sends the text; [send_ok] tells the connections that take it.  The
    result is whether the call returned (it raised otherwise). *)
Definition send_json (send_ok : WebSocket -> bool) (ws : WebSocket)
    (message : ws_message) : bool :=
  serialisable message && send_ok ws.

(** [broadcast_to_episode]: every connection of the episode is sent the
    message; the ones whose send raises, whatever it raises, are removed
    afterwards. *)
Definition broadcast_to_episode (send_ok : WebSocket -> bool)
    (episode_id : string) (message : ws_message)
    (st : ApiState) : ApiState * list effect :=
  match st.(websocket_connections) !! episode_id with
  | None => (st, [])
  | Some connections =>
      let disconnected :=
        filter (λ ws, send_json send_ok ws message = false) connections in
      let delivered :=
        filter (λ ws, send_json send_ok ws message = true) connections in
      let remaining := foldl (λ l ws, list_remove ws l) connections disconnected in
      (set_websocket_connections st
         (<[episode_id := remaining]> st.(websocket_connections)),
       (λ ws, ws_send ws message) <$> delivered)
  end.

(** The websocket endpoint, up to the registration of the connection (the
    receive loop that follows is not part of the model). *)
Definition websocket_episode (websocket : WebSocket) (episode_id : string)
    (st : ApiState) : ApiState * bool :=
  match st.(active_episodes) !! episode_id with
  | None => (st, false)
  | Some _ =>
      let connections := default [] (st.(websocket_connections) !! episode_id) in
      (set_websocket_connections st
         (<[episode_id := app connections [websocket]]> st.(websocket_connections)),
       true)
  end.

(** [get_agent_stats]: what the outside does during one call, the row
    type of the [episodes] table being the store's, and the answer. *)
Record StatsEnv (Row : Type) := {
  agent_selected : result (list AgentRow);
  episodes_selected : result (list Row)
}.
Arguments agent_selected {Row} _.
Arguments episodes_selected {Row} _.

Record AgentStats (Row : Type) := {
  stats_agent : AgentRow;
  total_episodes : Z;
  stats_episodes : list Row
}.
Arguments stats_agent {Row} _.
Arguments total_episodes {Row} _.
Arguments stats_episodes {Row} _.

Section Handlers.

Variable str : exn -> string.

(** What the outside does during one [start_episode]: the answer of each
    call to the store ([Raise] when the call raises), and the clock. *)
Record StartEnv := {
  agents_by_name : result (list AgentRow);
  agents_updated : result unit;
  agents_inserted : result (list AgentRow);
  episodes_of_agent : result (list Z);
  episodes_inserted : result (list string);
  start_now : Z
}.

Definition head_row {A : Type} (data : list A) : result A :=
  match data with
  | x :: _ => Ok x
  | [] => Raise IndexError
  end.

Definition start_episode (env : StartEnv) (request : StartEpisodeRequest)
    (st : ApiState) : ApiState * list effect * result StartEpisodeResponse :=
  if negb st.(supabase) then
    (st, [], Raise (HTTPException 500 "Supabase not configured"))
  else
    let failed (effects : list effect) (e : exn) :=
      (st, effects,
       Raise (HTTPException 500 ("Failed to start episode: " +:+ str e))) in
    let create_episode (effects : list effect) (agent_id : string) :=
      match env.(episodes_of_agent) with
      | Raise e => failed effects e
      | Ok episode_number =>
          let next_episode_num := (Z.of_nat (length episode_number) + 1)%Z in
          let effects := app effects [episodes_insert agent_id next_episode_num] in
          match env.(episodes_inserted) ≫= head_row with
          | Raise e => failed effects e
          | Ok episode_id =>
              let episode_data :=
                {| agent_id := agent_id;
                   ep_agent_name := request.(start_agent_name);
                   initial_balance := request.(start_initial_balance);
                   current_step := 0;
                   agent := new_MockRLAgent request.(start_agent_name);
                   started_at := env.(start_now);
                   ppi_score := None |} in
              ({| supabase := st.(supabase);
                  active_episodes :=
                    <[episode_id := episode_data]> st.(active_episodes);
                  websocket_connections :=
                    <[episode_id := []]> st.(websocket_connections) |},
               effects,
               Ok {| started_episode_id := episode_id;
                     started_agent_id := agent_id;
                     started_agent_name := request.(start_agent_name);
                     started_initial_balance := request.(start_initial_balance);
                     started_timestamp := env.(start_now) |})
          end
      end in
    match env.(agents_by_name) with
    | Raise e => failed [] e
    | Ok (agent :: _) =>
        let agent_id := agent.(row_id) in
        let effects :=
          [agents_update_episodes_trained agent_id
             (agent.(episodes_trained) + 1)%Z] in
        match env.(agents_updated) with
        | Raise e => failed effects e
        | Ok _ => create_episode effects agent_id
        end
    | Ok [] =>
        let effects := [agents_insert request.(start_agent_name) 1] in
        match env.(agents_inserted) ≫= head_row with
        | Raise e => failed effects e
        | Ok new_agent => create_episode effects new_agent.(row_id)
        end
    end.

(** What the outside does during one [take_step]. *)
Record StepEnv := {
  draws : DecideDraws;
  grok : GrokRequest -> grok_reply;
  u_reward : Q;
  send_ok : WebSocket -> bool;
  step_now : Z
}.

Definition set_agent (e : EpisodeData) (a : MockRLAgent) : EpisodeData :=
  {| agent_id := e.(agent_id); ep_agent_name := e.(ep_agent_name);
     initial_balance := e.(initial_balance); current_step := e.(current_step);
     agent := a; started_at := e.(started_at); ppi_score := e.(ppi_score) |}.

Definition set_step_and_ppi (e : EpisodeData) (n : Z) (ppi : Q) : EpisodeData :=
  {| agent_id := e.(agent_id); ep_agent_name := e.(ep_agent_name);
     initial_balance := e.(initial_balance); current_step := n;
     agent := e.(agent); started_at := e.(started_at); ppi_score := Some ppi |}.

Definition take_step (env : StepEnv) (request : StepRequest) (st : ApiState)
  : ApiState * list effect * result StepResponse :=
  let episode_id := request.(step_episode_id) in
  match st.(active_episodes) !! episode_id with
  | None =>
      (st, [], Raise (HTTPException 404 "Episode not found or already ended"))
  | Some episode_data =>
      let '(agent', rl_action) :=
        decide_action episode_data.(agent) env.(draws)
          request.(market_state) request.(current_position) in
      let episode_data := set_agent episode_data agent' in
      let st := set_active_episodes st
                  (<[episode_id := episode_data]> st.(active_episodes)) in
      let current_ppi := default 75 episode_data.(ppi_score) in
      let decided :=
        rl_action ← rl_action;
        grok_action ← get_grok_decision str env.(grok) request.(market_state)
                        request.(current_balance) request.(current_position)
                        current_ppi;
        blend_actions rl_action grok_action in
      match decided with
      | Raise e => (st, [], Raise e)
      | Ok action =>
          let current_step := (episode_data.(current_step) + 1)%Z in
          let reward :=
            match action.(type) with
            | buy => uniform (-0.5) 1.5 env.(u_reward) * action.(size)
            | sell => uniform (-0.5) 2 env.(u_reward) * action.(size)
            | hold => uniform (-0.1) 0.1 env.(u_reward)
            end in
          let ppi_delta := reward * 2 in
          let episode_data :=
            set_step_and_ppi episode_data current_step
              (py_max 0 (py_min 100 (current_ppi + ppi_delta))) in
          let st := set_active_episodes st
                      (<[episode_id := episode_data]> st.(active_episodes)) in
          let saved :=
            if st.(supabase)
            then [actions_insert episode_id current_step action.(type)
                    action.(size) request.(market_state).(price) reward
                    action.(confidence)]
            else [] in
          let response :=
            {| resp_episode_id := episode_id; step := current_step;
               action := action; resp_timestamp := env.(step_now) |} in
          let '(st, sent) :=
            broadcast_to_episode env.(send_ok) episode_id (msg_step response) st in
          (st, app saved sent, Ok response)
      end
  end.

(** What the outside does during one [end_episode]. *)
Record EndEnv := {
  episodes_updated : result unit;
  agents_by_id : result (list AgentRow);
  agents_stats_updated : result unit;
  end_send_ok : WebSocket -> bool
}.

(** The running averages written back to the agent's row. *)
Definition running_average (old : option Q) (episodes_count : Z) (value : Q)
  : result Q :=
  truediv (or_0 old * inject_Z (episodes_count - 1) + value)
          (inject_Z episodes_count).

Definition end_episode (env : EndEnv) (request : EndEpisodeRequest)
    (st : ApiState) : ApiState * list effect * result EndEpisodeResponse :=
  let episode_id := request.(end_episode_id) in
  match st.(active_episodes) !! episode_id with
  | None => (st, [], Raise (HTTPException 404 "Episode not found"))
  | Some episode_data =>
      let agent_id := episode_data.(agent_id) in
      if negb st.(supabase) then
        (st, [], Raise (HTTPException 500 "Supabase not configured"))
      else
        let failed (effects : list effect) (e : exn) :=
          (st, effects,
           Raise (HTTPException 500 ("Failed to end episode: " +:+ str e))) in
        let finish (effects : list effect) (irr sharpe : Q) :=
          let '(st, sent) :=
            broadcast_to_episode env.(end_send_ok) episode_id
              (msg_end episode_id request.(final_pnl) request.(end_ppi_score)
                 irr sharpe) st in
          let closed :=
            ws_close <$> default [] (st.(websocket_connections) !! episode_id) in
          ({| supabase := st.(supabase);
              active_episodes := delete episode_id st.(active_episodes);
              websocket_connections :=
                delete episode_id st.(websocket_connections) |},
           app effects (app sent closed),
           Ok {| ended_episode_id := episode_id; ended_agent_id := agent_id;
                 saved := true;
                 message := "Episode ended and saved successfully" |}) in
        let effects :=
          [episodes_update episode_id request.(total_reward)
             request.(total_steps) request.(end_ppi_score)] in
        match env.(episodes_updated) with
        | Raise e => failed effects e
        | Ok _ =>
            let metrics :=
              ratio ← truediv request.(final_pnl) episode_data.(initial_balance);
              let irr := ratio * 100 in
              sharpe ← truediv irr
                         (py_max 1 (inject_Z request.(total_steps) / 10));
              mret (irr, sharpe) in
            match metrics with
            | Raise e => failed effects e
            | Ok (irr, sharpe) =>
                match env.(agents_by_id) with
                | Raise e => failed effects e
                | Ok [] => finish effects irr sharpe
                | Ok (current_agent :: _) =>
                    let episodes_count := current_agent.(episodes_trained) in
                    let averages :=
                      new_irr ← running_average current_agent.(Main.irr)
                                  episodes_count irr;
                      new_sharpe ← running_average current_agent.(Main.sharpe)
                                     episodes_count sharpe;
                      new_ppi ← running_average current_agent.(row_ppi_score)
                                  episodes_count request.(end_ppi_score);
                      mret (new_irr, new_sharpe, new_ppi) in
                    match averages with
                    | Raise e => failed effects e
                    | Ok (new_irr, new_sharpe, new_ppi) =>
                        let effects :=
                          app effects
                            [agents_update_stats agent_id new_irr new_sharpe
                               new_ppi] in
                        match env.(agents_stats_updated) with
                        | Raise e => failed effects e
                        | Ok _ => finish effects irr sharpe
                        end
                    end
                end
            end
        end
  end.

(** [get_agent_stats]. *)
Definition get_agent_stats {Row : Type} (env : StatsEnv Row)
    (agent_id : string) (st : ApiState) : result (AgentStats Row) :=
  if negb st.(supabase) then
    Raise (HTTPException 500 "Supabase not configured")
  else
    let fetched :=
      agent ← env.(agent_selected);
      match agent with
      | [] => Raise (HTTPException 404 "Agent not found")
      | row :: _ =>
          episodes ← env.(episodes_selected);
          mret {| stats_agent := row;
                  total_episodes := Z.of_nat (length episodes);
                  stats_episodes := episodes |}
      end in
    match fetched with
    | Ok stats => Ok stats
    | Raise e =>
        Raise (HTTPException 500 ("Failed to fetch agent stats: " +:+ str e))
    end.

End Handlers.

End Main.

(** ** env.py: Strategy A, the tiered composite *)

Module Env.
Import Py.
Local Open Scope Q_scope.

(** The fields of [SentientTraderEnv] that the scoring reads. *)
Record SentientTraderEnv := {
  capital : Q;
  price : Q;
  volatility : Q;
  initial_capital : Q;
  max_capital : Q
}.

(** [u_belonging] and [u_solar] are the raw draws behind the two calls of
    [np.random.uniform]. *)
Definition _calculate_ppi (self : SentientTraderEnv)
    (u_belonging u_solar : Q) (pnl_pct drawdown : Q) : Q :=
  let safety_score := 0 in
  let safety_score :=
    if Qltb self.(volatility) 0.05 then safety_score + 50 else safety_score in
  let safety_score :=
    if Qltb drawdown 10 then safety_score + 50 else safety_score in
  let safety_score := (safety_score / 100) * 40 in
  let belonging_score := uniform 0.6 1 u_belonging * 20 in
  let esteem_score :=
    if Qgtb pnl_pct 0 then py_min (pnl_pct / 10) 1 * 20 else 0 in
  let solar_pct := uniform 0.7 1 u_solar in
  let self_actualization_score := solar_pct * 20 in
  let total_ppi :=
    safety_score + belonging_score + esteem_score + self_actualization_score in
  np_clip total_ppi 0 100.

End Env.

(** ** train_sentient_trader.py: Strategy B, the weighted silos *)

Module Train.
Import Py.
Local Open Scope Q_scope.
Local Open Scope string_scope.

(** The keys of [episode_data] that the scoring reads; a key may be
    absent, and [.get] then supplies the default. *)
Record EpisodeData := {
  fear_greed : option Q;
  etf_inflows : option Q;
  solar_regen : option bool;
  whale_accum : option Q;
  sharpe : option Q
}.

Record Silo := {
  name : string;
  score : Q;
  weight : Q;
  inputs : string
}.

Section WithNumberText.

(** [f"{x}"], the text of a number. *)
Variable str : Q -> string.

Definition calculate_hybrid_ppi (episode_data : EpisodeData) : Q * list Silo :=
  let fear_greed := default 50 episode_data.(fear_greed) in
  let sentiment_score := fear_greed / 10 in
  let etf_inflows := default 0 episode_data.(etf_inflows) in
  let flow_score := py_min (etf_inflows / 1000000000) 10 in
  let solar_regen := default false episode_data.(solar_regen) in
  let tech_score := if solar_regen then 7 else 3 in
  let whale_accum := default 0 episode_data.(whale_accum) in
  let macro_score := if Qgtb whale_accum 20000 then 8 else 4 in
  let sharpe := default 0 episode_data.(sharpe) in
  let esteem_score := 6 + (sharpe * 2) in
  let silos :=
    [ {| name := "Sentiment"; score := round_ndigits sentiment_score 2;
         weight := 0.4;
         inputs := "Fear & Greed: " +:+ str fear_greed +:+ ", MPT 40%" |};
      {| name := "Flow"; score := round_ndigits flow_score 2;
         weight := 0.2;
         inputs := "ETF Inflows: $" +:+ format_f (etf_inflows / 1000000000) 1 +:+ "B" |};
      {| name := "Tech"; score := round_ndigits tech_score 2;
         weight := 0.15;
         inputs := "Solar Regen: " +:+ (if solar_regen then "Yes" else "No") |};
      {| name := "Macro"; score := round_ndigits macro_score 2;
         weight := 0.15;
         inputs := "Whale Accum: " +:+ str whale_accum +:+ " BTC" |};
      {| name := "Esteem"; score := round_ndigits esteem_score 2;
         weight := 0.1;
         inputs := "Sharpe: " +:+ format_f sharpe 2 |} ] in
  let composite :=
    foldl Qplus 0 ((λ s, s.(score) * s.(weight)) <$> silos) * 10 in
  (composite, silos).

End WithNumberText.

(** *** The training environment and its step *)

(** [KeyError] and [TypeError], as the exceptions they are. *)
Definition KeyError (key : string) : exn := Exception ("KeyError: " +:+ key).
Definition TypeError : exn := Exception "TypeError".

Record SentientTraderEnv := {
  capital : Q;
  price : Q;
  volatility : Q;
  step_count : Z;
  max_steps : Z;
  episode_data : EpisodeData;
  initial_capital : Q;
  max_drawdown : Q;
  peak_value : Q
}.

(** The request that [call_grok] posts, and what may come back: the
    members of the answer are optional, and [size] need not be a
    number. *)
Record TradeRequest := {
  req_price : Q;
  req_volatility : Q;
  req_capital : Q;
  req_sentiment : Q;
  req_ppi_tier : string
}.

Inductive json_value :=
| json_number (v : Q)
| json_other.

Record TradeData := {
  data_action : option string;
  data_size : option json_value;
  data_reasoning : option string
}.

(** [trade_response status body]: [body] is [None] when [json()] raises
    or does not give an object. *)
Inductive trade_reply :=
| trade_raises
| trade_response (status_code : Z) (body : option TradeData).

Record GrokAction := {
  action : string;
  size : json_value;
  reasoning : string
}.

(** What the outside does during one [step]. *)
Record StepEnv := {
  grok : TradeRequest -> trade_reply;
  k_choice : nat;
  u_vote : Q;
  randn : Q;
  u_volatility : Q;
  supabase : bool;
  now : Z
}.

Record MarketSummary := {
  asset : string;
  prev_close : Q;
  current : Q;
  change : Q;
  drivers : string
}.

Record Performance := {
  final_value : Q;
  return_pct : Q;
  perf_sharpe : Q;
  perf_max_drawdown : Q
}.

Record Report := {
  mood_snapshot : string;
  mental_debris : string;
  trigger_watch : string;
  affirmation : string;
  market_summary : MarketSummary;
  ppi_composite : Q;
  macro_bias : string;
  short_term_risk : string;
  recommendation : string;
  report_silos : list Silo;
  performance : Performance
}.

Record Info := {
  ppi : Q;
  info_action : Z;
  grok_reasoning : string;
  info_price : Q;
  portfolio : Q;
  info_volatility : Q;
  info_max_drawdown : Q;
  report : option Report
}.

(** The row that [_log_episode] inserts. *)
Record EpisodeRow := {
  episode_number : Z;
  total_reward : Q;
  steps : Z;
  ppi_score : Q;
  final_price : Q;
  row_volatility : Q;
  row_max_drawdown : Q
}.

Record StepResult := {
  obs : list Q;
  reward : Q;
  done : bool;
  truncated : bool;
  info : Info
}.

Section WithMath.

(** [f"{x}"], [np.exp], [np.log] and the rounding to [float32]. *)
Variable str : Q -> string.
Variable exp : Q -> Q.
Variable log : Q -> Q.
Variable float32 : Q -> Q.

Definition _get_obs (self : SentientTraderEnv) : result (list Q) :=
  progress ← truediv (inject_Z self.(step_count)) (inject_Z self.(max_steps));
  fear_greed ← match self.(episode_data).(fear_greed) with
                | Some v => Ok v
                | None => Raise (KeyError "fear_greed")
                end;
  mret (float32 <$> [ self.(price); self.(volatility); self.(capital);
                      progress; fear_greed / 100 ]).

Definition call_grok (env : StepEnv) (state : list Q) : result GrokAction :=
  match state with
  | [price; vol; capital; step_ratio; sentiment] =>
      let fallback :=
        {| action := nth (env.(k_choice) mod 3) ["buy"; "sell"; "hold"] "hold";
           size := json_number 0.1;
           reasoning := "API fallback - random action" |} in
      match env.(grok)
              {| req_price := price; req_volatility := vol;
                 req_capital := capital;
                 req_sentiment := float32 (sentiment * 10);
                 req_ppi_tier :=
                   if Qltb vol 0.05 then "safety" else "belonging" |} with
      | trade_raises => Ok fallback
      | trade_response status_code body =>
          if decide (status_code = 200%Z) then
            match body with
            | Some data =>
                Ok {| action := default "hold" data.(data_action);
                      size := default (json_number 0.1) data.(data_size);
                      reasoning := default "API response" data.(data_reasoning) |}
            | None => Ok fallback
            end
          else Ok fallback
      end
  | _ => Raise ValueError
  end.

Definition set_sharpe (e : EpisodeData) (v : Q) : EpisodeData :=
  {| fear_greed := e.(fear_greed); etf_inflows := e.(etf_inflows);
     solar_regen := e.(solar_regen); whale_accum := e.(whale_accum);
     sharpe := Some v |}.

Definition _generate_report (self : SentientTraderEnv) (ppi final_value : Q)
    (silos : list Silo) : result Report :=
  etf_inflows ← match self.(episode_data).(etf_inflows) with
                 | Some v => Ok v
                 | None => Raise (KeyError "etf_inflows")
                 end;
  sharpe ← match self.(episode_data).(sharpe) with
            | Some v => Ok v
            | None => Raise (KeyError "sharpe")
            end;
  mret
    {| mood_snapshot :=
         if Qgtb ppi 50 then "Neutral with cautious optimism"
         else "Bearish caution";
       mental_debris :=
         "Processed $" +:+ format_f (etf_inflows / 1000000000) 1 +:+
         "B ETF inflows";
       trigger_watch := "Alert for vol from Fed; watch $114K support";
       affirmation := "Today I act from data and plan, not from reactions.";
       market_summary :=
         {| asset := "BTC"; prev_close := 115148; current := self.(price);
            change := (self.(price) - 115148) / 115148;
            drivers := "Neutral sentiment; ETF buffer vs. Fed uncertainty" |};
       ppi_composite := round_ndigits ppi 1;
       macro_bias :=
         if Qgtb ppi 60 then "Bullish"
         else if Qgtb ppi 40 then "Neutral" else "Bearish";
       short_term_risk :=
         if Qgtb self.(volatility) 0.05 then "High" else "Moderate";
       recommendation :=
         if Qgtb final_value 1 then "Hold core above $114K" else "Scale out";
       report_silos := silos;
       performance :=
         {| final_value := final_value;
            return_pct := (final_value - 1) * 100;
            perf_sharpe := sharpe;
            perf_max_drawdown := self.(max_drawdown) * 100 |} |}.

(** [_log_episode]: the row it inserts when the store is configured
    (whether the insert then succeeds does not matter: its failure is
    caught). *)
Definition _log_episode (env : StepEnv) (self : SentientTraderEnv)
    (info : Info) : list EpisodeRow :=
  if env.(supabase) then
    [ {| episode_number := env.(now);
         total_reward := info.(portfolio) - 1;
         steps := self.(step_count);
         ppi_score := info.(ppi);
         final_price := self.(price);
         row_volatility := self.(volatility);
         row_max_drawdown := self.(max_drawdown) |} ]
  else [].

(** [x >= size], [x - size] and [x + size] for a [size] out of the
    answer: a value that is not a number raises. *)
Definition at_least (x : Q) (size : json_value) : result bool :=
  match size with
  | json_number v => Ok (Qgeb x v)
  | json_other => Raise TypeError
  end.

Definition minus (x : Q) (size : json_value) : result Q :=
  match size with
  | json_number v => Ok (x - v)
  | json_other => Raise TypeError
  end.

Definition plus (x : Q) (size : json_value) : result Q :=
  match size with
  | json_number v => Ok (x + v)
  | json_other => Raise TypeError
  end.

Definition step (env : StepEnv) (action : Z) (self : SentientTraderEnv)
  : SentientTraderEnv * list EpisodeRow * result StepResult :=
  match _get_obs self ≫= call_grok env with
  | Raise e => (self, [], Raise e)
  | Ok grok_action =>
      let grok_vote :=
        if decide (grok_action.(Train.action) = "buy") then 1%Z
        else if decide (grok_action.(Train.action) = "sell") then 2%Z
        else 0%Z in
      let final_action :=
        if Qltb env.(u_vote) 0.5 then grok_vote else action in
      let size := grok_action.(Train.size) in
      let btc_holdings := 1 - self.(capital) in
      let traded : result Q :=
        buys ← (if decide (final_action = 1%Z)
                then at_least self.(capital) size else Ok false);
        if buys : bool then minus self.(capital) size
        else
          sells ← (if decide (final_action = 2%Z)
                   then at_least btc_holdings size else Ok false);
          if sells : bool then plus self.(capital) size
          else Ok self.(capital) in
      match traded with
      | Raise e => (self, [], Raise e)
      | Ok capital =>
          let price := self.(price) * exp (env.(randn) * 0.01) in
          let volatility := 0.03 + env.(u_volatility) * 0.02 in
          let step_count := (self.(step_count) + 1)%Z in
          let btc_holdings := 1 - capital in
          let portfolio_value := capital + btc_holdings * (price / 112000) in
          let peak_value :=
            if Qgtb portfolio_value self.(peak_value) then portfolio_value
            else self.(peak_value) in
          let drawdown := (peak_value - portfolio_value) / peak_value in
          let max_drawdown := py_max self.(max_drawdown) drawdown in
          let returns :=
            (portfolio_value - self.(initial_capital)) / self.(initial_capital) in
          let episode_data :=
            set_sharpe self.(episode_data) (returns / (volatility + 0.000001)) in
          let self :=
            {| capital := capital; price := price; volatility := volatility;
               step_count := step_count; max_steps := self.(max_steps);
               episode_data := episode_data;
               initial_capital := self.(initial_capital);
               max_drawdown := max_drawdown; peak_value := peak_value |} in
          let '(ppi, silos) := calculate_hybrid_ppi str episode_data in
          let log_return := log (portfolio_value + 0.000001) in
          let ppi_bonus := 0.2 * (ppi / 100) in
          let reward := log_return + ppi_bonus in
          let done := bool_decide (self.(max_steps) ≤ step_count)%Z in
          let info (report : option Report) :=
            {| ppi := ppi; info_action := final_action;
               grok_reasoning := grok_action.(Train.reasoning);
               info_price := price; portfolio := portfolio_value;
               info_volatility := volatility;
               info_max_drawdown := max_drawdown; report := report |} in
          let finished : result (Info * list EpisodeRow) :=
            if done then
              report ← _generate_report self ppi portfolio_value silos;
              mret (info (Some report),
                    _log_episode env self (info (Some report)))
            else mret (info None, []) in
          match finished with
          | Raise e => (self, [], Raise e)
          | Ok (info, logged) =>
              match _get_obs self with
              | Raise e => (self, logged, Raise e)
              | Ok obs =>
                  (self, logged,
                   Ok {| obs := obs; reward := reward; done := done;
                         truncated := false; info := info |})
              end
          end
      end
  end.

End WithMath.

End Train.

(** ** env_finrl.py: the actor simulation and the regret gate *)

Module EnvFinRL.
Import Py.
Local Open Scope Q_scope.
Local Open Scope string_scope.

(** [ACTORS], in the order of the dict: id and display name. *)
Definition ACTORS : list (string * string) :=
  [ ("retail", "Retail"); ("whale", "Whale"); ("hft", "HFT-MM");
    ("etf", "Institution"); ("arb", "Arb Bot"); ("you", "Sentient Trader") ].

(** A bar of the market data frame. *)
Record Bar := {
  close : Q;
  bar_volume : Q
}.

Record Trade := {
  trade_step : nat;
  trade_action : string;
  trade_size : Q;
  trade_price : Q
}.

Record SentientTraderFinRLEnv := {
  df : list Bar;
  current_step : nat;
  max_steps : Z;
  capital : Q;
  initial_capital : Q;
  price : Q;
  volatility : Q;
  actor_regrets : list float;
  actor_inventory : list Q;
  actor_last_action : list Q;
  ppi_silos : list Q;
  dxy : Q;
  vix : Q;
  fear_greed : Q;
  volume : Q;
  trades : list Trade;
  pnl_history : list Q;
  drawdown_history : list Q;
  max_capital : Q;
  nash_equilibrium_count : Z
}.

(** *** Methods run in a state monad with exceptions

    A method reads and mutates [self]; when it raises, what it had already
    mutated stays. *)

Definition M (A : Type) : Type :=
  SentientTraderFinRLEnv -> SentientTraderFinRLEnv * result A.

#[global] Instance M_ret : MRet M := fun A a self => (self, Ok a).
#[global] Instance M_bind : MBind M :=
  fun A B f m self =>
    match m self with
    | (self', Ok a) => f a self'
    | (self', Raise e) => (self', Raise e)
    end.

Definition gets {A : Type} (f : SentientTraderFinRLEnv -> A) : M A :=
  fun self => (self, Ok (f self)).
Definition modify (f : SentientTraderFinRLEnv -> SentientTraderFinRLEnv) : M unit :=
  fun self => (f self, Ok tt).
Definition raise {A : Type} (e : exn) : M A :=
  fun self => (self, Raise e).

(** [try: body except: handler], with a bare [except]. *)
Definition try_except {A : Type} (body handler : M A) : M A :=
  fun self =>
    match body self with
    | (self', Ok a) => (self', Ok a)
    | (self', Raise _) => handler self'
    end.

(** [for x in xs: body(x)]. *)
Fixpoint for_each {A : Type} (xs : list A) (body : A -> M unit) : M unit :=
  match xs with
  | [] => mret tt
  | x :: rest => body x ≫= λ _, for_each rest body
  end.

(** [enumerate(xs)]. *)
Definition enumerate {A : Type} (xs : list A) : list (nat * A) :=
  imap (λ i x, (i, x)) xs.

Definition set_capital (v : Q) (s : SentientTraderFinRLEnv) :=
  {| df := s.(df); current_step := s.(current_step); max_steps := s.(max_steps);
     capital := v; initial_capital := s.(initial_capital); price := s.(price);
     volatility := s.(volatility); actor_regrets := s.(actor_regrets);
     actor_inventory := s.(actor_inventory);
     actor_last_action := s.(actor_last_action); ppi_silos := s.(ppi_silos);
     dxy := s.(dxy); vix := s.(vix); fear_greed := s.(fear_greed);
     volume := s.(volume); trades := s.(trades); pnl_history := s.(pnl_history);
     drawdown_history := s.(drawdown_history); max_capital := s.(max_capital);
     nash_equilibrium_count := s.(nash_equilibrium_count) |}.

Definition set_trades (v : list Trade) (s : SentientTraderFinRLEnv) :=
  {| df := s.(df); current_step := s.(current_step); max_steps := s.(max_steps);
     capital := s.(capital); initial_capital := s.(initial_capital);
     price := s.(price); volatility := s.(volatility);
     actor_regrets := s.(actor_regrets); actor_inventory := s.(actor_inventory);
     actor_last_action := s.(actor_last_action); ppi_silos := s.(ppi_silos);
     dxy := s.(dxy); vix := s.(vix); fear_greed := s.(fear_greed);
     volume := s.(volume); trades := v; pnl_history := s.(pnl_history);
     drawdown_history := s.(drawdown_history); max_capital := s.(max_capital);
     nash_equilibrium_count := s.(nash_equilibrium_count) |}.

Definition set_actor_regrets (v : list float) (s : SentientTraderFinRLEnv) :=
  {| df := s.(df); current_step := s.(current_step); max_steps := s.(max_steps);
     capital := s.(capital); initial_capital := s.(initial_capital);
     price := s.(price); volatility := s.(volatility);
     actor_regrets := v; actor_inventory := s.(actor_inventory);
     actor_last_action := s.(actor_last_action); ppi_silos := s.(ppi_silos);
     dxy := s.(dxy); vix := s.(vix); fear_greed := s.(fear_greed);
     volume := s.(volume); trades := s.(trades); pnl_history := s.(pnl_history);
     drawdown_history := s.(drawdown_history); max_capital := s.(max_capital);
     nash_equilibrium_count := s.(nash_equilibrium_count) |}.

Definition set_actor_inventory (v : list Q) (s : SentientTraderFinRLEnv) :=
  {| df := s.(df); current_step := s.(current_step); max_steps := s.(max_steps);
     capital := s.(capital); initial_capital := s.(initial_capital);
     price := s.(price); volatility := s.(volatility);
     actor_regrets := s.(actor_regrets); actor_inventory := v;
     actor_last_action := s.(actor_last_action); ppi_silos := s.(ppi_silos);
     dxy := s.(dxy); vix := s.(vix); fear_greed := s.(fear_greed);
     volume := s.(volume); trades := s.(trades); pnl_history := s.(pnl_history);
     drawdown_history := s.(drawdown_history); max_capital := s.(max_capital);
     nash_equilibrium_count := s.(nash_equilibrium_count) |}.

Definition set_actor_last_action (v : list Q) (s : SentientTraderFinRLEnv) :=
  {| df := s.(df); current_step := s.(current_step); max_steps := s.(max_steps);
     capital := s.(capital); initial_capital := s.(initial_capital);
     price := s.(price); volatility := s.(volatility);
     actor_regrets := s.(actor_regrets); actor_inventory := s.(actor_inventory);
     actor_last_action := v; ppi_silos := s.(ppi_silos);
     dxy := s.(dxy); vix := s.(vix); fear_greed := s.(fear_greed);
     volume := s.(volume); trades := s.(trades); pnl_history := s.(pnl_history);
     drawdown_history := s.(drawdown_history); max_capital := s.(max_capital);
     nash_equilibrium_count := s.(nash_equilibrium_count) |}.

Definition set_ppi_silos (v : list Q) (s : SentientTraderFinRLEnv) :=
  {| df := s.(df); current_step := s.(current_step); max_steps := s.(max_steps);
     capital := s.(capital); initial_capital := s.(initial_capital);
     price := s.(price); volatility := s.(volatility);
     actor_regrets := s.(actor_regrets); actor_inventory := s.(actor_inventory);
     actor_last_action := s.(actor_last_action); ppi_silos := v;
     dxy := s.(dxy); vix := s.(vix); fear_greed := s.(fear_greed);
     volume := s.(volume); trades := s.(trades); pnl_history := s.(pnl_history);
     drawdown_history := s.(drawdown_history); max_capital := s.(max_capital);
     nash_equilibrium_count := s.(nash_equilibrium_count) |}.

(** The scalar bookkeeping of one step, written at once. *)
Definition set_market (price volume : Q) (s : SentientTraderFinRLEnv) :=
  {| df := s.(df); current_step := s.(current_step); max_steps := s.(max_steps);
     capital := s.(capital); initial_capital := s.(initial_capital);
     price := price; volatility := s.(volatility);
     actor_regrets := s.(actor_regrets); actor_inventory := s.(actor_inventory);
     actor_last_action := s.(actor_last_action); ppi_silos := s.(ppi_silos);
     dxy := s.(dxy); vix := s.(vix); fear_greed := s.(fear_greed);
     volume := volume; trades := s.(trades); pnl_history := s.(pnl_history);
     drawdown_history := s.(drawdown_history); max_capital := s.(max_capital);
     nash_equilibrium_count := s.(nash_equilibrium_count) |}.

Definition set_current_step (v : nat) (s : SentientTraderFinRLEnv) :=
  {| df := s.(df); current_step := v; max_steps := s.(max_steps);
     capital := s.(capital); initial_capital := s.(initial_capital);
     price := s.(price); volatility := s.(volatility);
     actor_regrets := s.(actor_regrets); actor_inventory := s.(actor_inventory);
     actor_last_action := s.(actor_last_action); ppi_silos := s.(ppi_silos);
     dxy := s.(dxy); vix := s.(vix); fear_greed := s.(fear_greed);
     volume := s.(volume); trades := s.(trades); pnl_history := s.(pnl_history);
     drawdown_history := s.(drawdown_history); max_capital := s.(max_capital);
     nash_equilibrium_count := s.(nash_equilibrium_count) |}.

Definition set_performance (pnl_history drawdown_history : list Q)
    (max_capital : Q) (s : SentientTraderFinRLEnv) :=
  {| df := s.(df); current_step := s.(current_step); max_steps := s.(max_steps);
     capital := s.(capital); initial_capital := s.(initial_capital);
     price := s.(price); volatility := s.(volatility);
     actor_regrets := s.(actor_regrets); actor_inventory := s.(actor_inventory);
     actor_last_action := s.(actor_last_action); ppi_silos := s.(ppi_silos);
     dxy := s.(dxy); vix := s.(vix); fear_greed := s.(fear_greed);
     volume := s.(volume); trades := s.(trades); pnl_history := pnl_history;
     drawdown_history := drawdown_history; max_capital := max_capital;
     nash_equilibrium_count := s.(nash_equilibrium_count) |}.

Definition set_nash_equilibrium_count (v : Z) (s : SentientTraderFinRLEnv) :=
  {| df := s.(df); current_step := s.(current_step); max_steps := s.(max_steps);
     capital := s.(capital); initial_capital := s.(initial_capital);
     price := s.(price); volatility := s.(volatility);
     actor_regrets := s.(actor_regrets); actor_inventory := s.(actor_inventory);
     actor_last_action := s.(actor_last_action); ppi_silos := s.(ppi_silos);
     dxy := s.(dxy); vix := s.(vix); fear_greed := s.(fear_greed);
     volume := s.(volume); trades := s.(trades); pnl_history := s.(pnl_history);
     drawdown_history := s.(drawdown_history); max_capital := s.(max_capital);
     nash_equilibrium_count := v |}.

(** [a[i]] and [a[i] = v] on an array: out of range raises. *)
Definition getitem {A : Type} (a : list A) (i : nat) : result A :=
  match a !! i with
  | Some v => Ok v
  | None => Raise IndexError
  end.

Definition setitem {A : Type} (a : list A) (i : nat) (v : A)
  : result (list A) :=
  if decide (i < length a)%nat then Ok (<[i := v]> a) else Raise IndexError.

Definition lift {A : Type} (r : result A) : M A := fun self => (self, r).

(** NumPy reductions on a one-dimensional array.  [np.max] and [np.mean]
    of an array that holds a [nan] are [nan]. *)
Definition maximum (x y : float) : float :=
  match x, y with
  | fin a, fin b => fin (if Qltb a b then b else a)
  | _, _ => nan
  end.

Definition np_max (a : list float) : result float :=
  match a with
  | [] => Raise ValueError
  | x :: rest => Ok (foldl maximum x rest)
  end.

Definition np_sum (a : list Q) : Q := foldl Qplus 0 a.

Definition np_mean (a : list Q) : Q := np_sum a / inject_Z (Z.of_nat (length a)).

(** The entries of an array, when none of them is [nan]. *)
Fixpoint numbers (a : list float) : option (list Q) :=
  match a with
  | [] => Some []
  | fin q :: rest => cons q <$> numbers rest
  | nan :: _ => None
  end.

(** [np.mean] of an array that may hold a [nan]. *)
Definition nan_mean (a : list float) : float :=
  match numbers a with
  | Some qs => fin (np_mean qs)
  | None => nan
  end.

Fixpoint np_diff (a : list Q) : list Q :=
  match a with
  | x :: (y :: _) as rest => (y - x) :: np_diff rest
  | _ => []
  end.

(** [a[-n:]]. *)
Definition last_n {A : Type} (n : nat) (a : list A) : list A :=
  drop (length a - n) a.

(** [np.random.choice(xs)], from the index the generator draws. *)
Definition choice (xs : list Q) (k : nat) : Q := nth (k mod length xs) xs 0.

(** *** The regret forecast *)

Record RegretRequest := {
  actor_name : string;
  req_price : Q;
  req_volatility : Q;
  inventory : Q
}.

(** The member [regret] of the answer, when present, by what becomes of
    it in [self.actor_regrets[i] = ...]: a number, which the array stores;
    [null] (Python's [None]), which the array stores as [nan] without an
    error; or a value that the array refuses with an exception (a text
    that is no number, a list, an object). *)
Inductive json_value :=
| json_number (v : Q)
| json_null
| json_other.

(** The body of an answer: unreadable ([json()] raises, or the value is
    not an object), or an object with or without a member [regret]. *)
Inductive regret_body :=
| body_unreadable
| body_object (regret : option json_value).

Inductive regret_reply :=
| regret_raises
| regret_response (status_code : Z) (body : regret_body).

(** What the outside does during one step: the oracle, and the draws of
    the generator, one per place that draws. *)
Record StepEnv := {
  regret_oracle : RegretRequest -> regret_reply;
  randn : nat -> Q;
  u_whale : Q;
  k_hft : nat;
  u_arb : Q;
  k_arb : nat;
  u_belonging : Q
}.

Definition set_regret (i : nat) (v : float) : M unit :=
  a ← gets actor_regrets;
  a' ← lift (setitem a i v);
  modify (set_actor_regrets a').

(** The body of the loop of [_update_actor_regrets], for the actor at
    index [i]: the forecast in a [try], the random walk in its bare
    [except]. *)
Definition forecast_regret (env : StepEnv) (i : nat)
    (actor_data_name : string) : M unit :=
  try_except
    (price ← gets price;
     volatility ← gets volatility;
     inventory ← gets actor_inventory ≫= λ a, lift (getitem a i);
     match env.(regret_oracle)
             {| actor_name := actor_data_name; req_price := price;
                req_volatility := volatility; inventory := inventory |} with
     | regret_raises => raise TransportError
     | regret_response status_code body =>
         if decide (status_code = 200%Z) then
           match body with
           | body_unreadable => raise ValueError
           | body_object None => set_regret i (fin 0.5)
           | body_object (Some (json_number v)) => set_regret i (fin v)
           | body_object (Some json_null) => set_regret i nan
           | body_object (Some json_other) => raise ValueError
           end
         else mret tt
     end)
    (regret ← gets actor_regrets ≫= λ a, lift (getitem a i);
     set_regret i
       (float_map (λ r, np_clip (r + env.(randn) i * 0.1) 0 1) regret)).

Definition _update_actor_regrets (env : StepEnv) : M unit :=
  for_each (enumerate ACTORS) (λ '(i, (actor_id, actor_data_name)),
    forecast_regret env i actor_data_name).

(** *** The other actors *)

Definition set_last_action (i : nat) (v : Q) : M unit :=
  a ← gets actor_last_action;
  a' ← lift (setitem a i v);
  modify (set_actor_last_action a').

Definition update_inventory (i : nat) (f : Q -> Q) : M unit :=
  a ← gets actor_inventory;
  x ← lift (getitem a i);
  a' ← lift (setitem a i (f x));
  modify (set_actor_inventory a').

Definition _simulate_actors (env : StepEnv) : M unit :=
  for_each (enumerate ACTORS) (λ '(i, (actor_id, _)),
    if decide (actor_id = "retail") then
      regret ← gets actor_regrets ≫= λ a, lift (getitem a i);
      if float_ltb regret 0.3 then
        _ ← set_last_action i 1;
        update_inventory i (λ x, x + 0.01)
      else if float_gtb regret 0.8 then
        _ ← set_last_action i 2;
        update_inventory i (λ x, py_max 0 (x - 0.02))
      else set_last_action i 0
    else if decide (actor_id = "whale") then
      if Qltb env.(u_whale) 0.05 then
        _ ← set_last_action i 1;
        update_inventory i (λ x, x + 1)
      else set_last_action i 0
    else if decide (actor_id = "hft") then
      set_last_action i (choice [0; 1; 2] env.(k_hft))
    else if decide (actor_id = "etf") then
      _ ← set_last_action i 1;
      update_inventory i (λ x, x + 0.1)
    else if decide (actor_id = "arb") then
      if Qltb env.(u_arb) 0.3 then set_last_action i (choice [1; 2] env.(k_arb))
      else set_last_action i 0
    else if decide (actor_id = "you") then
      set_last_action i 0
    else mret tt).

Definition set_silo (i : nat) (v : Q) : M unit :=
  a ← gets ppi_silos;
  a' ← lift (setitem a i v);
  modify (set_ppi_silos a').

Definition _update_ppi_silos (env : StepEnv) (pnl_pct drawdown : Q) : M unit :=
  volatility ← gets volatility;
  _ ← set_silo 0 (if Qltb volatility 0.05 && Qltb drawdown 10 then 8 else 3);
  _ ← set_silo 1 (uniform 5 8 env.(u_belonging));
  _ ← set_silo 2 (if Qgtb pnl_pct 0 then 7 else 4);
  _ ← set_silo 3 8;
  _ ← set_silo 4 7;
  _ ← set_silo 5 6.5;
  set_silo 6 6.

Definition _check_nash_equilibrium : M bool :=
  regrets ← gets actor_regrets;
  let stable_actors :=
    length (filter (λ r, float_ltb r 0.3 = true) regrets) in
  mret (bool_decide (3 ≤ stable_actors)%nat).

(** *** The observation and the step *)

Section WithNumPy.

(** [np.log1p], and the rounding of [astype(np.float32)]. *)
Variable log1p : Q -> Q.
Variable float32 : Q -> Q.

Definition _get_obs : M (list float) :=
  df ← gets df;
  current_step ← gets current_step;
  match df !! current_step with
  | None => raise IndexError
  | Some row =>
      _ ← modify (set_market row.(close) row.(bar_volume));
      self ← gets id;
      let obs :=
        concat
          [ fin <$> self.(ppi_silos);
            self.(actor_regrets);
            (λ x, fin (x / 100)) <$> self.(actor_inventory);
            fin <$> self.(actor_last_action);
            fin <$> [ self.(dxy) / 100;
                      self.(vix) / 100;
                      self.(fear_greed) / 100;
                      self.(price) / 100000;
                      log1p self.(volume) / 20 ] ] in
      let obs :=
        if decide (length obs < 42)%nat
        then app obs (replicate (42 - length obs) (fin 0))
        else obs in
      mret (take 42 (float_map float32 <$> obs))
  end.

Record Info := {
  info_action : string;
  pnl : Q;
  pnl_pct : Q;
  drawdown : Q;
  info_price : Q;
  info_actor_regrets : list float;
  nash_stable : bool;
  nash_stability_pct : Q;
  regret_blocked : bool;
  ppi_composite : Q
}.

Record StepResult := {
  obs : list float;
  reward : float;
  terminated : bool;
  truncated : bool;
  info : Info
}.

(** The risk table [[0.25, 0.5, 1.0]], each entry with its text in an
    f-string. *)
Definition risk_pcts : list (Q * string) :=
  [ (0.25, "0.25"); (0.5, "0.5"); (1, "1.0") ].

(** Part 3 of [step]: the trade of the action, and its record.  It yields
    the name of the action. *)
Definition execute_action (action : Z) : M string :=
  capital ← gets capital;
  '(trade_size, action_name) ←
    (if decide (action = 0)%Z then mret (0, "hold")
     else if decide (1 ≤ action ≤ 3)%Z then
       match risk_pcts !! Z.to_nat (action - 1) with
       | None => raise IndexError
       | Some (risk_pct, text) =>
           let trade_size := capital * risk_pct / 100 in
           _ ← modify (set_capital (capital - trade_size));
           mret (trade_size, "long_" +:+ text +:+ "%")
       end
     else if decide (4 ≤ action ≤ 6)%Z then
       match risk_pcts !! Z.to_nat (action - 4) with
       | None => raise IndexError
       | Some (risk_pct, text) =>
           let trade_size := capital * risk_pct / 100 in
           _ ← modify (set_capital (capital + trade_size));
           mret (trade_size, "short_" +:+ text +:+ "%")
       end
     else if decide (action = 7)%Z then
       let trade_size := capital * 0.10 in
       _ ← modify (set_capital (capital - trade_size));
       mret (trade_size, "ramp_ez")
     else if decide (action = 8)%Z then
       let trade_size := 0.02 in
       _ ← modify (set_capital (capital - trade_size));
       mret (trade_size, "trac")
     else mret (0, "hold"));
  _ ← (if Qeq_bool trade_size 0 then mret tt
       else
         self ← gets id;
         modify (set_trades
                   (app self.(trades)
                      [ {| trade_step := self.(current_step);
                           trade_action := action_name;
                           trade_size := trade_size;
                           trade_price := self.(price) |} ])));
  mret action_name.

(** Part 2 of [step]: the regret gate.  It yields the action to execute
    and whether the gate overrode the requested one. *)
Definition regret_gate (action : Z) : M (Z * bool) :=
  regrets ← gets actor_regrets;
  highest ← lift (np_max regrets);
  if float_gtb highest 0.7 then mret (0%Z, true) else mret (action, false).

(** Parts 4 to 10 of [step], after the trade: the other actors, the
    clock, the performance figures, the silos, the stability check, the
    reward, the two stop flags, and the result. *)
Definition account (env : StepEnv) (action_name : string)
    (regret_blocked : bool) : M StepResult :=
  _ ← _simulate_actors env;
  _ ← (self ← gets id; modify (set_current_step (self.(current_step) + 1)));
  self ← gets id;
  let current_value := self.(capital) * self.(price) in
  let pnl := current_value - self.(initial_capital) * self.(price) in
  let pnl_pct := (pnl / (self.(initial_capital) * self.(price))) * 100 in
  let max_capital := py_max self.(max_capital) current_value in
  let drawdown := ((max_capital - current_value) / max_capital) * 100 in
  _ ← modify (set_performance (app self.(pnl_history) [pnl_pct])
                (app self.(drawdown_history) [drawdown]) max_capital);
  _ ← _update_ppi_silos env pnl_pct drawdown;
  nash_stable ← _check_nash_equilibrium;
  _ ← (if nash_stable : bool
       then self ← gets id;
            modify (set_nash_equilibrium_count
                      (self.(nash_equilibrium_count) + 1))
       else mret tt);
  self ← gets id;
  let stability :=
    inject_Z self.(nash_equilibrium_count) /
    inject_Z (Z.of_nat (Nat.max self.(current_step) 1)) in
  let reward := pnl / 1000 in
  let reward :=
    float_map (λ mean, reward - 0.4 * mean) (nan_mean self.(actor_regrets)) in
  let nash_deviation := 1 - stability in
  let reward := float_map (λ reward, reward - 0.3 * nash_deviation) reward in
  let reward :=
    if nash_stable : bool then float_map (λ reward, reward + 1) reward
    else reward in
  let terminated :=
    bool_decide (self.(max_steps) ≤ Z.of_nat self.(current_step))%Z in
  let truncated :=
    Qgtb drawdown 5
    || Qgtb (np_sum (Qabs <$> np_diff (last_n 3 self.(ppi_silos)))) 15 in
  let info :=
    {| info_action := action_name;
       pnl := pnl;
       pnl_pct := pnl_pct;
       drawdown := drawdown;
       info_price := self.(price);
       info_actor_regrets := self.(actor_regrets);
       nash_stable := nash_stable;
       nash_stability_pct := stability * 100;
       regret_blocked := regret_blocked;
       ppi_composite := np_mean self.(ppi_silos) * 10 |} in
  obs ← _get_obs;
  mret {| obs := obs; reward := reward; terminated := terminated;
          truncated := truncated; info := info |}.

Definition step (env : StepEnv) (action : Z) : M StepResult :=
  _ ← _update_actor_regrets env;
  '(action, regret_blocked) ← regret_gate action;
  action_name ← execute_action action;
  account env action_name regret_blocked.

(** *** Reset *)

(** What the outside does during one [reset]: the raw draws of the two
    [np.random.uniform] arrays, and the value that [_fetch_fear_greed]
    reads ([None] when the request or the reading of its answer
    raises). *)
Record ResetEnv := {
  u_regrets : nat -> Q;
  u_silos : nat -> Q;
  fear_greed_value : option Z
}.

Definition _fetch_fear_greed (env : ResetEnv) : Q :=
  match env.(fear_greed_value) with
  | Some value => inject_Z value
  | None => 50
  end.

Definition reset (env : ResetEnv) : M (list float) :=
  _ ← modify (λ self,
        {| df := self.(df);
           current_step := 0;
           max_steps := self.(max_steps);
           capital := 1;
           initial_capital := 1;
           price := self.(price);
           volatility := self.(volatility);
           actor_regrets :=
             (λ i, fin (uniform 0.2 0.5 (env.(u_regrets) i))) <$> seq 0 6;
           actor_inventory := [0.1; 26; 0.5; 100; 1; 1];
           actor_last_action := replicate 6 0;
           ppi_silos := (λ i, uniform 3 7 (env.(u_silos) i)) <$> seq 0 7;
           dxy := 104.5;
           vix := 15;
           fear_greed := _fetch_fear_greed env;
           volume := self.(volume);
           trades := [];
           pnl_history := [];
           drawdown_history := [];
           max_capital := 1;
           nash_equilibrium_count := 0 |});
  _get_obs.

End WithNumPy.

End EnvFinRL.

(** ** report.py: the wording of a report *)

Module Report.
Import Py.
Local Open Scope Q_scope.
Local Open Scope string_scope.

(** The keys of the episode row that the helpers read; a key may be
    absent, and [.get] then supplies the default. *)
Record Episode := {
  total_reward : option Q;
  volatility : option Q;
  max_drawdown : option Q
}.

(** The latest row of [ppi_scores], when there is one. *)
Record PpiData := {
  composite_score : Q
}.

Definition _get_mood_snapshot (episode : Episode) (ppi_data : option PpiData)
  : string :=
  let ppi := match ppi_data with
             | Some data => data.(composite_score)
             | None => 0
             end in
  let reward := default 0 episode.(total_reward) in
  if Qgtb ppi 70 && Qgtb reward 0 then "Bullish with strong confidence"
  else if Qgtb ppi 50 then "Neutral with cautious optimism"
  else "Bearish caution - risk management mode".

Definition _get_trigger_watch (episode : Episode) : string :=
  let volatility := default 0.03 episode.(volatility) in
  if Qgtb volatility 0.05
  then "High volatility alert - watch for Fed announcements"
  else "Alert for vol from Fed; watch key support levels".

Definition _get_macro_bias (ppi_data : option PpiData) : string :=
  match ppi_data with
  | None => "Neutral"
  | Some data =>
      let ppi := data.(composite_score) in
      if Qgtb ppi 70 then "Bullish"
      else if Qgtb ppi 50 then "Neutral"
      else "Bearish"
  end.

Definition _get_risk_level (episode : Episode) : string :=
  let volatility := default 0.03 episode.(volatility) in
  let drawdown := default 0 episode.(max_drawdown) in
  if Qgtb volatility 0.05 || Qgtb drawdown 0.1 then "High"
  else if Qgtb volatility 0.03 || Qgtb drawdown 0.05 then "Moderate"
  else "Low".

Definition _get_recommendation (episode : Episode) (ppi_data : option PpiData)
  : string :=
  let ppi := match ppi_data with
             | Some data => data.(composite_score)
             | None => 0
             end in
  let reward := default 0 episode.(total_reward) in
  if Qgtb ppi 70 && Qgtb reward 0
  then "Accumulate on dips; maintain core position"
  else if Qgtb ppi 50 then "Hold core positions; wait for clearer signals"
  else "Scale out; preserve capital in risk-off mode".

End Report.

(** * Vocabulary of the properties

    The terms in which the properties below are stated, and the concrete
    inputs at which some of them are evaluated. *)

Section Tiers.
Import Py Main.
Local Open Scope Q_scope.
Local Open Scope string_scope.

(** The five tier names, in the order of the map. *)
Definition tier_names : list string := snd <$> PPI_TIER_MAP.

End Tiers.

Section FusionTerms.
Import Py Main.
Local Open Scope Q_scope.
Local Open Scope string_scope.

(** The fields a pydantic [Action] was validated for. *)
Definition valid_action (a : Action) : Prop :=
  0 <= a.(size) <= 1 /\ 0 <= a.(confidence) <= 1.

(** The blend in the words of the specification: the signed scalar of a
    kind, the thresholds on the average, and the agreement factor. *)
Definition kind_scalar (t : action_type) : Q :=
  match t with
  | buy => 1
  | hold => 0
  | sell => -1
  end.

Definition threshold_kind (average : Q) : action_type :=
  if Qgtb average 0.3 then buy
  else if Qltb average (-0.3) then sell
  else hold.

Definition agreement (a b : action_type) : Q :=
  if decide (a = b) then 1 else 0.5.

(** [r] is [x] rounded to [ndigits] decimals: [k / 10 ^ ndigits] for an
    integer [k] at most one half away from [x * 10 ^ ndigits].  Where [x]
    is exactly halfway between two such numbers, both qualify: there the
    float that stands for [x] decides which one [round] returns. *)
Definition rounded_to (ndigits : nat) (x r : Q) : Prop :=
  exists k : Z,
    r == inject_Z k / inject_Z (10 ^ Z.of_nat ndigits) /\
    Qabs (inject_Z k - x * inject_Z (10 ^ Z.of_nat ndigits)) <= 1 # 2.

(** Two validated [buy] votes whose sizes and confidences average to
    [1/32]. *)
Definition vote_a : Action :=
  {| type := buy; size := 0.0625; confidence := 0.0625; reasoning := "a" |}.

(** The same kind at size and confidence 0. *)
Definition vote_b : Action :=
  {| type := buy; size := 0; confidence := 0; reasoning := "b" |}.

End FusionTerms.

Section ScoringInputs.
Import Py.
Local Open Scope Q_scope.

(** The [episode_data] that [reset] builds (26900000000 of inflows, 26430 BTC
    of whale accumulation, solar), with a greed reading of 90 and a Sharpe
    ratio of 10. *)
Definition euphoric_episode : Train.EpisodeData :=
  {| Train.fear_greed := Some 90;
     Train.etf_inflows := Some 26900000000;
     Train.solar_regen := Some true;
     Train.whale_accum := Some 26430;
     Train.sharpe := Some 10 |}.

(** The same with a reading of 10 and a Sharpe ratio of -30. *)
Definition crashing_episode : Train.EpisodeData :=
  {| Train.fear_greed := Some 10;
     Train.etf_inflows := Some 26900000000;
     Train.solar_regen := Some true;
     Train.whale_accum := Some 26430;
     Train.sharpe := Some (-30) |}.

End ScoringInputs.

Section SessionTerms.
Import Py Main.
Local Open Scope Q_scope.
Local Open Scope string_scope.

Variable str : exn -> string.

(** A call of the API, with what the outside does during it. *)
Inductive call :=
| call_start (env : StartEnv) (request : StartEpisodeRequest)
| call_step (env : StepEnv) (request : StepRequest)
| call_end (env : EndEnv) (request : EndEpisodeRequest)
| call_subscribe (websocket : WebSocket) (episode_id : string).

Definition run_call (st : ApiState) (c : call) : ApiState :=
  match c with
  | call_start env request => (start_episode str env request st).1.1
  | call_step env request => (take_step str env request st).1.1
  | call_end env request => (end_episode str env request st).1.1
  | call_subscribe websocket episode_id =>
      (websocket_episode websocket episode_id st).1
  end.

(** The registry after a sequence of calls, whatever each one answers. *)
Definition run_calls (st : ApiState) (calls : list call) : ApiState :=
  foldl run_call st calls.

(** The store hands the id [episode_id] to a [start_episode]. *)
Definition issues (c : call) (episode_id : string) : Prop :=
  match c with
  | call_start env _ =>
      env.(episodes_inserted) ≫= head_row = Ok episode_id
  | _ => False
  end.

(** What [take_step] raises for an id that is not live. *)
Definition not_found : exn :=
  HTTPException 404 "Episode not found or already ended".

End SessionTerms.

Section SessionInputs.
Import Py Main.
Local Open Scope Q_scope.
Local Open Scope string_scope.

(** One live episode of an agent that has three episodes and a mean
    return of 10; the episode is ended with a return of 20 percent. *)
Definition plain_text : exn -> string := λ _, "error".

Definition live_episode : EpisodeData :=
  {| agent_id := "agent-1"; ep_agent_name := "Agent-A";
     initial_balance := 10000; current_step := 1;
     agent := new_MockRLAgent "Agent-A"; started_at := 0;
     ppi_score := None |}.

Definition one_live : ApiState :=
  {| supabase := true;
     active_episodes := {[ "ep-1" := live_episode ]};
     websocket_connections := {[ "ep-1" := [] ]} |}.

Definition third_episode_agent : AgentRow :=
  {| row_id := "agent-1"; row_name := "Agent-A"; episodes_trained := 3;
     irr := Some 10; sharpe := None; row_ppi_score := None |}.

Definition store_answers : EndEnv :=
  {| episodes_updated := Ok tt;
     agents_by_id := Ok [third_episode_agent];
     agents_stats_updated := Ok tt;
     end_send_ok := λ _, true |}.

Definition end_with_20_percent : EndEpisodeRequest :=
  {| end_episode_id := "ep-1"; final_pnl := 2000; end_ppi_score := 82.5;
     total_steps := 100; total_reward := 12 |}.

Definition quiet_oracle : StepEnv :=
  {| draws := {| u_momentum := 0.5; u_noise := 0.5; u_size := 0.5;
                 u_confidence := 0.5 |};
     grok := λ _, grok_raises TransportError;
     u_reward := 0.5;
     send_ok := λ _, true;
     step_now := 1 |}.

Definition step_on_ep_1 : StepRequest :=
  {| step_episode_id := "ep-1";
     market_state := {| price := 45000; volume := 1000; sentiment := 0;
                        timestamp := 1 |};
     current_balance := 10000; current_position := 0 |}.

End SessionInputs.

Section ObservationTerms.
Import Py EnvFinRL.
Local Open Scope Q_scope.

Variable log1p : Q -> Q.

(** What [_get_obs] concatenates, once the bar of the current step is
    read: whatever the five upstream blocks hold. *)
Definition produced (self : SentientTraderFinRLEnv) (row : Bar)
  : list float :=
  concat
    [ fin <$> self.(ppi_silos);
      self.(actor_regrets);
      (λ x, fin (x / 100)) <$> self.(actor_inventory);
      fin <$> self.(actor_last_action);
      fin <$> [ self.(dxy) / 100;
                self.(vix) / 100;
                self.(fear_greed) / 100;
                row.(close) / 100000;
                log1p row.(bar_volume) / 20 ] ].

End ObservationTerms.

Section ActorSimulationTerms.
Import Py EnvFinRL.
Local Open Scope Q_scope.
Local Open Scope string_scope.

(** The random walk of the [except] branch; from [nan] it stays at
    [nan]. *)
Definition random_walk (env : StepEnv) (i : nat) (regret : float) : float :=
  float_map (λ r, np_clip (r + env.(randn) i * 0.1) 0 1) regret.

(** The regret that one pass of the loop leaves for actor [i], in the
    words of the specification: the returned value on success (0.5 when
    the answer has no such member, [nan] when the member is [null]), the
    clamped random walk when the call or the reading of its answer fails;
    an answer with another status leaves the regret as it was. *)
Definition forecast (env : StepEnv) (self : SentientTraderFinRLEnv)
    (i : nat) (name : string) (regret : float) : float :=
  match self.(actor_inventory) !! i with
  | None => random_walk env i regret
  | Some inventory =>
      match env.(regret_oracle)
              {| actor_name := name; req_price := self.(price);
                 req_volatility := self.(volatility);
                 inventory := inventory |} with
      | regret_raises => random_walk env i regret
      | regret_response status_code body =>
          if decide (status_code = 200%Z) then
            match body with
            | body_object None => fin 0.5
            | body_object (Some (json_number v)) => fin v
            | body_object (Some json_null) => nan
            | _ => random_walk env i regret
            end
          else regret
      end
  end.

(** The loop, as a fold over the actors in order. *)
Definition forecast_at (env : StepEnv) (self : SentientTraderFinRLEnv)
    (regrets : list float) (actor : nat * (string * string)) : list float :=
  <[actor.1 := forecast env self actor.1 actor.2.2
                 (default (fin 0) (regrets !! actor.1))]> regrets.

Definition forecast_all (env : StepEnv) (self : SentientTraderFinRLEnv)
  : list float :=
  foldl (forecast_at env self) self.(actor_regrets) (enumerate ACTORS).

(** A frame: whether the method returns or raises, the reading [f] of
    the state is as it was. *)
Definition keeps {A B : Type} (f : SentientTraderFinRLEnv -> B) (m : M A) : Prop :=
  forall self, f (m self).1 = f self.

(** The two fields that the trade of a step writes. *)
Definition book (self : SentientTraderFinRLEnv) : Q * list Trade :=
  (self.(capital), self.(trades)).

(** A float that is a number between [lo] and [hi]; a regret in range. *)
Definition within (lo hi : Q) (x : float) : Prop :=
  match x with
  | fin q => lo <= q <= hi
  | nan => False
  end.

Definition in_unit (x : float) : Prop := within 0 1 x.

(** An oracle whose answers of status 200 never carry [null] as the
    regret, and carry a number in [[0,1]] when they carry a number. *)
Definition oracle_in_unit (env : StepEnv) : Prop :=
  forall request value,
    env.(regret_oracle) request =
      regret_response 200 (body_object (Some value)) ->
    match value with
    | json_number v => 0 <= v <= 1
    | json_null => False
    | json_other => True
    end.

(** The gate of a step is closed by an array of regrets: every entry is a
    number, and one of them exceeds 0.7. *)
Definition closes_the_gate (regrets : list float) : Prop :=
  Forall (λ r, r <> nan) regrets /\
  Exists (λ r, float_gtb r 0.7 = true) regrets.

(** A state with six actors and seven silos, the frame [d] and the
    clock at [k]. *)
Definition ready (d : list Bar) (k : nat) (self : SentientTraderFinRLEnv) : Prop :=
  self.(df) = d /\ self.(current_step) = k /\
  length self.(actor_regrets) = 6%nat /\
  length self.(actor_inventory) = 6%nat /\
  length self.(actor_last_action) = 6%nat /\
  length self.(ppi_silos) = 7%nat.

(** A state that [step] can run on: the six actors, the seven silos, and
    a bar after the current one in the data frame. *)
Definition can_step (self : SentientTraderFinRLEnv) : Prop :=
  ready self.(df) self.(current_step) self /\
  is_Some (self.(df) !! S self.(current_step)).

End ActorSimulationTerms.

Section StepInputs.
Import Py EnvFinRL.
Local Open Scope Q_scope.
Local Open Scope string_scope.

(** An environment as [reset] leaves it: two bars, six actors at a
    regret of 0.3. *)
Definition two_bars : list Bar :=
  [ {| close := 112000; bar_volume := 1000000000 |};
    {| close := 112500; bar_volume := 1200000000 |} ].

Definition after_reset : SentientTraderFinRLEnv :=
  {| df := two_bars; current_step := 0; max_steps := 1;
     capital := 1; initial_capital := 1; price := 112000; volatility := 0.03;
     actor_regrets := [fin 0.3; fin 0.3; fin 0.3; fin 0.3; fin 0.3; fin 0.3];
     actor_inventory := [0.1; 26; 0.5; 100; 1; 1];
     actor_last_action := [0; 0; 0; 0; 0; 0];
     ppi_silos := [5; 5; 5; 5; 5; 5; 5];
     dxy := 104.5; vix := 15; fear_greed := 50; volume := 1000000000;
     trades := []; pnl_history := []; drawdown_history := [];
     max_capital := 1; nash_equilibrium_count := 0 |}.

(** An oracle that answers every request with [200 {"regret": 5.0}]. *)
Definition alarmed_oracle : StepEnv :=
  {| regret_oracle :=
       λ _, regret_response 200 (body_object (Some (json_number 5)));
     randn := λ _, 1; u_whale := 0.5; k_hft := 0; u_arb := 0.5; k_arb := 0;
     u_belonging := 0.5 |}.

(** An oracle that answers every request with status 503. *)
Definition refusing_oracle : StepEnv :=
  {| regret_oracle := λ _, regret_response 503 body_unreadable;
     randn := λ _, 1; u_whale := 0.5; k_hft := 0; u_arb := 0.5; k_arb := 0;
     u_belonging := 0.5 |}.

(** An oracle that answers [200 {"regret": 0.95}] for the retail actor
    and [200 {"regret": null}] for every other actor. *)
Definition null_oracle : StepEnv :=
  {| regret_oracle :=
       λ request,
         regret_response 200
           (body_object
              (Some (if decide (request.(actor_name) = "Retail")
                     then json_number 0.95 else json_null)));
     randn := λ _, 1; u_whale := 0.5; k_hft := 0; u_arb := 0.5; k_arb := 0;
     u_belonging := 0.5 |}.

(** A stand-in for [np.log1p] and for the cast to [float32]. *)
Definition as_is : Q -> Q := λ x, x.

(** An oracle that answers every request with [200 {"regret": 0.2}]. *)
Definition calm_oracle : StepEnv :=
  {| regret_oracle :=
       λ _, regret_response 200 (body_object (Some (json_number 0.2)));
     randn := λ _, 1; u_whale := 0.5; k_hft := 0; u_arb := 0.5; k_arb := 0;
     u_belonging := 0.5 |}.

End StepInputs.

Section PolicyTerms.
Import Py Main.
Local Open Scope Q_scope.
Local Open Scope string_scope.

(** The request that [get_grok_decision] posts. *)
Definition grok_request (market_state : MarketState)
    (current_balance current_position ppi_score : Q) : GrokRequest :=
  {| grok_price := market_state.(price);
     grok_volatility := py_min 1 (market_state.(volume) / 1000000);
     ppiTier := get_ppi_tier ppi_score;
     capital := current_position + current_balance / market_state.(price) |}.

(** An answer the code can use: status 200, a readable body, one of the
    three kinds, and a size in [[0,1]]. *)
Definition usable (reply : grok_reply) (kind : action_type) (data : GrokData)
  : Prop :=
  reply = grok_response 200 (Ok data) /\
  action_type_of_str data.(data_action) = Ok kind /\
  0 <= data.(data_size) <= 1.

End PolicyTerms.

Section PolicyInputs.
Import Py Main.
Local Open Scope Q_scope.
Local Open Scope string_scope.

(** An oracle that advises to buy half a position. *)
Definition advising_oracle : GrokRequest -> grok_reply :=
  λ _, grok_response 200
         (Ok {| data_action := "buy"; data_size := 0.5;
                data_reasoning := "dip" |}).

(** An oracle whose call times out. *)
Definition silent_oracle : GrokRequest -> grok_reply :=
  λ _, grok_raises TransportError.

Definition market_at_45000 : MarketState :=
  {| price := 45000; volume := 1000; sentiment := 0; timestamp := 1 |}.

Definition market_at_0 : MarketState :=
  {| price := 0; volume := 1000; sentiment := 0; timestamp := 1 |}.

Definition even_draws : DecideDraws :=
  {| u_momentum := 0.5; u_noise := 0.5; u_size := 0.5; u_confidence := 0.5 |}.

(** A validated sell of size 0.2, and a validated hold. *)
Definition sell_vote : Action :=
  {| type := sell; size := 0.2; confidence := 0.9; reasoning := "s" |}.


End PolicyInputs.

Section RegistryInputs.
Import Py Main.
Local Open Scope Q_scope.
Local Open Scope string_scope.

(** A store that knows the agent, counts two earlier episodes of it and
    hands out the id [ep-2]. *)
Definition store_starts : StartEnv :=
  {| agents_by_name := Ok [third_episode_agent];
     agents_updated := Ok tt;
     agents_inserted := Ok [];
     episodes_of_agent := Ok [1%Z; 2%Z];
     episodes_inserted := Ok ["ep-2"];
     start_now := 5 |}.

(** The same store when its insert of the episode fails. *)
Definition store_refuses : StartEnv :=
  {| agents_by_name := Ok [third_episode_agent];
     agents_updated := Ok tt;
     agents_inserted := Ok [];
     episodes_of_agent := Ok [1%Z; 2%Z];
     episodes_inserted := Raise TransportError;
     start_now := 5 |}.

Definition start_agent_a : StartEpisodeRequest :=
  {| start_agent_name := "Agent-A"; start_initial_balance := 10000 |}.


Definition end_ep_2 : EndEpisodeRequest :=
  {| end_episode_id := "ep-2"; final_pnl := 2000; end_ppi_score := 82.5;
     total_steps := 100; total_reward := 12 |}.

Definition step_on_ep_2 : StepRequest :=
  {| step_episode_id := "ep-2";
     market_state := {| price := 45000; volume := 1000; sentiment := 0;
                        timestamp := 1 |};
     current_balance := 10000; current_position := 0 |}.

(** The episode [ep-1] with two subscribers, of which only websocket 7
    can be reached. *)
Definition two_subscribers : ApiState :=
  {| supabase := true;
     active_episodes := {[ "ep-1" := live_episode ]};
     websocket_connections := {[ "ep-1" := [7%nat; 8%nat] ]} |}.

Definition only_7_reachable : EndEnv :=
  {| episodes_updated := Ok tt;
     agents_by_id := Ok [third_episode_agent];
     agents_stats_updated := Ok tt;
     end_send_ok := λ ws, bool_decide (ws = 7%nat) |}.

(** A store that has no agent of the id asked for. *)
Definition unknown_agent : StatsEnv Z :=
  {| agent_selected := Ok []; episodes_selected := Ok [] |}.

End RegistryInputs.

Section StepTerms.
Import Py EnvFinRL.
Local Open Scope Q_scope.
Local Open Scope string_scope.

(** What [_simulate_actors] leaves in the inventories and in the last
    actions, for six actors, the retail actor at the regret [regret]. *)
Definition inventories_moved (env : StepEnv) (regret : float)
    (inventory : list Q) : list Q :=
  match inventory with
  | [retail; whale; hft; etf; arb; you] =>
      [ if float_ltb regret 0.3 then retail + 0.01
        else if float_gtb regret 0.8 then py_max 0 (retail - 0.02)
        else retail;
        if Qltb env.(u_whale) 0.05 then whale + 1 else whale;
        hft;
        etf + 0.1;
        arb;
        you ]
  | _ => inventory
  end.

Definition actions_taken (env : StepEnv) (regret : float) : list Q :=
  [ if float_ltb regret 0.3 then 1 else if float_gtb regret 0.8 then 2 else 0;
    if Qltb env.(u_whale) 0.05 then 1 else 0;
    choice [0; 1; 2] env.(k_hft);
    1;
    if Qltb env.(u_arb) 0.3 then choice [1; 2] env.(k_arb) else 0;
    0 ].

(** The seven silos that [_update_ppi_silos] writes. *)
Definition silos_written (env : StepEnv) (volatility pnl_pct drawdown : Q)
  : list Q :=
  [ if Qltb volatility 0.05 && Qltb drawdown 10 then 8 else 3;
    uniform 5 8 env.(u_belonging);
    if Qgtb pnl_pct 0 then 7 else 4;
    8; 7; 6.5; 6 ].


(** The state that a trade of size [trade_size] under the name
    [action_name] leaves, the capital moved to [capital']: the trade is
    recorded unless its size is 0. *)
Definition traded (capital' trade_size : Q) (action_name : string)
    (self : SentientTraderFinRLEnv) : SentientTraderFinRLEnv :=
  if Qeq_bool trade_size 0 then set_capital capital' self
  else
    set_trades
      (app self.(trades)
         [ {| trade_step := self.(current_step);
              trade_action := action_name;
              trade_size := trade_size;
              trade_price := self.(price) |} ])
      (set_capital capital' self).

(** The trade that part 3 of [step] makes for an action at a capital:
    where the capital goes, the size of the trade and its name. *)
Definition trade_of (action : Z) (capital capital' trade_size : Q)
    (action_name : string) : Prop :=
  (action <= 0 \/ 8 < action)%Z /\
  capital' = capital /\ trade_size = 0 /\ action_name = "hold" \/
  (1 <= action <= 3)%Z /\
  (exists risk_pct text,
     risk_pcts !! Z.to_nat (action - 1) = Some (risk_pct, text) /\
     trade_size = capital * risk_pct / 100 /\
     action_name = "long_" +:+ text +:+ "%") /\
  capital' = capital - trade_size \/
  (4 <= action <= 6)%Z /\
  (exists risk_pct text,
     risk_pcts !! Z.to_nat (action - 4) = Some (risk_pct, text) /\
     trade_size = capital * risk_pct / 100 /\
     action_name = "short_" +:+ text +:+ "%") /\
  capital' = capital + trade_size \/
  action = 7%Z /\ trade_size = capital * 0.10 /\
  capital' = capital - trade_size /\ action_name = "ramp_ez" \/
  action = 8%Z /\ trade_size = 0.02 /\
  capital' = capital - trade_size /\ action_name = "trac".

(** The figures of parts 6 to 8 of [step], from the state the trade
    left. *)
Definition figures (self : SentientTraderFinRLEnv) : Q * Q * Q * Q :=
  let current_value := self.(capital) * self.(price) in
  let pnl := current_value - self.(initial_capital) * self.(price) in
  let pnl_pct := (pnl / (self.(initial_capital) * self.(price))) * 100 in
  let max_capital := py_max self.(max_capital) current_value in
  let drawdown := ((max_capital - current_value) / max_capital) * 100 in
  (pnl, pnl_pct, max_capital, drawdown).

Definition stable (regrets : list float) : bool :=
  bool_decide (3 ≤ length (filter (λ r, float_ltb r 0.3 = true) regrets))%nat.

(** The state that parts 4 to 9 of [step] leave, before the observation
    is taken. *)
Definition accounted (env : StepEnv) (self : SentientTraderFinRLEnv)
  : SentientTraderFinRLEnv :=
  let regret := default (fin 0) (self.(actor_regrets) !! 0%nat) in
  let '(pnl, pnl_pct, max_capital, drawdown) := figures self in
  {| df := self.(df);
     current_step := self.(current_step) + 1;
     max_steps := self.(max_steps);
     capital := self.(capital);
     initial_capital := self.(initial_capital);
     price := self.(price);
     volatility := self.(volatility);
     actor_regrets := self.(actor_regrets);
     actor_inventory := inventories_moved env regret self.(actor_inventory);
     actor_last_action := actions_taken env regret;
     ppi_silos := silos_written env self.(volatility) pnl_pct drawdown;
     dxy := self.(dxy);
     vix := self.(vix);
     fear_greed := self.(fear_greed);
     volume := self.(volume);
     trades := self.(trades);
     pnl_history := app self.(pnl_history) [pnl_pct];
     drawdown_history := app self.(drawdown_history) [drawdown];
     max_capital := max_capital;
     nash_equilibrium_count :=
       if stable self.(actor_regrets)
       then (self.(nash_equilibrium_count) + 1)%Z
       else self.(nash_equilibrium_count) |}.

(** What [step] returns beside the observation, read from the state
    before the observation. *)
Definition reported (action_name : string) (regret_blocked : bool)
    (self : SentientTraderFinRLEnv) (pnl pnl_pct drawdown : Q)
    (nash_stable : bool) (obs : list float) : StepResult :=
  let stability :=
    inject_Z self.(nash_equilibrium_count) /
    inject_Z (Z.of_nat (Nat.max self.(current_step) 1)) in
  let reward := pnl / 1000 in
  let reward :=
    float_map (λ mean, reward - 0.4 * mean) (nan_mean self.(actor_regrets)) in
  let reward := float_map (λ reward, reward - 0.3 * (1 - stability)) reward in
  {| obs := obs;
     reward :=
       if nash_stable then float_map (λ reward, reward + 1) reward else reward;
     terminated :=
       bool_decide (self.(max_steps) ≤ Z.of_nat self.(current_step))%Z;
     truncated :=
       Qgtb drawdown 5
       || Qgtb (np_sum (Qabs <$> np_diff (last_n 3 self.(ppi_silos)))) 15;
     info :=
       {| info_action := action_name;
          pnl := pnl;
          pnl_pct := pnl_pct;
          drawdown := drawdown;
          info_price := self.(price);
          info_actor_regrets := self.(actor_regrets);
          nash_stable := nash_stable;
          nash_stability_pct := stability * 100;
          regret_blocked := regret_blocked;
          ppi_composite := np_mean self.(ppi_silos) * 10 |} |}.

End StepTerms.

Section StepObservation.
Import Py EnvFinRL.
Local Open Scope Q_scope.

Variable log1p : Q -> Q.
Variable float32 : Q -> Q.

(** The observation that [_get_obs] builds from a state and a bar. *)
Definition observed (self : SentientTraderFinRLEnv) (row : Bar)
  : list float :=
  take 42
    (float_map float32 <$>
       (if decide (length (produced log1p self row) < 42)%nat
        then app (produced log1p self row)
                 (replicate (42 - length (produced log1p self row)) (fin 0))
        else produced log1p self row)).

End StepObservation.

Section ResetInputs.
Import Py EnvFinRL.
Local Open Scope Q_scope.

(** Draws in the middle of their range, and a greed reading of 60. *)
Definition middle_draws : ResetEnv :=
  {| u_regrets := λ _, 0.5; u_silos := λ _, 0.5;
     fear_greed_value := Some 60%Z |}.

End ResetInputs.

Section TrainingTerms.
Import Py Train.
Local Open Scope Q_scope.

(** An oracle whose sizes, when numbers, are not negative. *)
Definition sizes_non_negative (env : StepEnv) : Prop :=
  forall request status_code data v,
    env.(grok) request = trade_response status_code (Some data) ->
    data.(data_size) = Some (json_number v) -> 0 <= v.

End TrainingTerms.

Section TrainingInputs.
Import Py Train.
Local Open Scope Q_scope.
Local Open Scope string_scope.

(** The environment as [reset] leaves it, at a price of 112000. *)
Definition fresh_trainer : SentientTraderEnv :=
  {| capital := 1; price := 112000; volatility := 0.03; step_count := 0;
     max_steps := 1000; episode_data := euphoric_episode;
     initial_capital := 1; max_drawdown := 0; peak_value := 1 |}.

(** An oracle that advises to buy a tenth, followed by the vote, on a
    flat market. *)
Definition buying_oracle : StepEnv :=
  {| grok := λ _, trade_response 200
                    (Some {| data_action := Some "buy";
                             data_size := Some (json_number 0.1);
                             data_reasoning := None |});
     k_choice := 0; u_vote := 0.25; randn := 0; u_volatility := 0.5;
     supabase := false; now := 0 |}.

(** A stand-in for the text of a number. *)
Definition number_text : Q -> string := λ _, "n".

End TrainingInputs.

Section ReportInputs.
Import Py Report.
Local Open Scope Q_scope.

(** An episode row with a reward of 12 and nothing else. *)
Definition rewarded_episode : Episode :=
  {| total_reward := Some 12; volatility := None; max_drawdown := None |}.

End ReportInputs.

(** * Properties *)

Section PyFacts.
Import Py.
Local Open Scope Q_scope.

Lemma Qltb_lt (x y : Q) : Qltb x y = true <-> x < y.
Proof.
  unfold Qltb. rewrite negb_true_iff, <- not_true_iff_false, Qle_bool_iff.
  split; [apply Qnot_le_lt | apply Qlt_not_le].
Qed.

Lemma Qltb_ge (x y : Q) : Qltb x y = false <-> y <= x.
Proof.
  unfold Qltb. rewrite negb_false_iff. apply Qle_bool_iff.
Qed.

Lemma Qleb_le (x y : Q) : Qleb x y = true <-> x <= y.
Proof. apply Qle_bool_iff. Qed.

Lemma Qleb_gt (x y : Q) : Qleb x y = false <-> y < x.
Proof.
  unfold Qleb. rewrite <- not_true_iff_false, Qle_bool_iff.
  split; [apply Qnot_le_lt | apply Qlt_not_le].
Qed.

Lemma py_min_spec (a b : Q) :
  py_min a b <= a /\ py_min a b <= b /\ (py_min a b = a \/ py_min a b = b).
Proof.
  unfold py_min. destruct (Qltb b a) eqn:E.
  - apply Qltb_lt in E. repeat split; [lra | lra | now right].
  - apply Qltb_ge in E. repeat split; [lra | lra | now left].
Qed.

Lemma py_max_spec (a b : Q) :
  a <= py_max a b /\ b <= py_max a b /\ (py_max a b = a \/ py_max a b = b).
Proof.
  unfold py_max, Qgtb. destruct (Qltb a b) eqn:E.
  - apply Qltb_lt in E. repeat split; [lra | lra | now right].
  - apply Qltb_ge in E. repeat split; [lra | lra | now left].
Qed.

(** [np.clip] lands in the interval it is given. *)
Lemma np_clip_bounds (x lo hi : Q) : lo <= hi -> lo <= np_clip x lo hi <= hi.
Proof.
  intros Hlh. unfold np_clip.
  destruct (py_max_spec x lo) as (_ & Hlo & _).
  destruct (py_min_spec (py_max x lo) hi) as (_ & Hhi & [E | E]);
    rewrite E in *; lra.
Qed.

Lemma Qltb_proper (x x' y y' : Q) : x == x' -> y == y' -> Qltb x y = Qltb x' y'.
Proof.
  intros Hx Hy. destruct (Qltb x' y') eqn:E.
  - apply Qltb_lt. apply Qltb_lt in E. lra.
  - apply Qltb_ge. apply Qltb_ge in E. lra.
Qed.

Lemma round_half_even_proper (x y : Q) :
  x == y -> round_half_even x = round_half_even y.
Proof.
  intros H. unfold round_half_even.
  rewrite (Qfloor_comp x y H).
  rewrite (Qltb_proper (x - inject_Z (Qfloor y)) (y - inject_Z (Qfloor y))
             (1 # 2) (1 # 2)) by lra.
  rewrite (Qltb_proper (1 # 2) (1 # 2) (x - inject_Z (Qfloor y))
             (y - inject_Z (Qfloor y))) by lra.
  reflexivity.
Qed.

(** Rounding stays between two integers that enclose the argument. *)
Lemma round_half_even_bounds (a b : Z) (x : Q) :
  inject_Z a <= x <= inject_Z b -> (a <= round_half_even x <= b)%Z.
Proof.
  intros [Ha Hb].
  pose proof (Qfloor_le x) as Hf.
  pose proof (Qlt_floor x) as Hc.
  assert (Haf : (a <= Qfloor x)%Z).
  { apply Z.lt_succ_r. rewrite <- Z.add_1_r. rewrite Zlt_Qlt. lra. }
  assert (Hfb : (Qfloor x <= b)%Z).
  { rewrite Zle_Qle. lra. }
  unfold round_half_even.
  assert (Hup : inject_Z (Qfloor x) < x -> (Qfloor x + 1 <= b)%Z).
  { intros Hlt. rewrite Z.add_1_r. apply Z.le_succ_l. rewrite Zlt_Qlt. lra. }
  destruct (Qltb (x - inject_Z (Qfloor x)) (1 # 2)) eqn:E1; [lia |].
  apply Qltb_ge in E1.
  assert (inject_Z (Qfloor x) < x) by lra.
  destruct (Qltb (1 # 2) (x - inject_Z (Qfloor x))); [specialize (Hup H); lia |].
  destruct (Z.even (Qfloor x)); [lia | specialize (Hup H); lia].
Qed.

(** [round(x, 3)] keeps a value of the unit interval in it. *)
Lemma round_ndigits_unit (x : Q) : 0 <= x <= 1 -> 0 <= round_ndigits x 3 <= 1.
Proof.
  intros Hx. unfold round_ndigits.
  change (Z.to_pos (10 ^ Z.of_nat 3)) with 1000%positive.
  destruct (round_half_even_bounds 0 1000 (x * inject_Z 1000)) as [H0 H1].
  { change (inject_Z 0) with 0. change (inject_Z 1000) with 1000. lra. }
  unfold Qle. cbn. lia.
Qed.

Lemma round_ndigits_proper (x y : Q) (n : nat) :
  x == y -> round_ndigits x n = round_ndigits y n.
Proof.
  intros H. unfold round_ndigits. f_equal.
  apply round_half_even_proper. now rewrite H.
Qed.

(** Rounding moves a number by one half at most. *)
Lemma round_half_even_nearest (x : Q) :
  Qabs (inject_Z (round_half_even x) - x) <= 1 # 2.
Proof.
  pose proof (Qfloor_le x) as Hf.
  pose proof (Qlt_floor x) as Hc.
  rewrite inject_Z_plus in Hc. change (inject_Z 1) with 1 in Hc.
  unfold round_half_even.
  assert (Hup : inject_Z (Qfloor x + 1) == inject_Z (Qfloor x) + 1).
  { rewrite inject_Z_plus. reflexivity. }
  apply Qabs_Qle_condition.
  destruct (Qltb (x - inject_Z (Qfloor x)) (1 # 2)) eqn:E1.
  { apply Qltb_lt in E1. lra. }
  apply Qltb_ge in E1.
  destruct (Qltb (1 # 2) (x - inject_Z (Qfloor x))) eqn:E2.
  { rewrite Hup. lra. }
  apply Qltb_ge in E2.
  destruct (Z.even (Qfloor x)); [lra | rewrite Hup; lra].
Qed.

Lemma round_ndigits_3_rounded (x : Q) : rounded_to 3 x (round_ndigits x 3).
Proof.
  exists (round_half_even (x * inject_Z 1000)). split.
  - unfold round_ndigits.
    change (Z.to_pos (10 ^ Z.of_nat 3)) with 1000%positive.
    change (10 ^ Z.of_nat 3)%Z with 1000%Z.
    rewrite (Qmake_Qdiv _ 1000). reflexivity.
  - apply round_half_even_nearest.
Qed.

End PyFacts.

Ltac q_cases :=
  repeat match goal with
  | H : Py.Qltb _ _ = true |- _ => apply Qltb_lt in H
  | H : Py.Qltb _ _ = false |- _ => apply Qltb_ge in H
  | H : Py.Qleb _ _ = true |- _ => apply Qleb_le in H
  | H : Py.Qleb _ _ = false |- _ => apply Qleb_gt in H
  | H : Py.Qgtb _ _ = _ |- _ => unfold Py.Qgtb in H
  | H : Py.Qgeb _ _ = _ |- _ => unfold Py.Qgeb in H
  end.

(** [lra] reads a division by a numeral once it is a product. *)
Ltac q_consts :=
  unfold Qdiv in *;
  repeat match goal with
  | |- context [Qinv (Qmake ?n ?d)] =>
      let v := eval cbv in (Qinv (Qmake n d)) in
      change (Qinv (Qmake n d)) with v
  | H : context [Qinv (Qmake ?n ?d)] |- _ =>
      let v := eval cbv in (Qinv (Qmake n d)) in
      change (Qinv (Qmake n d)) with v in H
  end.

Section TierMapping.
Import Py Main.
Local Open Scope Q_scope.
Local Open Scope string_scope.

Lemma get_ppi_tier_bins (x : Q) :
  get_ppi_tier x =
    if Qleb 0 x && Qltb x 20 then "Survival (Physiological)"
    else if Qleb 20 x && Qltb x 40 then "Safety"
    else if Qleb 40 x && Qltb x 60 then "Belonging"
    else if Qleb 60 x && Qltb x 80 then "Esteem"
    else "Self-Actualization".
Proof.
  unfold get_ppi_tier, PPI_TIER_MAP, get_ppi_tier_loop.
  change (inject_Z 0) with 0. change (inject_Z 20) with 20.
  change (inject_Z 40) with 40. change (inject_Z 60) with 60.
  change (inject_Z 80) with 80. change (inject_Z 100) with 100.
  repeat (match goal with |- context [if ?b then _ else _] => destruct b eqn:? end;
          try reflexivity).
Qed.

Lemma tier_names_distinct : NoDup tier_names.
Proof.
  unfold tier_names, PPI_TIER_MAP. cbn.
  repeat (apply NoDup_cons_2;
          [ rewrite ?elem_of_cons, elem_of_nil; intros H;
            repeat (destruct H as [H | H]; [ discriminate H | ]); exact H | ]).
  apply NoDup_nil_2.
Qed.

Lemma get_ppi_tier_in_names (x : Q) : get_ppi_tier x ∈ tier_names.
Proof.
  rewrite get_ppi_tier_bins. unfold tier_names, PPI_TIER_MAP. cbn.
  repeat match goal with |- context [if ?b then _ else _] => destruct b end;
    rewrite !elem_of_cons; tauto.
Qed.

(** C4, as stated, at the score 0: the code does not name the lowest tier
    [Survival]; its name for the bin [[0,20)] is
    [Survival (Physiological)]. *)
Lemma get_ppi_tier_0_not_Survival : get_ppi_tier 0 <> "Survival".
Proof. vm_compute. discriminate. Qed.

(** C4 (amended): on [[0,100]] the tier mapping is total and assigns one of
    five pairwise distinct names by half-open bins of width 20, the lowest
    bin being named [Survival (Physiological)]; the score 100 falls with
    [[80,100)] into [Self-Actualization]. *)
Theorem get_ppi_tier_bins_of_width_20 (x : Q) :
  0 <= x <= 100 ->
  get_ppi_tier x ∈ tier_names /\ NoDup tier_names /\ length tier_names = 5%nat /\
  (0 <= x < 20 -> get_ppi_tier x = "Survival (Physiological)") /\
  (20 <= x < 40 -> get_ppi_tier x = "Safety") /\
  (40 <= x < 60 -> get_ppi_tier x = "Belonging") /\
  (60 <= x < 80 -> get_ppi_tier x = "Esteem") /\
  (80 <= x < 100 -> get_ppi_tier x = "Self-Actualization") /\
  (x == 100 -> get_ppi_tier x = "Self-Actualization").
Proof.
  intros Hx.
  split; [apply get_ppi_tier_in_names |].
  split; [apply tier_names_distinct |].
  split; [reflexivity |].
  rewrite get_ppi_tier_bins.
  repeat match goal with |- context [if ?b then _ else _] => destruct b eqn:? end;
    repeat match goal with
    | H : _ && _ = true |- _ => apply andb_true_iff in H as [? ?]
    | H : _ && _ = false |- _ => apply andb_false_iff in H
    end;
    q_cases;
    repeat split; intros; try reflexivity; exfalso;
    repeat match goal with H : _ \/ _ |- _ => destruct H end;
    q_cases; lra.
Qed.

(** The mapping at the closed upper bound, 100. *)
Lemma get_ppi_tier_bins_of_width_20_at_100 :
  0 <= 100 <= 100 /\ get_ppi_tier 100 = "Self-Actualization".
Proof.
  assert (H : 0 <= 100 <= 100) by lra.
  split; [exact H |].
  apply (get_ppi_tier_bins_of_width_20 100 H). reflexivity.
Defined.

End TierMapping.

(** ** The deterministic weighted blend *)

Section Fusion.
Import Py Main.
Local Open Scope Q_scope.

Lemma new_Action_valid (t : action_type) (s c : Q) (r : string) :
  0 <= s <= 1 -> 0 <= c <= 1 ->
  new_Action t s c r =
    Ok {| type := t; size := s; confidence := c; reasoning := r |}.
Proof.
  intros [Hs0 Hs1] [Hc0 Hc1]. unfold new_Action, Qgeb.
  apply Qleb_le in Hs0, Hs1, Hc0, Hc1.
  now rewrite Hs0, Hs1, Hc0, Hc1.
Qed.

Lemma agreement_bounds (a b : action_type) : 0 < agreement a b <= 1.
Proof. unfold agreement. destruct (decide (a = b)); lra. Qed.

Lemma agreement_sym (a b : action_type) : agreement a b = agreement b a.
Proof.
  unfold agreement. destruct (decide (a = b)), (decide (b = a)); congruence.
Qed.

Lemma blended_kind (a b : action_type) :
  (if Qgtb (inject_Z (action_values a + action_values b) / 2) 0.3 then buy
   else if Qltb (inject_Z (action_values a + action_values b) / 2) (-0.3)
   then sell else hold) =
  threshold_kind ((kind_scalar a + kind_scalar b) / 2).
Proof. destruct a, b; reflexivity. Qed.

(** What [blend_actions] returns on two validated actions, field by
    field. *)
Lemma blend_actions_fields (rl_action grok_action : Action) :
  valid_action rl_action -> valid_action grok_action ->
  exists final : Action,
    blend_actions rl_action grok_action = Ok final /\
    final.(type) =
      threshold_kind
        ((kind_scalar rl_action.(type) + kind_scalar grok_action.(type)) / 2) /\
    final.(size) =
      round_ndigits ((rl_action.(size) + grok_action.(size)) / 2) 3 /\
    final.(confidence) =
      round_ndigits
        ((rl_action.(confidence) + grok_action.(confidence)) / 2 *
         agreement rl_action.(type) grok_action.(type)) 3.
Proof.
  intros [Hs1 Hc1] [Hs2 Hc2].
  pose proof (agreement_bounds rl_action.(type) grok_action.(type)) as Hag.
  unfold blend_actions. rewrite blended_kind.
  fold (agreement rl_action.(type) grok_action.(type)).
  rewrite new_Action_valid.
  - eexists. split; [reflexivity |]. cbn. repeat split; reflexivity.
  - apply round_ndigits_unit. q_consts. lra.
  - apply round_ndigits_unit.
    set (g := agreement _ _) in *.
    set (m := (rl_action.(confidence) + grok_action.(confidence)) / 2).
    assert (0 <= m <= 1) by (unfold m; q_consts; lra).
    nra.
Qed.



Lemma valid_vote_a : valid_action vote_a.
Proof. unfold valid_action, vote_a. cbn. lra. Defined.

Lemma valid_vote_b : valid_action vote_b.
Proof. unfold valid_action, vote_b. cbn. lra. Defined.


(** C9: swapping the internal-policy action and the oracle action leaves
    the final kind, the final size and the final confidence of the blend
    unchanged. *)
Theorem blend_actions_symmetric (rl_action grok_action : Action) :
  valid_action rl_action -> valid_action grok_action ->
  exists final swapped : Action,
    blend_actions rl_action grok_action = Ok final /\
    blend_actions grok_action rl_action = Ok swapped /\
    final.(type) = swapped.(type) /\
    final.(size) = swapped.(size) /\
    final.(confidence) = swapped.(confidence).
Proof.
  intros Hrl Hgrok.
  destruct (blend_actions_fields rl_action grok_action Hrl Hgrok)
    as (final & Hrun & Htype & Hsize & Hconf).
  destruct (blend_actions_fields grok_action rl_action Hgrok Hrl)
    as (swapped & Hrun' & Htype' & Hsize' & Hconf').
  exists final, swapped. repeat split; try assumption.
  - rewrite Htype, Htype'. destruct rl_action.(type), grok_action.(type);
      reflexivity.
  - rewrite Hsize, Hsize'. apply round_ndigits_proper. q_consts. ring.
  - rewrite Hconf, Hconf'. rewrite (agreement_sym grok_action.(type)).
    apply round_ndigits_proper. q_consts. ring.
Qed.

(** The two votes blend to the same size in either order. *)
Lemma blend_actions_symmetric_of_two_votes :
  valid_action vote_a /\ valid_action vote_b /\
  exists final swapped : Action,
    blend_actions vote_a vote_b = Ok final /\
    blend_actions vote_b vote_a = Ok swapped /\
    final.(size) = swapped.(size).
Proof.
  split; [exact valid_vote_a |]. split; [exact valid_vote_b |].
  destruct (blend_actions_symmetric vote_a vote_b valid_vote_a valid_vote_b)
    as (final & swapped & H1 & H2 & _ & Hsize & _).
  exists final, swapped. auto.
Defined.

End Fusion.

(** ** The composite trust score *)

Section Scoring.
Import Py.
Local Open Scope Q_scope.

(** Strategy A clips its sum, whatever the inputs and the draws. *)
Lemma _calculate_ppi_clamped (self : Env.SentientTraderEnv)
    (u_belonging u_solar pnl_pct drawdown : Q) :
  0 <= Env._calculate_ppi self u_belonging u_solar pnl_pct drawdown <= 100.
Proof. unfold Env._calculate_ppi. apply np_clip_bounds. lra. Qed.

(** C1, at the two episodes above: Strategy B returns the weighted sum as
    it is, 104.5 and -7.5, outside [[0,100]]; nothing clamps it. *)
Theorem calculate_hybrid_ppi_not_clamped (str : Q -> string) :
  (Train.calculate_hybrid_ppi str euphoric_episode).1 == 104.5 /\
  ~ (Train.calculate_hybrid_ppi str euphoric_episode).1 <= 100 /\
  (Train.calculate_hybrid_ppi str crashing_episode).1 == -7.5 /\
  ~ 0 <= (Train.calculate_hybrid_ppi str crashing_episode).1.
Proof.
  repeat split; vm_compute; congruence.
Qed.

Lemma round_ndigits_2_bounds (x : Q) :
  0 <= x <= 10 -> 0 <= round_ndigits x 2 <= 10.
Proof.
  intros Hx. unfold round_ndigits.
  change (Z.to_pos (10 ^ Z.of_nat 2)) with 100%positive.
  destruct (round_half_even_bounds 0 1000 (x * inject_Z 100)) as [H0 H1].
  { change (inject_Z 0) with 0. change (inject_Z 1000) with 1000.
    change (inject_Z 100) with 100. lra. }
  unfold Qle. cbn. lia.
Qed.

(** Within the ranges its silos are scaled for (a reading in [[0,100]], a
    non-negative inflow, a Sharpe ratio in [[-3,2]]), Strategy B stays in
    [[0,100]]. *)
Lemma calculate_hybrid_ppi_nominal (str : Q -> string)
    (fg inflows whales sharpe : Q) (solar : bool) :
  0 <= fg <= 100 -> 0 <= inflows -> -3 <= sharpe <= 2 ->
  0 <= (Train.calculate_hybrid_ppi str
          {| Train.fear_greed := Some fg;
             Train.etf_inflows := Some inflows;
             Train.solar_regen := Some solar;
             Train.whale_accum := Some whales;
             Train.sharpe := Some sharpe |}).1 <= 100.
Proof.
  intros Hfg Hin Hsh. unfold Train.calculate_hybrid_ppi. cbn.
  pose proof (round_ndigits_2_bounds (fg / 10)) as H1.
  pose proof (round_ndigits_2_bounds (py_min (inflows / 1000000000) 10)) as H2.
  pose proof (round_ndigits_2_bounds (6 + sharpe * 2)) as H5.
  assert (E3 : 3 <= round_ndigits (if solar then 7 else 3) 2 <= 7)
    by (destruct solar; vm_compute; split; congruence).
  assert (E4 : 4 <= round_ndigits (if Qgtb whales 20000 then 8 else 4) 2 <= 8)
    by (destruct (Qgtb whales 20000); vm_compute; split; congruence).
  destruct (py_min_spec (inflows / 1000000000) 10) as (_ & Hm & Hm').
  lapply H1; [clear H1; intros H1 | q_consts; lra].
  lapply H5; [clear H5; intros H5 | lra].
  lapply H2; [clear H2; intros H2 |].
  2:{ split; [| exact Hm].
      destruct Hm' as [-> | ->]; [| lra].
      apply Qle_shift_div_l; lra. }
  lra.
Qed.

End Scoring.

(** ** The session lifecycle *)

Section Session.
Import Py Main.
Local Open Scope Q_scope.

Variable str : exn -> string.

Lemma truediv_nonzero (x y : Q) : ~ y == 0 -> truediv x y = Ok (x / y).
Proof.
  intros H. unfold truediv.
  destruct (Qeq_bool y 0) eqn:E; [| reflexivity].
  apply Qeq_bool_iff in E. contradiction.
Qed.

Lemma broadcast_active_episodes (send_ok : WebSocket -> bool)
    (episode_id : string) (message : ws_message) (st : ApiState) :
  (broadcast_to_episode send_ok episode_id message st).1.(active_episodes) =
  st.(active_episodes) /\
  (broadcast_to_episode send_ok episode_id message st).1.(supabase) =
  st.(supabase).
Proof.
  unfold broadcast_to_episode.
  destruct (st.(websocket_connections) !! episode_id); split; reflexivity.
Qed.

Lemma remove_each (connections : list WebSocket) :
  foldl (λ l ws, list_remove ws l) connections connections = [].
Proof.
  induction connections as [| ws connections IH]; [reflexivity |].
  cbn [foldl list_remove]. rewrite decide_True by reflexivity. exact IH.
Qed.

(** The broadcast of a step: no send returns, so nothing is delivered and
    every connection of the episode is removed. *)
Lemma broadcast_of_a_step (send_ok : WebSocket -> bool) (episode_id : string)
    (response : StepResponse) (st : ApiState) :
  broadcast_to_episode send_ok episode_id (msg_step response) st =
    (match st.(websocket_connections) !! episode_id with
     | None => st
     | Some _ =>
         set_websocket_connections st
           (<[episode_id := []]> st.(websocket_connections))
     end, []).
Proof.
  unfold broadcast_to_episode.
  destruct (st.(websocket_connections) !! episode_id) as [connections |];
    [| reflexivity].
  assert (Hall : filter (λ ws, send_json send_ok ws (msg_step response) = false)
                   connections = connections).
  { induction connections as [| ws connections IH]; [reflexivity |].
    rewrite filter_cons_True by reflexivity. f_equal. exact IH. }
  assert (Hnone : filter (λ ws, send_json send_ok ws (msg_step response) = true)
                    connections = []).
  { induction connections as [| ws connections IH]; [reflexivity |].
    rewrite filter_cons_False by discriminate. apply IH.
    rewrite filter_cons_True in Hall by reflexivity.
    injection Hall as Hall. exact Hall. }
  cbv zeta. rewrite Hall, Hnone, remove_each. reflexivity.
Qed.

Lemma take_step_not_live (env : StepEnv) (request : StepRequest)
    (st : ApiState) :
  st.(active_episodes) !! request.(step_episode_id) = None ->
  take_step str env request st = (st, [], Raise not_found).
Proof. intros H. unfold take_step. now rewrite H. Qed.

Lemma take_step_active_episodes (env : StepEnv) (request : StepRequest)
    (st : ApiState) (episode_id : string) :
  st.(active_episodes) !! episode_id = None ->
  (take_step str env request st).1.1.(active_episodes) !! episode_id = None.
Proof.
  intros Hdead. unfold take_step.
  destruct (st.(active_episodes) !! request.(step_episode_id)) as [data |] eqn:E;
    [| exact Hdead].
  assert (Hne : request.(step_episode_id) <> episode_id) by congruence.
  destruct (decide_action _ _ _ _) as [agent' rl_action].
  match goal with |- context [match ?d with Ok _ => _ | Raise _ => _ end] =>
    destruct d end.
  - match goal with |- context [broadcast_to_episode ?a ?b ?c ?d] =>
      pose proof (broadcast_active_episodes a b c d) as [Hb _];
      destruct (broadcast_to_episode a b c d) as [st2 sent] end.
    cbn in *. rewrite Hb. rewrite !lookup_insert_ne by exact Hne. exact Hdead.
  - cbn. rewrite lookup_insert_ne by exact Hne. exact Hdead.
Qed.

Lemma end_episode_active_episodes (env : EndEnv) (request : EndEpisodeRequest)
    (st : ApiState) :
  (end_episode str env request st).1.1.(active_episodes) =
    match (end_episode str env request st).2 with
    | Ok _ => delete request.(end_episode_id) st.(active_episodes)
    | Raise _ => st.(active_episodes)
    end.
Proof.
  unfold end_episode. cbv zeta.
  pose proof (broadcast_active_episodes env.(end_send_ok)
                request.(end_episode_id)) as Hb.
  repeat match goal with
  | |- context [broadcast_to_episode ?a ?b ?c ?d] =>
      let H := fresh in
      destruct (Hb c d) as [H _];
      destruct (broadcast_to_episode a b c d); cbn in H |- *; rewrite ?H
  | |- context [match ?d with _ => _ end] => destruct d; cbn
  | |- context [if ?d then _ else _] => destruct d; cbn
  end; reflexivity.
Qed.

Lemma start_episode_active_episodes (env : StartEnv)
    (request : StartEpisodeRequest) (st : ApiState) (episode_id : string) :
  env.(episodes_inserted) ≫= head_row <> Ok episode_id ->
  st.(active_episodes) !! episode_id = None ->
  (start_episode str env request st).1.1.(active_episodes) !! episode_id = None.
Proof.
  intros Hother Hdead. unfold start_episode. cbv zeta.
  destruct (env.(episodes_inserted) ≫= head_row) as [new_id |] eqn:E.
  - assert (new_id <> episode_id) by congruence.
    repeat match goal with
    | |- context [match ?d with _ => _ end] => destruct d; cbn
    | |- context [if ?d then _ else _] => destruct d; cbn
    end; rewrite ?lookup_insert_ne by assumption; exact Hdead.
  - repeat match goal with
    | |- context [match ?d with _ => _ end] => destruct d; cbn
    | |- context [if ?d then _ else _] => destruct d; cbn
    end; exact Hdead.
Qed.

(** An id that is not live stays so through any call that is not a start
    the store answers with that very id. *)
Lemma run_call_keeps_ended (st : ApiState) (c : call) (episode_id : string) :
  ~ issues c episode_id ->
  st.(active_episodes) !! episode_id = None ->
  (run_call str st c).(active_episodes) !! episode_id = None.
Proof.
  intros Hfresh Hdead. destruct c as [env r | env r | env r | ws id]; cbn.
  - apply start_episode_active_episodes; assumption.
  - apply take_step_active_episodes; assumption.
  - rewrite end_episode_active_episodes.
    destruct (end_episode str env r st).2; [| exact Hdead].
    destruct (decide (r.(end_episode_id) = episode_id)) as [-> | Hne].
    + apply lookup_delete_eq.
    + rewrite lookup_delete_ne by exact Hne. exact Hdead.
  - unfold websocket_episode.
    destruct (st.(active_episodes) !! id); exact Hdead.
Qed.

Lemma run_calls_keeps_ended (calls : list call) (st : ApiState)
    (episode_id : string) :
  Forall (λ c, ~ issues c episode_id) calls ->
  st.(active_episodes) !! episode_id = None ->
  (run_calls str st calls).(active_episodes) !! episode_id = None.
Proof.
  unfold run_calls. revert st.
  induction calls as [| c calls IH]; intros st Hfresh Hdead; [exact Hdead |].
  apply Forall_cons in Hfresh as [Hc Hrest]. cbn.
  apply IH; [exact Hrest |].
  apply run_call_keeps_ended; assumption.
Qed.

(** C8: a step on an episode id that is not in the live registry fails with
    404 (and changes nothing); a successful end removes the id from the
    live registry, and from then on, through any further calls of the API
    that do not register that id anew, every step on it fails with 404. *)
Theorem step_after_end_is_not_found :
  (forall (env : StepEnv) (request : StepRequest) (st : ApiState),
      st.(active_episodes) !! request.(step_episode_id) = None ->
      take_step str env request st = (st, [], Raise not_found)) /\
  (forall (env : EndEnv) (request : EndEpisodeRequest) (st st' : ApiState)
      (effects : list effect) (response : EndEpisodeResponse)
      (calls : list call) (env' : StepEnv) (request' : StepRequest),
      end_episode str env request st = (st', effects, Ok response) ->
      Forall (λ c, ~ issues c request.(end_episode_id)) calls ->
      request'.(step_episode_id) = request.(end_episode_id) ->
      st'.(active_episodes) !! request.(end_episode_id) = None /\
      take_step str env' request' (run_calls str st' calls) =
        (run_calls str st' calls, [], Raise not_found)).
Proof.
  split; [exact take_step_not_live |].
  intros env request st st' effects response calls env' request' Hend Hcalls Hid.
  assert (Hgone : st'.(active_episodes) !! request.(end_episode_id) = None).
  { pose proof (end_episode_active_episodes env request st) as H.
    rewrite Hend in H. cbn in H. rewrite H. apply lookup_delete_eq. }
  split; [exact Hgone |].
  apply take_step_not_live. rewrite Hid.
  apply run_calls_keeps_ended; assumption.
Qed.

Lemma running_average_nonzero (old : option Q) (episodes_count : Z) (value : Q) :
  episodes_count <> 0%Z ->
  running_average old episodes_count value =
    Ok ((or_0 old * inject_Z (episodes_count - 1) + value) /
        inject_Z episodes_count).
Proof.
  intros Hn. unfold running_average. apply truediv_nonzero.
  intros H. apply Hn. unfold Qeq in H. cbn in H. lia.
Qed.

(** C7: when a live episode is ended and the store answers, the agent's row
    is rewritten with, for each of [irr], [sharpe] and [ppi_score],
    [(old_avg * (n - 1) + value) / n], where [n] is the agent's episode
    count, a null average counts as 0, and the values are the episode's
    return in percent, that return over [max(1, total_steps / 10)], and the
    reported trust score; with [n = 3], an average of 10 and a value of 20
    the new average is [(10 * 2 + 20) / 3 = 40/3]. *)
Theorem end_episode_running_averages (env : EndEnv)
    (request : EndEpisodeRequest) (st : ApiState) (episode_data : EpisodeData)
    (current_agent : AgentRow) (others : list AgentRow) :
  st.(supabase) = true ->
  st.(active_episodes) !! request.(end_episode_id) = Some episode_data ->
  env.(episodes_updated) = Ok tt ->
  env.(agents_by_id) = Ok (current_agent :: others) ->
  ~ episode_data.(initial_balance) == 0 ->
  current_agent.(episodes_trained) <> 0%Z ->
  let n := current_agent.(episodes_trained) in
  let new_avg (old_avg : option Q) (value : Q) :=
    (or_0 old_avg * inject_Z (n - 1) + value) / inject_Z n in
  let episode_irr :=
    request.(final_pnl) / episode_data.(initial_balance) * 100 in
  let episode_sharpe :=
    episode_irr / py_max 1 (inject_Z request.(total_steps) / 10) in
  agents_update_stats episode_data.(agent_id)
    (new_avg current_agent.(irr) episode_irr)
    (new_avg current_agent.(sharpe) episode_sharpe)
    (new_avg current_agent.(row_ppi_score) request.(end_ppi_score))
    ∈ (end_episode str env request st).1.2 /\
  (exists updated : Q,
      running_average (Some 10) 3 20 = Ok updated /\ updated == 40 # 3).
Proof.
  intros Hdb Hlive Hupd Hsel Hbal Hn n new_avg episode_irr episode_sharpe.
  split; [| eexists; split; [reflexivity | reflexivity]].
  unfold end_episode. cbv zeta.
  rewrite Hlive, Hdb, Hupd, Hsel. cbn [negb].
  rewrite (truediv_nonzero _ _ Hbal). cbn [mbind result_bind].
  rewrite truediv_nonzero.
  2:{ destruct (py_max_spec 1 (inject_Z request.(total_steps) / 10)) as [H _].
      intros E. rewrite E in H. lra. }
  cbn [mbind result_bind mret result_ret].
  rewrite !(running_average_nonzero _ _ _ Hn).
  cbn [mbind result_bind mret result_ret].
  fold n. fold episode_irr. fold episode_sharpe.
  destruct env.(agents_stats_updated).
  - match goal with |- context [broadcast_to_episode ?a ?b ?c ?d] =>
      destruct (broadcast_to_episode a b c d) end.
    cbn. rewrite !elem_of_cons. right. left. reflexivity.
  - cbn. rewrite !elem_of_cons. right. left. reflexivity.
Qed.

End Session.

(** *** A concrete session: one live episode of an agent with three
    episodes and a mean return of 10, ended with a return of 20 percent *)

Section SessionExample.
Import Py Main.
Local Open Scope Q_scope.
Local Open Scope string_scope.

(** Three episodes, a mean return of 10, a new return of 20: the row is
    rewritten with a mean return of 40/3. *)
Lemma end_episode_running_averages_at_3_10_20 :
  one_live.(supabase) = true /\
  one_live.(active_episodes) !! end_with_20_percent.(end_episode_id) =
    Some live_episode /\
  store_answers.(episodes_updated) = Ok tt /\
  store_answers.(agents_by_id) = Ok [third_episode_agent] /\
  ~ live_episode.(initial_balance) == 0 /\
  third_episode_agent.(episodes_trained) <> 0%Z /\
  exists new_irr new_sharpe new_ppi : Q,
    agents_update_stats "agent-1" new_irr new_sharpe new_ppi
      ∈ (end_episode plain_text store_answers end_with_20_percent one_live).1.2 /\
    new_irr == 40 # 3.
Proof.
  assert (H1 : one_live.(supabase) = true) by reflexivity.
  assert (H2 : one_live.(active_episodes) !! end_with_20_percent.(end_episode_id)
               = Some live_episode) by (vm_compute; reflexivity).
  assert (H3 : store_answers.(episodes_updated) = Ok tt) by reflexivity.
  assert (H4 : store_answers.(agents_by_id) = Ok [third_episode_agent])
    by reflexivity.
  assert (H5 : ~ live_episode.(initial_balance) == 0) by (vm_compute; congruence).
  assert (H6 : third_episode_agent.(episodes_trained) <> 0%Z)
    by (vm_compute; congruence).
  repeat (split; [assumption |]).
  destruct (end_episode_running_averages plain_text store_answers
              end_with_20_percent one_live live_episode third_episode_agent []
              H1 H2 H3 H4 H5 H6) as [Hin _].
  eexists _, _, _. split; [exact Hin |].
  vm_compute. reflexivity.
Defined.

(** After the end of [ep-1], and a websocket that tries to subscribe to
    it, a step on [ep-1] is answered 404. *)
Lemma step_after_end_is_not_found_on_ep_1 :
  exists (st' : ApiState) (effects : list effect) (response : EndEpisodeResponse),
    end_episode plain_text store_answers end_with_20_percent one_live =
      (st', effects, Ok response) /\
    st'.(active_episodes) !! "ep-1" = None /\
    (take_step plain_text quiet_oracle step_on_ep_1
       (run_calls plain_text st' [call_subscribe 7%nat "ep-1"])).2 =
      Raise not_found.
Proof.
  destruct (end_episode plain_text store_answers end_with_20_percent one_live)
    as [[st' effects] [response | e]] eqn:E.
  2:{ exfalso. vm_compute in E. discriminate E. }
  exists st', effects, response. split; [reflexivity |].
  destruct (proj2 (step_after_end_is_not_found plain_text)
              store_answers end_with_20_percent one_live st' effects response
              [call_subscribe 7%nat "ep-1"] quiet_oracle step_on_ep_1 E)
    as [Hgone Hstep].
  - repeat constructor. intros H. exact H.
  - reflexivity.
  - split; [exact Hgone |]. rewrite Hstep. reflexivity.
Defined.

End SessionExample.

(** ** The observation vector *)

Section Observation.
Import Py EnvFinRL.
Local Open Scope Q_scope.

Variable log1p : Q -> Q.
Variable float32 : Q -> Q.

Lemma _get_obs_run (self : SentientTraderFinRLEnv) (row : Bar) :
  self.(df) !! self.(current_step) = Some row ->
  _get_obs log1p float32 self =
    (set_market row.(close) row.(bar_volume) self,
     Ok (take 42
           (float_map float32 <$>
              (if decide (length (produced log1p self row) < 42)%nat
               then app (produced log1p self row)
                        (replicate (42 - length (produced log1p self row))
                           (fin 0))
               else produced log1p self row)))).
Proof.
  intros Hrow. unfold _get_obs, mbind, M_bind, gets, mret, M_ret.
  rewrite Hrow. reflexivity.
Qed.

Lemma _get_obs_no_bar (self : SentientTraderFinRLEnv) :
  self.(df) !! self.(current_step) = None ->
  _get_obs log1p float32 self = (self, Raise IndexError).
Proof.
  intros Hrow. unfold _get_obs, mbind, M_bind, gets, mret, M_ret.
  rewrite Hrow. reflexivity.
Qed.

(** C6: as long as the data frame has a bar for the current step,
    [_get_obs] returns a vector of exactly 42 entries for any lengths of
    the upstream arrays: fewer produced values are padded with zeros on the
    right, more are cut on the right, and neither raises. *)
Theorem _get_obs_has_42_entries (self : SentientTraderFinRLEnv) (row : Bar) :
  self.(df) !! self.(current_step) = Some row ->
  exists obs : list float,
    _get_obs log1p float32 self =
      (set_market row.(close) row.(bar_volume) self, Ok obs) /\
    length obs = 42%nat /\
    ((length (produced log1p self row) < 42)%nat ->
     obs = float_map float32 <$>
             app (produced log1p self row)
                 (replicate (42 - length (produced log1p self row)) (fin 0))) /\
    ((42 <= length (produced log1p self row))%nat ->
     obs = float_map float32 <$> take 42 (produced log1p self row)).
Proof.
  intros Hrow. rewrite (_get_obs_run self row Hrow).
  set (raw := produced log1p self row).
  eexists. split; [reflexivity |].
  destruct (decide (length raw < 42)%nat) as [Hshort | Hlong].
  - assert (Hlen : length (float_map float32 <$>
                             app raw (replicate (42 - length raw) (fin 0)))
                   = 42%nat).
    { rewrite length_fmap, length_app, length_replicate. lia. }
    rewrite take_ge by lia.
    split; [exact Hlen |]. split; [reflexivity | lia].
  - split; [| split; [lia | intros _; symmetry; apply fmap_take]].
    rewrite length_take, length_fmap. lia.
Qed.

End Observation.

(** ** The actor simulation: regrets, gate, trade *)

Section ActorSimulation.
Import Py EnvFinRL.
Local Open Scope Q_scope.
Local Open Scope string_scope.

Lemma set_actor_regrets_same (self : SentientTraderFinRLEnv) :
  set_actor_regrets self.(actor_regrets) self = self.
Proof. destruct self. reflexivity. Qed.

Lemma set_regret_run (i : nat) (v : float) (self : SentientTraderFinRLEnv) :
  (i < length self.(actor_regrets))%nat ->
  set_regret i v self =
    (set_actor_regrets (<[i := v]> self.(actor_regrets)) self, Ok tt).
Proof.
  intros Hi. unfold set_regret, mbind, M_bind, gets, lift, setitem, modify.
  rewrite decide_True by exact Hi. reflexivity.
Qed.

Lemma forecast_regret_run (env : StepEnv) (i : nat) (name : string)
    (self : SentientTraderFinRLEnv) :
  (i < length self.(actor_regrets))%nat ->
  forecast_regret env i name self =
    (set_actor_regrets
       (<[i := forecast env self i name
                 (default (fin 0) (self.(actor_regrets) !! i))]>
          self.(actor_regrets)) self,
     Ok tt).
Proof.
  intros Hi.
  destruct (lookup_lt_is_Some_2 _ _ Hi) as [regret Hregret].
  assert (Hwalk :
    (regret ← gets actor_regrets ≫= λ a, lift (getitem a i);
     set_regret i
       (float_map (λ r, np_clip (r + env.(randn) i * 0.1) 0 1) regret)) self =
    (set_actor_regrets (<[i := random_walk env i regret]> self.(actor_regrets))
       self, Ok tt)).
  { unfold mbind, M_bind, gets, lift, getitem. rewrite Hregret.
    apply set_regret_run. exact Hi. }
  unfold forecast_regret, forecast, try_except.
  rewrite Hregret. cbn [default].
  unfold mbind at 1 2 3 4. unfold M_bind at 1 2 3 4. unfold gets, lift, getitem.
  destruct (self.(actor_inventory) !! i) as [inventory |]; [| exact Hwalk].
  destruct (env.(regret_oracle) _) as [| status_code body]; [exact Hwalk |].
  destruct (decide (status_code = 200%Z)).
  - destruct body as [| [[v | |] |]]; try exact Hwalk;
      rewrite set_regret_run by exact Hi; reflexivity.
  - unfold mret, M_ret. rewrite list_insert_id by exact Hregret.
    now rewrite set_actor_regrets_same.
Qed.

Lemma forecast_at_length (env : StepEnv) (self : SentientTraderFinRLEnv)
    (regrets : list float) (actor : nat * (string * string)) :
  length (forecast_at env self regrets actor) = length regrets.
Proof. unfold forecast_at. apply length_insert. Qed.

Lemma forecast_loop_length (env : StepEnv) (self : SentientTraderFinRLEnv)
    (actors : list (nat * (string * string))) (regrets : list float) :
  length (foldl (forecast_at env self) regrets actors) = length regrets.
Proof.
  revert regrets. induction actors as [| a actors IH]; intros regrets;
    [reflexivity |].
  cbn. rewrite IH. apply forecast_at_length.
Qed.

Lemma forecast_loop_run (env : StepEnv) (self : SentientTraderFinRLEnv)
    (actors : list (nat * (string * string))) (regrets : list float) :
  Forall (λ a, (a.1 < length regrets)%nat) actors ->
  for_each actors
    (λ '(i, (actor_id, actor_data_name)), forecast_regret env i actor_data_name)
    (set_actor_regrets regrets self) =
  (set_actor_regrets (foldl (forecast_at env self) regrets actors) self, Ok tt).
Proof.
  revert regrets.
  induction actors as [| [i [actor_id name]] actors IH]; intros regrets Hin;
    [reflexivity |].
  apply Forall_cons in Hin as [Hi Hrest]. cbn in Hi.
  cbn [for_each]. unfold mbind at 1. unfold M_bind at 1.
  rewrite forecast_regret_run by exact Hi.
  change (set_actor_regrets ?x (set_actor_regrets ?y self))
    with (set_actor_regrets x self).
  apply (IH (forecast_at env self regrets (i, (actor_id, name)))).
  eapply Forall_impl; [exact Hrest |].
  intros a Ha. rewrite forecast_at_length. exact Ha.
Qed.

(** With six regrets in the array, the update never raises: it leaves the
    forecasts in place of the regrets and touches nothing else. *)
Lemma _update_actor_regrets_run (env : StepEnv) (self : SentientTraderFinRLEnv) :
  length self.(actor_regrets) = 6%nat ->
  _update_actor_regrets env self =
    (set_actor_regrets (forecast_all env self) self, Ok tt).
Proof.
  intros Hlen. unfold _update_actor_regrets, forecast_all.
  rewrite <- (set_actor_regrets_same self) at 1.
  apply forecast_loop_run.
  rewrite Hlen. unfold enumerate, ACTORS. cbn.
  repeat constructor.
Qed.

Lemma forecast_all_length (env : StepEnv) (self : SentientTraderFinRLEnv) :
  length (forecast_all env self) = length self.(actor_regrets).
Proof. apply forecast_loop_length. Qed.

(** The random walk of a number stays in [[0,1]]. *)
Lemma random_walk_unit (env : StepEnv) (i : nat) (regret : Q) :
  in_unit (random_walk env i (fin regret)).
Proof. unfold random_walk. cbn. apply np_clip_bounds. lra. Qed.

Lemma maximum_gtb (a b c : Q) :
  float_gtb (maximum (fin a) (fin b)) c =
  float_gtb (fin a) c || float_gtb (fin b) c.
Proof.
  cbn [maximum float_gtb]. unfold Qgtb.
  destruct (Qltb a b) eqn:Eab; destruct (Qltb c a) eqn:Ea;
    destruct (Qltb c b) eqn:Eb; try reflexivity;
    exfalso; q_cases; lra.
Qed.

(** [np.max] is above a bound exactly when every entry is a number and
    one of them is above the bound. *)
Lemma foldl_maximum_gtb (c : Q) (rest : list float) (x : float) :
  float_gtb (foldl maximum x rest) c = true <->
  Forall (λ r, r <> nan) (x :: rest) /\
  Exists (λ r, float_gtb r c = true) (x :: rest).
Proof.
  revert x. induction rest as [| y rest IH]; intros x.
  - cbn [foldl]. rewrite Forall_cons, Exists_cons, Exists_nil.
    destruct x as [q |]; cbn [float_gtb].
    + split; [intros H; repeat split; [discriminate | constructor | left; exact H]
             | intros (_ & [H | []]); exact H].
    + split; [discriminate | intros ((H & _) & _); contradiction].
  - cbn [foldl]. rewrite IH.
    rewrite !Forall_cons, !Exists_cons.
    destruct x as [a |], y as [b |]; cbn [maximum].
    + change (fin (if Qltb a b then b else a)) with (maximum (fin a) (fin b)).
      rewrite maximum_gtb, orb_true_iff.
      split; [intros ((_ & Hall) & Hsome) | intros ((_ & _ & Hall) & Hsome)];
        (split; [repeat split; try discriminate; exact Hall | tauto]).
    + split; [intros ((H & _) & _) | intros ((_ & H & _) & _)]; contradiction.
    + split; [intros ((H & _) & _) | intros ((H & _) & _)]; contradiction.
    + split; [intros ((H & _) & _) | intros ((H & _) & _)]; contradiction.
Qed.

Lemma np_max_closes (regrets : list float) (highest : float) :
  np_max regrets = Ok highest ->
  float_gtb highest 0.7 = true <-> closes_the_gate regrets.
Proof.
  destruct regrets as [| x rest]; [discriminate |].
  intros H. injection H as <-. apply foldl_maximum_gtb.
Qed.

Lemma in_unit_number (regrets : list float) :
  Forall in_unit regrets -> Forall (λ r, r <> nan) regrets.
Proof.
  intros Hall. eapply Forall_impl; [exact Hall |].
  intros [q |] H; [discriminate | contradiction].
Qed.

(** *** A frame: whatever the outcome, a method leaves a reading of the
    state as it was *)

Lemma keeps_ret {A B : Type} (f : SentientTraderFinRLEnv -> B) (a : A) :
  keeps f (mret a : M A).
Proof. intros self. reflexivity. Qed.

Lemma keeps_gets {A B : Type} (f : SentientTraderFinRLEnv -> B)
    (g : SentientTraderFinRLEnv -> A) : keeps f (gets g).
Proof. intros self. reflexivity. Qed.

Lemma keeps_lift {A B : Type} (f : SentientTraderFinRLEnv -> B) (r : result A) :
  keeps f (lift r).
Proof. intros self. reflexivity. Qed.

Lemma keeps_raise {A B : Type} (f : SentientTraderFinRLEnv -> B) (e : exn) :
  keeps f (raise e : M A).
Proof. intros self. reflexivity. Qed.

Lemma keeps_modify {B : Type} (f : SentientTraderFinRLEnv -> B)
    (g : SentientTraderFinRLEnv -> SentientTraderFinRLEnv) :
  (forall self, f (g self) = f self) -> keeps f (modify g).
Proof. intros H self. apply H. Qed.

Lemma keeps_bind {A B C : Type} (f : SentientTraderFinRLEnv -> C)
    (m : M A) (k : A -> M B) :
  keeps f m -> (forall a, keeps f (k a)) -> keeps f (m ≫= k).
Proof.
  intros Hm Hk self. unfold mbind, M_bind.
  specialize (Hm self). destruct (m self) as [self1 [a | e]]; cbn in Hm.
  - rewrite Hk. exact Hm.
  - exact Hm.
Qed.

Lemma keeps_try_except {A C : Type} (f : SentientTraderFinRLEnv -> C)
    (body handler : M A) :
  keeps f body -> keeps f handler -> keeps f (try_except body handler).
Proof.
  intros Hb Hh self. unfold try_except.
  specialize (Hb self). destruct (body self) as [self1 [a | e]]; cbn in Hb.
  - exact Hb.
  - rewrite Hh. exact Hb.
Qed.

Lemma keeps_for_each {A C : Type} (f : SentientTraderFinRLEnv -> C)
    (xs : list A) (body : A -> M unit) :
  (forall x, keeps f (body x)) -> keeps f (for_each xs body).
Proof.
  intros Hbody. induction xs as [| x xs IH].
  - apply keeps_ret.
  - cbn [for_each]. apply keeps_bind; [apply Hbody | intros _; exact IH].
Qed.

Ltac keeps_step :=
  lazymatch goal with
  | |- keeps _ (_ ≫= _) => apply keeps_bind; [| intros ?]
  | |- keeps _ (mret _) => apply keeps_ret
  | |- keeps _ (gets _) => apply keeps_gets
  | |- keeps _ (lift _) => apply keeps_lift
  | |- keeps _ (raise _) => apply keeps_raise
  | |- keeps _ (modify _) => apply keeps_modify; intros ?; reflexivity
  | |- keeps _ (try_except _ _) => apply keeps_try_except
  | |- keeps _ (for_each _ _) => apply keeps_for_each; intros ?
  | |- keeps _ (if ?b then _ else _) => destruct b
  | |- keeps _ (match ?x with _ => _ end) => destruct x
  end.

Lemma _update_actor_regrets_keeps_book (env : StepEnv) :
  keeps book (_update_actor_regrets env).
Proof.
  unfold _update_actor_regrets, forecast_regret, set_regret.
  repeat keeps_step.
Qed.

Lemma regret_gate_keeps_book (action : Z) : keeps book (regret_gate action).
Proof. unfold regret_gate. repeat keeps_step. Qed.

Lemma _simulate_actors_keeps_book (env : StepEnv) :
  keeps book (_simulate_actors env).
Proof.
  unfold _simulate_actors, set_last_action, update_inventory.
  repeat keeps_step.
Qed.

Lemma _update_ppi_silos_keeps_book (env : StepEnv) (pnl_pct drawdown : Q) :
  keeps book (_update_ppi_silos env pnl_pct drawdown).
Proof. unfold _update_ppi_silos, set_silo. repeat keeps_step. Qed.

Lemma forecast_in_unit (env : StepEnv) (self : SentientTraderFinRLEnv)
    (i : nat) (name : string) (regret : float) :
  oracle_in_unit env -> in_unit regret ->
  in_unit (forecast env self i name regret).
Proof.
  intros Horacle Hregret. unfold forecast.
  destruct regret as [regret |]; [| contradiction].
  pose proof (random_walk_unit env i regret) as Hwalk.
  destruct (self.(actor_inventory) !! i); [| exact Hwalk].
  destruct (env.(regret_oracle) _) as [| status_code body] eqn:E;
    [exact Hwalk |].
  destruct (decide (status_code = 200%Z)) as [-> |]; [| exact Hregret].
  destruct body as [| [[v | |] |]]; try exact Hwalk.
  - exact (Horacle _ _ E).
  - exact (Horacle _ _ E).
  - unfold in_unit, within. lra.
Qed.

Lemma forecast_all_in_unit (env : StepEnv) (self : SentientTraderFinRLEnv) :
  oracle_in_unit env -> Forall in_unit self.(actor_regrets) ->
  Forall in_unit (forecast_all env self).
Proof.
  intros Horacle. unfold forecast_all.
  generalize (enumerate ACTORS) as actors. generalize self.(actor_regrets).
  intros regrets actors. revert regrets.
  induction actors as [| a actors IH]; intros regrets Hall; [exact Hall |].
  cbn. apply IH. unfold forecast_at. apply Forall_insert; [exact Hall |].
  apply forecast_in_unit; [exact Horacle |].
  destruct (regrets !! a.1) as [r |] eqn:E; cbn.
  - exact (Forall_lookup_1 _ _ _ _ Hall E).
  - unfold in_unit, within. lra.
Qed.

Variable log1p : Q -> Q.
Variable float32 : Q -> Q.

Lemma _get_obs_keeps_book : keeps book (_get_obs log1p float32).
Proof. unfold _get_obs. repeat keeps_step. Qed.

Lemma account_keeps_book (env : StepEnv) (action_name : string)
    (regret_blocked : bool) :
  keeps book (account log1p float32 env action_name regret_blocked).
Proof.
  unfold account.
  apply keeps_bind; [apply _simulate_actors_keeps_book | intros _].
  apply keeps_bind; [repeat keeps_step | intros _].
  apply keeps_bind; [keeps_step | intros self].
  apply keeps_bind; [keeps_step | intros _].
  apply keeps_bind; [apply _update_ppi_silos_keeps_book | intros _].
  apply keeps_bind; [unfold _check_nash_equilibrium; repeat keeps_step |].
  intros nash_stable.
  apply keeps_bind; [repeat keeps_step | intros _].
  apply keeps_bind; [keeps_step | intros self'].
  apply keeps_bind; [apply _get_obs_keeps_book | intros obs].
  apply keeps_ret.
Qed.

(** *** The gate and the trade *)

Lemma np_max_six (a : list float) :
  length a = 6%nat -> exists highest, np_max a = Ok highest.
Proof. destruct a; [discriminate | eexists; reflexivity]. Qed.

Lemma regret_gate_run (action : Z) (self : SentientTraderFinRLEnv)
    (highest : float) :
  np_max self.(actor_regrets) = Ok highest ->
  regret_gate action self =
    (self,
     Ok (if float_gtb highest 0.7 then (0%Z, true) else (action, false))).
Proof.
  intros Hmax. unfold regret_gate, mbind, M_bind, gets, lift.
  rewrite Hmax. destruct (float_gtb highest 0.7); reflexivity.
Qed.

(** The hold branch of the trade touches nothing. *)
Lemma execute_action_hold (self : SentientTraderFinRLEnv) :
  execute_action 0 self = (self, Ok "hold").
Proof. reflexivity. Qed.

(** C10: whenever the action that a step executes is hold (requested, or
    forced by the gate), the step leaves the capital unchanged and appends
    nothing to the trade log, however the step ends; so a step that
    changes the capital or the trade log executed an action other than
    hold. *)
Theorem hold_leaves_capital_and_trades (env : StepEnv) (action : Z)
    (self : SentientTraderFinRLEnv) :
  let gated := (_update_actor_regrets env ≫= λ _, regret_gate action) self in
  let after := (step log1p float32 env action self).1 in
  (forall blocked : bool,
      gated.2 = Ok (0%Z, blocked) ->
      after.(capital) = self.(capital) /\ after.(trades) = self.(trades)) /\
  (after.(capital) <> self.(capital) \/ after.(trades) <> self.(trades) ->
   exists (executed : Z) (blocked : bool),
     gated.2 = Ok (executed, blocked) /\ executed <> 0%Z).
Proof.
  intros gated after.
  assert (Hmain :
    match gated.2 with
    | Ok (executed, _) => executed = 0%Z -> book after = book self
    | Raise _ => book after = book self
    end).
  { unfold gated, after, step, mbind, M_bind.
    pose proof (_update_actor_regrets_keeps_book env self) as H1.
    destruct (_update_actor_regrets env self) as [self1 [[] | e]]; cbn in H1;
      [| exact H1].
    pose proof (regret_gate_keeps_book action self1) as H2.
    destruct (regret_gate action self1) as [self2 [[executed blocked] | e]];
      cbn in H2; cbn [fst snd]; [| congruence].
    intros ->. rewrite execute_action_hold.
    pose proof (account_keeps_book env "hold" blocked self2) as H3.
    congruence. }
  split.
  - intros blocked Hgate. rewrite Hgate in Hmain.
    specialize (Hmain eq_refl). injection Hmain as H1 H2. split; assumption.
  - intros Hchanged.
    destruct gated.2 as [[executed blocked] | e].
    + exists executed, blocked. split; [reflexivity |].
      intros ->. specialize (Hmain eq_refl). injection Hmain as H1 H2.
      destruct Hchanged; contradiction.
    + injection Hmain as H1 H2. destruct Hchanged; contradiction.
Qed.

End ActorSimulation.

(** *** A concrete environment: two bars, six actors at a regret of 0.3 *)

Section StepExample.
Import Py EnvFinRL.
Local Open Scope Q_scope.
Local Open Scope string_scope.

(** C2, at six regrets of 0.3 and an oracle answering
    [200 {"regret": 5.0}]: the update stores 5.0 for every actor, outside
    [[0,1]], without clamping; and an oracle answering 503 leaves the
    regrets as they were, without the random walk.  Neither raises. *)
Theorem _update_actor_regrets_stores_the_answer :
  _update_actor_regrets alarmed_oracle after_reset =
    (set_actor_regrets [fin 5; fin 5; fin 5; fin 5; fin 5; fin 5] after_reset,
     Ok tt) /\
  ~ 5 <= 1 /\
  _update_actor_regrets refusing_oracle after_reset = (after_reset, Ok tt).
Proof.
  split; [vm_compute; reflexivity |].
  split; [vm_compute; congruence |].
  vm_compute; reflexivity.
Qed.

(** With calm actors a requested long of 0.25% is executed: the capital
    drops by 0.0025 and the trade is logged at the price of the bar. *)
Example step_executes_a_long :
  exists (self' : SentientTraderFinRLEnv) (result : StepResult),
    step as_is as_is calm_oracle 1 after_reset = (self', Ok result) /\
    result.(info).(regret_blocked) = false /\
    result.(info).(info_action) = "long_0.25%" /\
    self'.(capital) == 0.9975 /\
    length self'.(trades) = 1%nat /\
    length result.(obs) = 42%nat.
Proof.
  eexists _, _. split; [vm_compute; reflexivity |].
  cbn [info regret_blocked info_action capital trades obs].
  repeat split; vm_compute; congruence.
Qed.

Lemma can_step_after_reset : can_step after_reset.
Proof.
  unfold can_step, ready. cbn.
  repeat split; try reflexivity. eexists. reflexivity.
Defined.

(** C3, at six regrets of 0.3 and an oracle answering
    [200 {"regret": 0.95}] for the retail actor and [200 {"regret": null}]
    for the others: the update stores 0.95 and five times [nan], the
    highest regret 0.95 exceeds 0.7, and yet the step is not blocked:
    [np.max] of the array is [nan], which is not above 0.7, so the
    requested long of 0.25% is executed, the capital drops to 0.9975 and
    the trade is logged. *)
Theorem regret_gate_ignores_a_high_regret :
  exists (self' : SentientTraderFinRLEnv) (result : StepResult),
    step as_is as_is null_oracle 1 after_reset = (self', Ok result) /\
    result.(info).(info_actor_regrets) = [fin 0.95; nan; nan; nan; nan; nan] /\
    0.7 < 0.95 /\
    np_max result.(info).(info_actor_regrets) = Ok nan /\
    result.(info).(regret_blocked) = false /\
    result.(info).(info_action) = "long_0.25%" /\
    self'.(capital) == 0.9975 /\
    length self'.(trades) = 1%nat.
Proof.
  eexists _, _. split; [vm_compute; reflexivity |].
  cbn [info info_actor_regrets regret_blocked info_action capital trades].
  repeat split; vm_compute; congruence.
Qed.

(** With every regret at 5 a requested long is replaced by hold. *)
Example step_blocks_a_long :
  exists (self' : SentientTraderFinRLEnv) (result : StepResult),
    step as_is as_is alarmed_oracle 1 after_reset = (self', Ok result) /\
    result.(info).(regret_blocked) = true /\
    result.(info).(info_action) = "hold" /\
    self'.(capital) = 1 /\ self'.(trades) = [].
Proof.
  eexists _, _. split; [vm_compute; reflexivity |].
  cbn [info regret_blocked info_action capital trades].
  repeat split.
Qed.

(** The blocked step leaves the capital at 1 and the trade log empty. *)
Lemma hold_leaves_capital_and_trades_when_blocked :
  ((_update_actor_regrets alarmed_oracle ≫= λ _, regret_gate 1) after_reset).2 =
    Ok (0%Z, true) /\
  (step as_is as_is alarmed_oracle 1 after_reset).1.(capital) = 1 /\
  (step as_is as_is alarmed_oracle 1 after_reset).1.(trades) = [].
Proof.
  assert (Hgate :
    ((_update_actor_regrets alarmed_oracle ≫= λ _, regret_gate 1) after_reset).2
    = Ok (0%Z, true)) by (vm_compute; reflexivity).
  split; [exact Hgate |].
  exact (proj1 (hold_leaves_capital_and_trades as_is as_is alarmed_oracle 1
                  after_reset) true Hgate).
Defined.

(** Thirty produced values are padded to 42. *)
Lemma _get_obs_has_42_entries_after_reset :
  after_reset.(df) !! after_reset.(current_step) =
    Some {| close := 112000; bar_volume := 1000000000 |} /\
  exists obs : list float,
    (_get_obs as_is as_is after_reset).2 = Ok obs /\ length obs = 42%nat.
Proof.
  assert (Hrow : after_reset.(df) !! after_reset.(current_step) =
                 Some {| close := 112000; bar_volume := 1000000000 |})
    by reflexivity.
  split; [exact Hrow |].
  destruct (_get_obs_has_42_entries as_is as_is after_reset _ Hrow)
    as (obs & Hrun & Hlen & _).
  exists obs. rewrite Hrun. split; [reflexivity | exact Hlen].
Defined.

End StepExample.

(** * Further properties of the code *)

(** ** main.py: the mock policy and the advisory oracle *)

Section Policy.
Import Py Main.
Local Open Scope Q_scope.
Local Open Scope string_scope.

Variable str : exn -> string.

(** [round(x, 3)] stays between two multiples of 0.001 that enclose [x]. *)
Lemma round_ndigits_3_between (a b : Z) (x : Q) :
  a # 1000 <= x <= b # 1000 ->
  a # 1000 <= round_ndigits x 3 <= b # 1000.
Proof.
  intros [Ha Hb]. unfold round_ndigits.
  change (Z.to_pos (10 ^ Z.of_nat 3)) with 1000%positive.
  destruct (round_half_even_bounds a b (x * inject_Z 1000)) as [H0 H1].
  { change (inject_Z 1000) with 1000.
    unfold Qle in Ha, Hb |- *. cbn in *. split; lia. }
  unfold Qle. cbn. lia.
Qed.

Lemma new_Action_between (t : action_type) (s c : Q) (r : string) :
  0 <= s <= 1 -> 0 <= c <= 1 ->
  new_Action t s c r =
    Ok {| type := t; size := s; confidence := c; reasoning := r |}.
Proof.
  intros [Hs0 Hs1] [Hc0 Hc1]. unfold new_Action, Qgeb.
  apply Qleb_le in Hs0, Hs1, Hc0, Hc1.
  now rewrite Hs0, Hs1, Hc0, Hc1.
Qed.

Lemma decide_action_fields (self : MockRLAgent)
    (draws : DecideDraws) (market_state : MarketState) (current_position : Q) :
  0 <= draws.(u_size) <= 1 -> 0 <= draws.(u_confidence) <= 1 ->
  exists a : Action,
    decide_action self draws market_state current_position =
      ({| agent_name := self.(agent_name);
          step_count := (self.(step_count) + 1)%Z;
          last_action := a.(type) |}, Ok a) /\
    (0.8 <= current_position -> a.(type) <> buy) /\
    (current_position <= 0.2 -> a.(type) <> sell) /\
    (a.(type) = hold -> a.(size) == 0) /\
    (a.(type) <> hold -> 0.1 <= a.(size) <= 0.3) /\
    0.3 <= a.(confidence) <= 0.95.
Proof.
  intros Hu Hc. unfold decide_action.
  set (score := uniform (-0.05) 0.05 draws.(u_momentum) +
                market_state.(sentiment) * 0.3 +
                uniform (-0.2) 0.2 draws.(u_noise)).
  set (conf := py_min 0.95 (Qabs score + uniform 0.3 0.5 draws.(u_confidence))).
  assert (Hconf : 300 # 1000 <= conf <= 950 # 1000).
  { unfold conf.
    pose proof (Qabs_nonneg score) as Habs.
    destruct (py_min_spec 0.95 (Qabs score + uniform 0.3 0.5 draws.(u_confidence)))
      as (H1 & _ & [E | E]); rewrite E in *; unfold uniform in *; lra. }
  apply round_ndigits_3_between in Hconf.
  destruct (Qgtb score 0.15 && Qltb current_position 0.8) eqn:Ebuy.
  - apply andb_true_iff in Ebuy as [_ Hpos]. apply Qltb_lt in Hpos.
    assert (Hsize : 100 # 1000 <= uniform 0.1 0.3 draws.(u_size) <= 300 # 1000)
      by (unfold uniform; lra).
    apply round_ndigits_3_between in Hsize.
    rewrite new_Action_between by lra.
    eexists (Build_Action _ _ _ _). split; [reflexivity |]. cbn.
    repeat split; try discriminate; try lra.
  - destruct (Qltb score (-0.15) && Qgtb current_position 0.2) eqn:Esell.
    + apply andb_true_iff in Esell as [_ Hpos]. apply Qltb_lt in Hpos.
      assert (Hsize : 100 # 1000 <=
                      uniform 0.1 (py_min 0.3 current_position) draws.(u_size)
                      <= 300 # 1000).
      { unfold uniform.
        destruct (py_min_spec 0.3 current_position) as (H1 & _ & [E | E]);
          rewrite E in *; nra. }
      apply round_ndigits_3_between in Hsize.
      rewrite new_Action_between by lra.
      eexists (Build_Action _ _ _ _). split; [reflexivity |]. cbn.
      repeat split; try discriminate; try lra.
    + assert (Hzero : round_ndigits 0 3 = 0.000) by (vm_compute; reflexivity).
      rewrite new_Action_between by (rewrite ?Hzero; lra).
      eexists (Build_Action _ _ _ _). split; [reflexivity |].
      cbn [type size confidence]. rewrite Hzero.
      repeat split; try discriminate; try congruence; try lra.
Qed.

(** X1: with raw draws in [[0,1]], [decide_action] always builds a valid
    action, counts the step and remembers the kind; it never buys at a
    position of 0.8 or more and never sells at a position of 0.2 or less; a
    hold has size 0, a trade a size in [[0.1, 0.3]], and the confidence lies
    in [[0.3, 0.95]]. *)
Theorem decide_action_respects_position (self : MockRLAgent)
    (draws : DecideDraws) (market_state : MarketState) (current_position : Q) :
  0 <= draws.(u_size) <= 1 -> 0 <= draws.(u_confidence) <= 1 ->
  exists a : Action,
    decide_action self draws market_state current_position =
      ({| agent_name := self.(agent_name);
          step_count := (self.(step_count) + 1)%Z;
          last_action := a.(type) |}, Ok a) /\
    (0.8 <= current_position -> a.(type) <> buy) /\
    (current_position <= 0.2 -> a.(type) <> sell) /\
    (a.(type) = hold -> a.(size) == 0) /\
    (a.(type) <> hold -> 0.1 <= a.(size) <= 0.3) /\
    0.3 <= a.(confidence) <= 0.95.
Proof. apply decide_action_fields. Qed.

Lemma new_Action_raises (t : action_type) (s c : Q) (r : string) :
  ~ 0 <= s <= 1 -> new_Action t s c r = Raise ValidationError.
Proof.
  intros Hs. unfold new_Action, Qgeb.
  destruct (Qleb 0 s) eqn:E0; [| reflexivity].
  destruct (Qleb s 1) eqn:E1; [| reflexivity].
  apply Qleb_le in E0, E1. exfalso. apply Hs. split; assumption.
Qed.

(** X2: when the price is not 0 and the oracle answers 200 with a readable
    body, a kind among buy, sell, hold and a size in [[0,1]],
    [get_grok_decision] returns that kind and size with confidence 0.85 and
    the oracle's reasoning behind the tag [[Grok AI]]. *)
Theorem get_grok_decision_passes_the_answer
    (grok : GrokRequest -> grok_reply) (market_state : MarketState)
    (current_balance current_position ppi_score : Q)
    (kind : action_type) (data : GrokData) :
  ~ market_state.(price) == 0 ->
  usable (grok (grok_request market_state current_balance current_position
                  ppi_score)) kind data ->
  get_grok_decision str grok market_state current_balance current_position
    ppi_score =
    Ok {| type := kind; size := data.(data_size); confidence := 0.85;
          reasoning := "[Grok AI] " +:+ data.(data_reasoning) |}.
Proof.
  intros Hprice (Hreply & Hkind & Hsize).
  unfold get_grok_decision.
  rewrite (truediv_nonzero _ _ Hprice). cbn [mbind result_bind].
  fold (grok_request market_state current_balance current_position ppi_score).
  rewrite Hreply. rewrite decide_True by reflexivity.
  cbn [mbind result_bind]. rewrite Hkind. cbn [mbind result_bind].
  rewrite new_Action_between by lra. reflexivity.
Qed.

Lemma get_grok_decision_fallback
    (grok : GrokRequest -> grok_reply) (market_state : MarketState)
    (current_balance current_position ppi_score : Q) :
  (market_state.(price) == 0 \/
   forall kind data,
     ~ usable (grok (grok_request market_state current_balance
                       current_position ppi_score)) kind data) ->
  exists a : Action,
    get_grok_decision str grok market_state current_balance current_position
      ppi_score = Ok a /\
    a.(type) = hold /\ a.(size) = 0 /\ a.(confidence) = 0.5.
Proof.
  intros Hcase.
  assert (Hfall : forall e,
    exists a : Action,
      new_Action hold 0 0.5
        ("[Grok AI - Fallback] API unavailable: " +:+ str e) = Ok a /\
      a.(type) = hold /\ a.(size) = 0 /\ a.(confidence) = 0.5).
  { intros e. eexists (Build_Action _ _ _ _). split; [reflexivity |].
    repeat split. }
  unfold get_grok_decision, truediv.
  destruct (Qeq_bool market_state.(price) 0) eqn:Eprice;
    cbn [mbind result_bind]; [apply Hfall |].
  destruct Hcase as [Hzero | Hnone].
  { apply Qeq_bool_iff in Hzero. congruence. }
  fold (grok_request market_state current_balance current_position ppi_score).
  specialize (Hnone).
  destruct (grok _) as [e | status_code [data | e]] eqn:Ereply;
    [apply Hfall | |].
  - destruct (decide (status_code = 200%Z)) as [-> | Hstatus]; [| apply Hfall].
    cbn [mbind result_bind].
    destruct (action_type_of_str data.(data_action)) as [kind | e] eqn:Ekind;
      cbn [mbind result_bind]; [| apply Hfall].
    rewrite new_Action_raises; [apply Hfall |].
    intros Hsize. apply (Hnone kind data). repeat split; tauto.
  - destruct (decide (status_code = 200%Z)); apply Hfall.
Qed.

(** X3: in every other case (a price of 0, a call that raises, a status
    other than 200, an unreadable body, an unknown kind, a size outside
    [[0,1]]) [get_grok_decision] raises nothing and returns a hold of size
    0 with confidence 0.5. *)
Theorem get_grok_decision_falls_back_to_hold
    (grok : GrokRequest -> grok_reply) (market_state : MarketState)
    (current_balance current_position ppi_score : Q) :
  (market_state.(price) == 0 \/
   forall kind data,
     ~ usable (grok (grok_request market_state current_balance
                       current_position ppi_score)) kind data) ->
  exists a : Action,
    get_grok_decision str grok market_state current_balance current_position
      ppi_score = Ok a /\
    a.(type) = hold /\ a.(size) = 0 /\ a.(confidence) = 0.5.
Proof. apply get_grok_decision_fallback. Qed.

Lemma blend_actions_hold_fields (vote other : Action) :
  valid_action vote -> valid_action other -> other.(type) = hold ->
  exists final swapped : Action,
    blend_actions vote other = Ok final /\
    blend_actions other vote = Ok swapped /\
    final.(type) = vote.(type) /\ swapped.(type) = vote.(type) /\
    final.(size) = round_ndigits ((vote.(size) + other.(size)) / 2) 3 /\
    (vote.(type) <> hold ->
     final.(confidence) =
       round_ndigits ((vote.(confidence) + other.(confidence)) / 2 * 0.5) 3).
Proof.
  intros Hvote Hother Hhold.
  destruct (blend_actions_fields vote other Hvote Hother)
    as (final & Hrun & Htype & Hsize & Hconf).
  destruct (blend_actions_fields other vote Hother Hvote)
    as (swapped & Hrun' & Htype' & _ & _).
  exists final, swapped. rewrite Hhold in *.
  repeat split; try assumption.
  - rewrite Htype. destruct vote.(type); reflexivity.
  - rewrite Htype'. destruct vote.(type); reflexivity.
  - intros Hkind. rewrite Hconf. unfold agreement.
    rewrite decide_False by exact Hkind. reflexivity.
Qed.


(** X5: when the oracle cannot be used, the blended action keeps the kind
    the policy chose, at half the policy's size rounded to 3 decimals (a
    multiple of 0.001 at most 0.0005 away from the half). *)
Theorem oracle_outage_keeps_the_policy_kind
    (grok : GrokRequest -> grok_reply) (market_state : MarketState)
    (current_balance current_position ppi_score : Q) (rl_action : Action) :
  valid_action rl_action ->
  (forall kind data,
     ~ usable (grok (grok_request market_state current_balance
                       current_position ppi_score)) kind data) ->
  exists grok_action final : Action,
    get_grok_decision str grok market_state current_balance current_position
      ppi_score = Ok grok_action /\
    blend_actions rl_action grok_action = Ok final /\
    final.(type) = rl_action.(type) /\
    rounded_to 3 (rl_action.(size) / 2) final.(size).
Proof.
  intros Hrl Hnone.
  destruct (get_grok_decision_fallback grok market_state
              current_balance current_position ppi_score (or_intror Hnone))
    as (grok_action & Hgrok & Htype & Hsize & Hconf).
  assert (Hvalid : valid_action grok_action).
  { unfold valid_action. rewrite Hsize, Hconf. lra. }
  destruct (blend_actions_hold_fields rl_action grok_action Hrl Hvalid Htype)
    as (final & _ & Hrun & _ & Hkind & _ & Hfinal & _).
  exists grok_action, final.
  split; [exact Hgrok |]. split; [exact Hrun |]. split; [exact Hkind |].
  rewrite Hfinal, Hsize.
  rewrite (round_ndigits_proper _ (rl_action.(size) / 2)) by (q_consts; ring).
  apply round_ndigits_3_rounded.
Qed.

Lemma new_Action_inv (t : action_type) (s c : Q) (r : string) (a : Action) :
  new_Action t s c r = Ok a ->
  a = {| type := t; size := s; confidence := c; reasoning := r |} /\
  valid_action a.
Proof.
  unfold new_Action, Qgeb. intros H.
  destruct (Qleb 0 s) eqn:E0; [| discriminate H].
  destruct (Qleb s 1) eqn:E1; [| discriminate H].
  destruct (Qleb 0 c) eqn:E2; [| discriminate H].
  destruct (Qleb c 1) eqn:E3; [| discriminate H].
  injection H as <-. apply Qleb_le in E0, E1, E2, E3.
  split; [reflexivity |]. unfold valid_action. cbn. tauto.
Qed.

(** Whatever the oracle does, [get_grok_decision] returns a validated
    action. *)
Lemma get_grok_decision_valid
    (grok : GrokRequest -> grok_reply) (market_state : MarketState)
    (current_balance current_position ppi_score : Q) :
  exists a : Action,
    get_grok_decision str grok market_state current_balance current_position
      ppi_score = Ok a /\ valid_action a.
Proof.
  unfold get_grok_decision.
  match goal with |- context [match ?t with Ok _ => _ | Raise _ => _ end] =>
    destruct t as [a | e] eqn:Etry end.
  - exists a. split; [reflexivity |].
    unfold truediv in Etry.
    destruct (Qeq_bool market_state.(price) 0); [discriminate Etry |].
    cbn [mbind result_bind] in Etry.
    destruct (grok _) as [e | status_code [data | e]]; try discriminate Etry.
    + destruct (decide (status_code = 200%Z)); [| discriminate Etry].
      cbn [mbind result_bind] in Etry.
      destruct (action_type_of_str data.(data_action)); [| discriminate Etry].
      cbn [mbind result_bind] in Etry.
      apply new_Action_inv in Etry. tauto.
    + destruct (decide (status_code = 200%Z)); discriminate Etry.
  - eexists (Build_Action _ _ _ _). split; [reflexivity |].
    unfold valid_action. cbn. lra.
Qed.

Lemma clamp_0_100 (x : Q) : 0 <= py_max 0 (py_min 100 x) <= 100.
Proof.
  destruct (py_min_spec 100 x) as (Hm & _ & _).
  destruct (py_max_spec 0 (py_min 100 x)) as (H0 & _ & [E | E]);
    rewrite E in *; lra.
Qed.

(** What [take_step] does on a live episode. *)
Lemma take_step_live (env : StepEnv) (request : StepRequest) (st : ApiState)
    (episode_data : EpisodeData) :
  st.(active_episodes) !! request.(step_episode_id) = Some episode_data ->
  0 <= env.(draws).(u_size) <= 1 -> 0 <= env.(draws).(u_confidence) <= 1 ->
  exists (st' : ApiState) (effects : list effect) (response : StepResponse)
         (data' : EpisodeData) (p : Q),
    take_step str env request st = (st', effects, Ok response) /\
    st'.(active_episodes) =
      <[request.(step_episode_id) := data']> st.(active_episodes) /\
    response.(step) = (episode_data.(current_step) + 1)%Z /\
    data'.(current_step) = response.(step) /\
    data'.(ppi_score) = Some p /\ 0 <= p <= 100 /\
    valid_action response.(action) /\
    data'.(agent).(step_count) = (episode_data.(agent).(step_count) + 1)%Z /\
    st'.(websocket_connections) =
      match st.(websocket_connections) !! request.(step_episode_id) with
      | None => st.(websocket_connections)
      | Some _ => <[request.(step_episode_id) := []]> st.(websocket_connections)
      end /\
    (forall ws message, ws_send ws message ∉ effects).
Proof.
  intros Hlive Hu Hc. unfold take_step. rewrite Hlive.
  destruct (decide_action_fields episode_data.(agent) env.(draws)
              request.(market_state) request.(current_position) Hu Hc)
    as (rl & Hdecide & _ & _ & Hhold & Htrade & Hconf).
  rewrite Hdecide.
  assert (Hrl : valid_action rl).
  { unfold valid_action. split; [| lra].
    destruct (decide (rl.(type) = hold)) as [E | E].
    - specialize (Hhold E). lra.
    - specialize (Htrade E). lra. }
  cbn [mbind result_bind].
  set (current_ppi := default 75 _).
  destruct (get_grok_decision_valid env.(grok) request.(market_state)
              request.(current_balance) request.(current_position) current_ppi)
    as (grok_action & Hgrok & Hvalid).
  rewrite Hgrok. cbn [mbind result_bind].
  destruct (blend_actions_fields rl grok_action Hrl Hvalid)
    as (action & Hblend & Hkind & Hsize & Hconfidence).
  rewrite Hblend.
  assert (Haction : valid_action action).
  { unfold blend_actions in Hblend. apply new_Action_inv in Hblend. tauto. }
  set (response := {| resp_episode_id := _; step := _; action := action;
                      resp_timestamp := _ |}).
  match goal with |- context [broadcast_to_episode ?a ?b ?c ?d] =>
    pose proof (broadcast_active_episodes a b c d) as [Hkeep _];
    destruct (broadcast_to_episode a b c d) as [st2 sent] eqn:Ecast
  end.
  cbn [fst] in Hkeep.
  eexists st2, _, response, _, _.
  split; [reflexivity |].
  split.
  { rewrite Hkeep. cbn [active_episodes set_active_episodes].
    apply insert_insert_eq. }
  split; [reflexivity |]. split; [reflexivity |]. split; [reflexivity |].
  split; [apply clamp_0_100 |]. split; [exact Haction |].
  split; [reflexivity |].
  rewrite broadcast_of_a_step in Ecast.
  cbn [websocket_connections set_active_episodes] in Ecast.
  injection Ecast as <- <-.
  split.
  { destruct (st.(websocket_connections) !! request.(step_episode_id));
      reflexivity. }
  intros ws message Hin. rewrite app_nil_r in Hin.
  cbn [supabase set_active_episodes] in Hin.
  destruct st.(supabase).
  - apply list_elem_of_singleton in Hin. discriminate Hin.
  - apply elem_of_nil in Hin. exact Hin.
Qed.

(** X6: a step on a live episode never fails, whatever the oracle does: it
    answers with a valid action and the step index that follows the
    episode's, and counts the step for the episode and for its agent. *)
Theorem take_step_on_a_live_episode_returns (env : StepEnv)
    (request : StepRequest) (st : ApiState) (episode_data : EpisodeData) :
  st.(active_episodes) !! request.(step_episode_id) = Some episode_data ->
  0 <= env.(draws).(u_size) <= 1 -> 0 <= env.(draws).(u_confidence) <= 1 ->
  exists (st' : ApiState) (effects : list effect) (response : StepResponse)
         (data' : EpisodeData),
    take_step str env request st = (st', effects, Ok response) /\
    valid_action response.(action) /\
    response.(step) = (episode_data.(current_step) + 1)%Z /\
    st'.(active_episodes) !! request.(step_episode_id) = Some data' /\
    data'.(current_step) = response.(step) /\
    data'.(agent).(step_count) = (episode_data.(agent).(step_count) + 1)%Z.
Proof.
  intros Hlive Hu Hc.
  destruct (take_step_live env request st episode_data Hlive Hu Hc)
    as (st' & effects & response & data' & p & Hrun & Hreg & Hstep & Hcount &
        _ & _ & Hvalid & Hagent & _).
  exists st', effects, response, data'.
  split; [exact Hrun |]. split; [exact Hvalid |]. split; [exact Hstep |].
  split; [rewrite Hreg; apply lookup_insert_eq |].
  split; assumption.
Qed.

(** X7: after a step the trust score kept for the episode is in
    [[0,100]], and the other live episodes are as they were. *)
Theorem take_step_keeps_the_score_in_range (env : StepEnv)
    (request : StepRequest) (st : ApiState) (episode_data : EpisodeData) :
  st.(active_episodes) !! request.(step_episode_id) = Some episode_data ->
  0 <= env.(draws).(u_size) <= 1 -> 0 <= env.(draws).(u_confidence) <= 1 ->
  exists (data' : EpisodeData) (p : Q),
    (take_step str env request st).1.1.(active_episodes)
      !! request.(step_episode_id) = Some data' /\
    data'.(ppi_score) = Some p /\ 0 <= p <= 100 /\
    forall other,
      other <> request.(step_episode_id) ->
      (take_step str env request st).1.1.(active_episodes) !! other =
        st.(active_episodes) !! other.
Proof.
  intros Hlive Hu Hc.
  destruct (take_step_live env request st episode_data Hlive Hu Hc)
    as (st' & effects & response & data' & p & Hrun & Hreg & _ & _ &
        Hppi & Hrange & _).
  exists data', p. rewrite Hrun. cbn [fst]. rewrite Hreg.
  split; [apply lookup_insert_eq |].
  split; [exact Hppi |]. split; [exact Hrange |].
  intros other Hother. apply lookup_insert_ne. congruence.
Qed.

(** X8: a websocket that subscribes to a live episode is dropped by the
    next step of that episode.  The frame of a step carries the [datetime]
    of the response, which [send_json] cannot turn into text: every send
    of the broadcast raises, so the step delivers its event to nobody and
    leaves the episode with an empty list of connections, while it answers
    its caller as usual.  A websocket that names an episode that is not
    live is registered nowhere. *)
Theorem subscriber_is_dropped_by_the_next_step (websocket : WebSocket)
    (env : StepEnv) (request : StepRequest) (st : ApiState)
    (episode_data : EpisodeData) :
  st.(active_episodes) !! request.(step_episode_id) = Some episode_data ->
  0 <= env.(draws).(u_size) <= 1 -> 0 <= env.(draws).(u_confidence) <= 1 ->
  (exists subscribed st' effects response,
      websocket_episode websocket request.(step_episode_id) st =
        (subscribed, true) /\
      (exists connections,
          subscribed.(websocket_connections) !! request.(step_episode_id) =
            Some connections /\
          websocket ∈ connections) /\
      take_step str env request subscribed = (st', effects, Ok response) /\
      st'.(websocket_connections) !! request.(step_episode_id) = Some [] /\
      (forall ws message, ws_send ws message ∉ effects)) /\
  (forall other,
      st.(active_episodes) !! other = None ->
      websocket_episode websocket other st = (st, false)).
Proof.
  intros Hlive Hu Hc. split.
  - unfold websocket_episode. rewrite Hlive.
    set (subscribed := set_websocket_connections st _).
    assert (Hsubscribed :
              subscribed.(websocket_connections) !! request.(step_episode_id) =
                Some (app (default [] (st.(websocket_connections)
                                         !! request.(step_episode_id)))
                          [websocket])).
    { unfold subscribed. cbn [websocket_connections set_websocket_connections].
      apply lookup_insert_eq. }
    destruct (take_step_live env request subscribed episode_data Hlive Hu Hc)
      as (st' & effects & response & data' & p & Hrun & _ & _ & _ & _ & _ &
          _ & _ & Hdropped & Hsent).
    exists subscribed, st', effects, response.
    split; [reflexivity |].
    split.
    { eexists. split; [exact Hsubscribed |].
      apply elem_of_app. right. apply list_elem_of_singleton. reflexivity. }
    split; [exact Hrun |].
    split; [| exact Hsent].
    rewrite Hdropped, Hsubscribed. apply lookup_insert_eq.
  - intros other Hother. unfold websocket_episode. now rewrite Hother.
Qed.

(** X9: a score below 0 or from 100 upwards falls through every bin of
    the tier map, so it is named [Self-Actualization]: a negative score
    gets the name of the top tier. *)
Theorem get_ppi_tier_outside_the_bins (x : Q) :
  x < 0 \/ 100 <= x -> get_ppi_tier x = "Self-Actualization".
Proof.
  intros Hx. rewrite get_ppi_tier_bins.
  repeat match goal with |- context [if ?b then _ else _] => destruct b eqn:? end;
    try reflexivity;
    repeat match goal with
    | H : _ && _ = true |- _ => apply andb_true_iff in H as [? ?]
    end;
    q_cases; exfalso; destruct Hx; lra.
Qed.

End Policy.

Section PolicyExample.
Import Py Main.
Local Open Scope Q_scope.
Local Open Scope string_scope.

Lemma even_draws_in_range :
  0 <= even_draws.(u_size) <= 1 /\ 0 <= even_draws.(u_confidence) <= 1.
Proof. cbn. lra. Defined.

(** With even draws and no sentiment the mock policy holds. *)
Lemma decide_action_respects_position_at_even_draws :
  0 <= even_draws.(u_size) <= 1 /\ 0 <= even_draws.(u_confidence) <= 1 /\
  exists a : Action,
    (decide_action (new_MockRLAgent "Agent-A") even_draws market_at_45000 0.9).2
      = Ok a /\ a.(type) <> buy.
Proof.
  destruct even_draws_in_range as [Hu Hc].
  split; [exact Hu |]. split; [exact Hc |].
  destruct (decide_action_respects_position (new_MockRLAgent "Agent-A")
              even_draws market_at_45000 0.9 Hu Hc)
    as (a & Hrun & Hbuy & _).
  exists a. rewrite Hrun. split; [reflexivity |].
  apply Hbuy. lra.
Defined.

Lemma advising_oracle_is_usable :
  usable (advising_oracle (grok_request market_at_45000 10000 0 75)) buy
    {| data_action := "buy"; data_size := 0.5; data_reasoning := "dip" |}.
Proof.
  unfold usable, advising_oracle. cbn.
  split; [reflexivity |]. split; [reflexivity | lra].
Defined.

Lemma price_45000_is_not_0 : ~ market_at_45000.(price) == 0.
Proof. vm_compute. congruence. Defined.

(** The advice to buy 0.5 comes back as a buy of 0.5 at confidence 0.85. *)
Lemma get_grok_decision_passes_the_answer_of_a_buy :
  ~ market_at_45000.(price) == 0 /\
  usable (advising_oracle (grok_request market_at_45000 10000 0 75)) buy
    {| data_action := "buy"; data_size := 0.5; data_reasoning := "dip" |} /\
  get_grok_decision plain_text advising_oracle market_at_45000 10000 0 75 =
    Ok {| type := buy; size := 0.5; confidence := 0.85;
          reasoning := "[Grok AI] dip" |}.
Proof.
  split; [exact price_45000_is_not_0 |].
  split; [exact advising_oracle_is_usable |].
  exact (get_grok_decision_passes_the_answer plain_text advising_oracle
           market_at_45000 10000 0 75 buy _ price_45000_is_not_0
           advising_oracle_is_usable).
Defined.

(** At a price of 0 the advice is not even asked for. *)
Lemma get_grok_decision_falls_back_to_hold_at_price_0 :
  market_at_0.(price) == 0 /\
  exists a : Action,
    get_grok_decision plain_text advising_oracle market_at_0 10000 0 75 = Ok a /\
    a.(type) = hold.
Proof.
  assert (H : market_at_0.(price) == 0) by reflexivity.
  split; [exact H |].
  destruct (get_grok_decision_falls_back_to_hold plain_text advising_oracle
              market_at_0 10000 0 75 (or_introl H))
    as (a & Hrun & Htype & _).
  exists a. split; assumption.
Defined.

Lemma sell_vote_valid : valid_action sell_vote.
Proof. unfold valid_action. cbn. lra. Defined.



Lemma silent_oracle_is_not_usable :
  forall kind data,
    ~ usable (silent_oracle (grok_request market_at_45000 10000 0 75)) kind data.
Proof. intros kind data [H _]. discriminate H. Defined.

(** With a silent oracle the sell stays a sell, at half its size. *)
Lemma oracle_outage_keeps_the_policy_kind_of_a_sell :
  valid_action sell_vote /\
  exists grok_action final : Action,
    get_grok_decision plain_text silent_oracle market_at_45000 10000 0 75 =
      Ok grok_action /\
    blend_actions sell_vote grok_action = Ok final /\
    final.(type) = sell /\ final.(size) == 0.1.
Proof.
  split; [exact sell_vote_valid |].
  destruct (oracle_outage_keeps_the_policy_kind plain_text silent_oracle
              market_at_45000 10000 0 75 sell_vote sell_vote_valid
              silent_oracle_is_not_usable)
    as (grok_action & final & Hgrok & Hblend & Htype & Hsize).
  exists grok_action, final.
  split; [exact Hgrok |]. split; [exact Hblend |]. split; [exact Htype |].
  destruct Hsize as (k & Hk & Hnear).
  apply Qabs_Qle_condition in Hnear.
  unfold sell_vote in Hnear. cbn [size] in Hnear.
  change (inject_Z (10 ^ Z.of_nat 3)) with 1000 in Hnear, Hk.
  assert (Hk100 : k = 100%Z).
  { assert (H : (99 < k < 101)%Z); [| lia].
    rewrite !Zlt_Qlt. change (inject_Z 99) with 99.
    change (inject_Z 101) with 101. q_consts. lra. }
  rewrite Hk, Hk100. reflexivity.
Defined.

Lemma ep_1_is_live :
  one_live.(active_episodes) !! step_on_ep_1.(step_episode_id) =
    Some live_episode.
Proof. vm_compute. reflexivity. Defined.

Lemma quiet_oracle_draws_in_range :
  0 <= quiet_oracle.(draws).(u_size) <= 1 /\
  0 <= quiet_oracle.(draws).(u_confidence) <= 1.
Proof. cbn. lra. Defined.

(** The live episode at step 1 answers a step with index 2. *)
Lemma take_step_on_a_live_episode_returns_on_ep_1 :
  one_live.(active_episodes) !! step_on_ep_1.(step_episode_id) =
    Some live_episode /\
  exists response : StepResponse,
    (take_step plain_text quiet_oracle step_on_ep_1 one_live).2 = Ok response /\
    response.(step) = 2%Z.
Proof.
  split; [exact ep_1_is_live |].
  destruct quiet_oracle_draws_in_range as [Hu Hc].
  destruct (take_step_on_a_live_episode_returns plain_text quiet_oracle
              step_on_ep_1 one_live live_episode ep_1_is_live Hu Hc)
    as (st' & effects & response & data' & Hrun & _ & Hstep & _).
  exists response. rewrite Hrun. split; [reflexivity | exact Hstep].
Defined.

(** The live episode, without a score so far, gets one in range. *)
Lemma take_step_keeps_the_score_in_range_on_ep_1 :
  one_live.(active_episodes) !! step_on_ep_1.(step_episode_id) =
    Some live_episode /\
  exists (data' : EpisodeData) (p : Q),
    (take_step plain_text quiet_oracle step_on_ep_1 one_live).1.1.(active_episodes)
      !! "ep-1" = Some data' /\
    data'.(ppi_score) = Some p /\ 0 <= p <= 100.
Proof.
  split; [exact ep_1_is_live |].
  destruct quiet_oracle_draws_in_range as [Hu Hc].
  destruct (take_step_keeps_the_score_in_range plain_text quiet_oracle
              step_on_ep_1 one_live live_episode ep_1_is_live Hu Hc)
    as (data' & p & Hlook & Hppi & Hrange & _).
  exists data', p. split; [exact Hlook |]. split; assumption.
Defined.

(** Websocket 7 subscribes to the live episode and is gone after its next
    step. *)
Lemma subscriber_is_dropped_by_the_next_step_on_ep_1 :
  one_live.(active_episodes) !! step_on_ep_1.(step_episode_id) =
    Some live_episode /\
  exists subscribed st' effects response,
    websocket_episode 7%nat "ep-1" one_live = (subscribed, true) /\
    take_step plain_text quiet_oracle step_on_ep_1 subscribed =
      (st', effects, Ok response) /\
    st'.(websocket_connections) !! "ep-1" = Some [].
Proof.
  split; [exact ep_1_is_live |].
  destruct quiet_oracle_draws_in_range as [Hu Hc].
  destruct (proj1 (subscriber_is_dropped_by_the_next_step plain_text 7%nat
                     quiet_oracle step_on_ep_1 one_live live_episode
                     ep_1_is_live Hu Hc))
    as (subscribed & st' & effects & response & Hsub & _ & Hrun & Hgone & _).
  exists subscribed, st', effects, response.
  split; [exact Hsub |]. split; [exact Hrun | exact Hgone].
Defined.

(** A score of -5 is named as the top tier. *)
Lemma get_ppi_tier_outside_the_bins_at_minus_5 :
  (-5 < 0 \/ 100 <= -5) /\ get_ppi_tier (-5) = "Self-Actualization".
Proof.
  assert (H : -5 < 0 \/ 100 <= -5) by (left; reflexivity).
  split; [exact H |].
  exact (get_ppi_tier_outside_the_bins (-5) H).
Defined.

End PolicyExample.

(** ** main.py: the registries of live episodes and of connections *)

Section Registry.
Import Py Main.
Local Open Scope Q_scope.
Local Open Scope string_scope.

Variable str : exn -> string.

Lemma list_remove_app_absent (x : nat) (prefix rest : list nat) :
  x ∉ prefix -> list_remove x (app prefix (x :: rest)) = app prefix rest.
Proof.
  induction prefix as [| y prefix IH]; intros Hx; cbn.
  - destruct (decide (x = x)); [reflexivity | congruence].
  - apply not_elem_of_cons in Hx as [Hne Hx].
    destruct (decide (x = y)); [congruence |].
    rewrite IH by exact Hx. reflexivity.
Qed.

Lemma remove_the_unreachable (send_ok : WebSocket -> bool)
    (connections prefix : list WebSocket) :
  Forall (λ ws, send_ok ws = true) prefix ->
  foldl (λ l ws, list_remove ws l) (app prefix connections)
    (filter (λ ws, send_ok ws = false) connections) =
  app prefix (filter (λ ws, send_ok ws = true) connections).
Proof.
  revert prefix.
  induction connections as [| ws connections IH]; intros prefix Hprefix.
  - reflexivity.
  - destruct (send_ok ws) eqn:E.
    + rewrite filter_cons_False by congruence.
      rewrite filter_cons_True by exact E.
      rewrite (cons_middle ws), app_assoc. rewrite IH.
      * rewrite <- app_assoc. reflexivity.
      * apply Forall_app. split; [exact Hprefix |].
        apply Forall_singleton. exact E.
    + rewrite filter_cons_True by exact E.
      rewrite filter_cons_False by congruence.
      cbn [foldl]. rewrite list_remove_app_absent.
      * apply IH. exact Hprefix.
      * intros Hin. rewrite Forall_forall in Hprefix.
        specialize (Hprefix _ Hin). congruence.
Qed.

(** The connections that take the message: none when it cannot be turned
    into text, the ones that can be reached otherwise. *)
Lemma send_json_filter (send_ok : WebSocket -> bool) (message : ws_message)
    (connections : list WebSocket) :
  filter (λ ws, send_json send_ok ws message = true) connections =
  if serialisable message
  then filter (λ ws, send_ok ws = true) connections
  else [].
Proof.
  unfold send_json. destruct (serialisable message); cbn [andb].
  - reflexivity.
  - induction connections as [| ws connections IH]; [reflexivity |].
    rewrite filter_cons_False by discriminate. exact IH.
Qed.

Lemma broadcast_to_episode_sent (send_ok : WebSocket -> bool)
    (episode_id : string) (message : ws_message) (st : ApiState) :
  let reachable :=
    filter (λ ws, send_json send_ok ws message = true)
      (default [] (st.(websocket_connections) !! episode_id)) in
  broadcast_to_episode send_ok episode_id message st =
    (match st.(websocket_connections) !! episode_id with
     | None => st
     | Some _ =>
         set_websocket_connections st
           (<[episode_id := reachable]> st.(websocket_connections))
     end,
     (λ ws, ws_send ws message) <$> reachable).
Proof.
  unfold broadcast_to_episode.
  destruct (st.(websocket_connections) !! episode_id) as [connections |];
    [| reflexivity].
  cbn [default].
  pose proof (remove_the_unreachable (λ ws, send_json send_ok ws message)
                connections [] (Forall_nil_2 _)) as H.
  cbn [app] in H. cbv beta in H. unfold WebSocket in *. rewrite H. reflexivity.
Qed.

(** The broadcast of a message that can be turned into text. *)
Lemma broadcast_to_episode_run (send_ok : WebSocket -> bool)
    (episode_id : string) (message : ws_message) (st : ApiState) :
  serialisable message = true ->
  let reachable :=
    filter (λ ws, send_ok ws = true)
      (default [] (st.(websocket_connections) !! episode_id)) in
  broadcast_to_episode send_ok episode_id message st =
    (match st.(websocket_connections) !! episode_id with
     | None => st
     | Some _ =>
         set_websocket_connections st
           (<[episode_id := reachable]> st.(websocket_connections))
     end,
     (λ ws, ws_send ws message) <$> reachable).
Proof.
  intros Htext reachable. rewrite broadcast_to_episode_sent. cbv zeta.
  rewrite send_json_filter, Htext. reflexivity.
Qed.

(** X10: a broadcast leaves for the episode exactly the connections whose
    send returned, in their order, and the message was delivered to
    exactly those; the lists of the other episodes and the live episodes
    are as they were.  The send returns for the connections that can be
    reached when the message can be turned into text, and for none when
    it cannot (the frame of a step). *)
Theorem broadcast_to_episode_keeps_the_reachable (send_ok : WebSocket -> bool)
    (episode_id : string) (message : ws_message) (st : ApiState) :
  let reachable := filter (λ ws, send_json send_ok ws message = true) in
  let after := broadcast_to_episode send_ok episode_id message st in
  after.1.(websocket_connections) !! episode_id =
    reachable <$> st.(websocket_connections) !! episode_id /\
  (forall other, other <> episode_id ->
     after.1.(websocket_connections) !! other =
     st.(websocket_connections) !! other) /\
  after.2 =
    (λ ws, ws_send ws message) <$>
      reachable (default [] (st.(websocket_connections) !! episode_id)) /\
  after.1.(active_episodes) = st.(active_episodes) /\
  (forall connections,
     reachable connections =
       if serialisable message
       then filter (λ ws, send_ok ws = true) connections
       else []).
Proof.
  intros reachable after. subst after.
  rewrite broadcast_to_episode_sent. cbn [fst snd].
  destruct (st.(websocket_connections) !! episode_id) as [connections |] eqn:E;
    cbn.
  - split; [apply lookup_insert_eq |].
    split; [| split; [reflexivity | split; [reflexivity |]]].
    + intros other Hne. apply lookup_insert_ne. congruence.
    + intros l. apply send_json_filter.
  - split; [exact E |].
    split; [reflexivity |]. split; [reflexivity |]. split; [reflexivity |].
    intros l. apply send_json_filter.
Qed.


Ltac split_handler H :=
  repeat match type of H with
  | context [match ?d with _ => _ end] => destruct d eqn:?; cbn in H
  | context [if ?d then _ else _] => destruct d eqn:?; cbn in H
  end.

Lemma start_episode_ok (env : StartEnv) (request : StartEpisodeRequest)
    (st st' : ApiState) (effects : list effect)
    (response : StartEpisodeResponse) :
  start_episode str env request st = (st', effects, Ok response) ->
  let episode_id := response.(started_episode_id) in
  env.(episodes_inserted) ≫= head_row = Ok episode_id /\
  st' =
    {| supabase := st.(supabase);
       active_episodes :=
         <[episode_id :=
             {| agent_id := response.(started_agent_id);
                ep_agent_name := request.(start_agent_name);
                initial_balance := request.(start_initial_balance);
                current_step := 0;
                agent := new_MockRLAgent request.(start_agent_name);
                started_at := env.(start_now);
                ppi_score := None |}]> st.(active_episodes);
       websocket_connections :=
         <[episode_id := []]> st.(websocket_connections) |} /\
  response.(started_agent_name) = request.(start_agent_name) /\
  response.(started_initial_balance) = request.(start_initial_balance).
Proof.
  intros H. unfold start_episode in H. cbv zeta in H.
  split_handler H; try discriminate;
    injection H as <- <- <-; cbn; repeat split; assumption || reflexivity.
Qed.

(** X11: a start that succeeds registers the episode under the id the
    store handed out, at step 0, without a score, with a new mock agent
    and an empty list of connections (an entry already under that id is
    replaced); every other entry of both registries is as it was, and
    the answer repeats the agent name and the balance of the request. *)
Theorem start_episode_registers_the_episode (env : StartEnv)
    (request : StartEpisodeRequest) (st st' : ApiState)
    (effects : list effect) (response : StartEpisodeResponse) :
  start_episode str env request st = (st', effects, Ok response) ->
  let episode_id := response.(started_episode_id) in
  (exists episode_data : EpisodeData,
     st'.(active_episodes) !! episode_id = Some episode_data /\
     episode_data.(current_step) = 0%Z /\
     episode_data.(ppi_score) = None /\
     episode_data.(agent_id) = response.(started_agent_id) /\
     episode_data.(initial_balance) = request.(start_initial_balance) /\
     episode_data.(agent) = new_MockRLAgent request.(start_agent_name)) /\
  st'.(websocket_connections) !! episode_id = Some [] /\
  (forall other, other <> episode_id ->
     st'.(active_episodes) !! other = st.(active_episodes) !! other /\
     st'.(websocket_connections) !! other =
       st.(websocket_connections) !! other) /\
  response.(started_agent_name) = request.(start_agent_name) /\
  response.(started_initial_balance) = request.(start_initial_balance).
Proof.
  intros H episode_id.
  destruct (start_episode_ok _ _ _ _ _ _ H) as (_ & -> & Hname & Hbalance).
  fold episode_id. cbn.
  split.
  { eexists. split; [apply lookup_insert_eq |]. cbn. repeat split. }
  split; [apply lookup_insert_eq |].
  split; [| split; assumption].
  intros other Hne.
  rewrite !lookup_insert_ne by congruence. split; reflexivity.
Qed.

Lemma start_episode_raise (env : StartEnv) (request : StartEpisodeRequest)
    (st st' : ApiState) (effects : list effect) (e : exn) :
  start_episode str env request st = (st', effects, Raise e) ->
  st' = st /\ exists detail, e = HTTPException 500 detail.
Proof.
  intros H. unfold start_episode in H. cbv zeta in H.
  split_handler H; try discriminate;
    injection H as <- <- <-; (split; [reflexivity | eexists; reflexivity]).
Qed.

Lemma end_episode_raise (env : EndEnv) (request : EndEpisodeRequest)
    (st st' : ApiState) (effects : list effect) (e : exn) :
  end_episode str env request st = (st', effects, Raise e) ->
  st' = st /\
  (st.(active_episodes) !! request.(end_episode_id) = None /\
   e = HTTPException 404 "Episode not found" /\ effects = [] \/
   is_Some (st.(active_episodes) !! request.(end_episode_id)) /\
   exists detail, e = HTTPException 500 detail).
Proof.
  intros H. unfold end_episode in H. cbv zeta in H.
  destruct (st.(active_episodes) !! request.(end_episode_id)) eqn:Hlive.
  2:{ injection H as <- <- <-. split; [reflexivity |]. left. repeat split. }
  assert (Hsome : is_Some (Some e0)) by (eexists; reflexivity).
  revert H.
  repeat match goal with
  | |- context [broadcast_to_episode ?a ?b ?c ?d] =>
      destruct (broadcast_to_episode a b c d); cbn
  | |- context [match ?d with _ => _ end] => destruct d eqn:?; cbn
  | |- context [if ?d then _ else _] => destruct d eqn:?; cbn
  end; intros H; try discriminate;
    injection H as <- <- <-;
    (split; [reflexivity | right; split; [exact Hsome | eexists; reflexivity]]).
Qed.

(** X12: a start or an end that fails leaves both registries as they
    were.  A start fails with status 500 only; an end fails with 404 and
    no write to the store when the id is not live, and with 500
    otherwise. *)
Theorem failed_start_or_end_changes_nothing :
  (forall (env : StartEnv) (request : StartEpisodeRequest) (st st' : ApiState)
      (effects : list effect) (e : exn),
      start_episode str env request st = (st', effects, Raise e) ->
      st' = st /\ exists detail, e = HTTPException 500 detail) /\
  (forall (env : EndEnv) (request : EndEpisodeRequest) (st st' : ApiState)
      (effects : list effect) (e : exn),
      end_episode str env request st = (st', effects, Raise e) ->
      st' = st /\
      (st.(active_episodes) !! request.(end_episode_id) = None /\
       e = HTTPException 404 "Episode not found" /\ effects = [] \/
       is_Some (st.(active_episodes) !! request.(end_episode_id)) /\
       exists detail, e = HTTPException 500 detail)).
Proof. split; [exact start_episode_raise | exact end_episode_raise]. Qed.


Lemma end_episode_ok (env : EndEnv) (request : EndEpisodeRequest)
    (st st' : ApiState) (effects : list effect)
    (response : EndEpisodeResponse) :
  end_episode str env request st = (st', effects, Ok response) ->
  let episode_id := request.(end_episode_id) in
  let reachable :=
    filter (λ ws, env.(end_send_ok) ws = true)
      (default [] (st.(websocket_connections) !! episode_id)) in
  st' =
    {| supabase := st.(supabase);
       active_episodes := delete episode_id st.(active_episodes);
       websocket_connections := delete episode_id st.(websocket_connections) |} /\
  exists (episode_data : EpisodeData) (writes : list effect) (irr sharpe : Q),
    st.(active_episodes) !! episode_id = Some episode_data /\
    ~ episode_data.(initial_balance) == 0 /\
    irr = request.(final_pnl) / episode_data.(initial_balance) * 100 /\
    response.(ended_agent_id) = episode_data.(agent_id) /\
    response.(ended_episode_id) = episode_id /\
    (writes = [] \/
     exists new_irr new_sharpe new_ppi,
       writes = [agents_update_stats episode_data.(agent_id) new_irr
                   new_sharpe new_ppi]) /\
    effects =
      episodes_update episode_id request.(total_reward) request.(total_steps)
        request.(end_ppi_score) ::
      app writes
        (app ((λ ws, ws_send ws
                 (msg_end episode_id request.(final_pnl)
                    request.(end_ppi_score) irr sharpe)) <$> reachable)
             (ws_close <$> reachable)).
Proof.
  intros H episode_id reachable. unfold end_episode in H. cbv zeta in H.
  fold episode_id in H.
  destruct (st.(active_episodes) !! episode_id) as [episode_data |] eqn:Hlive;
    [| discriminate].
  destruct (negb st.(supabase)); [discriminate |].
  destruct env.(episodes_updated); [| discriminate].
  destruct (truediv request.(final_pnl) episode_data.(initial_balance))
    as [ratio |] eqn:Hratio; [| discriminate].
  unfold truediv in Hratio.
  destruct (Qeq_bool episode_data.(initial_balance) 0) eqn:Hbalance;
    [discriminate |].
  injection Hratio as <-.
  assert (Hnonzero : ~ episode_data.(initial_balance) == 0).
  { intros E. apply Qeq_bool_iff in E. congruence. }
  cbn [mbind result_bind] in H.
  match type of H with context [truediv ?x ?y] =>
    destruct (truediv x y) as [sharpe |]; [| discriminate] end.
  cbn [mbind result_bind mret result_ret] in H.
  assert (Hleft :
    forall st0 : ApiState,
      st0.(websocket_connections) = st.(websocket_connections) ->
      default []
        (match websocket_connections st0 !! episode_id with
         | Some _ =>
             set_websocket_connections st0
               (<[episode_id := reachable]> st0.(websocket_connections))
         | None => st0
         end.(websocket_connections) !! episode_id) = reachable).
  { intros st0 E. subst reachable. rewrite E.
    destruct (st.(websocket_connections) !! episode_id) eqn:Hc; cbn.
    - rewrite lookup_insert_eq. reflexivity.
    - rewrite E, Hc. reflexivity. }
  assert (Hdel :
    forall l : list WebSocket,
      delete episode_id
        (match st.(websocket_connections) !! episode_id with
         | Some _ =>
             set_websocket_connections st
               (<[episode_id := l]> st.(websocket_connections))
         | None => st
         end.(websocket_connections)) =
      delete episode_id st.(websocket_connections)).
  { intros l. destruct (st.(websocket_connections) !! episode_id); cbn;
      [apply delete_insert_eq | reflexivity]. }
  split_handler H; try discriminate.
  all: match goal with
       | Hb : broadcast_to_episode _ _ _ _ = _ |- _ =>
           rewrite broadcast_to_episode_run in Hb by reflexivity;
           injection Hb as <- <-
       end.
  all: injection H as <- <- <-.
  all: split;
    [ f_equal;
      [ destruct (st.(websocket_connections) !! episode_id); reflexivity
      | destruct (st.(websocket_connections) !! episode_id); reflexivity
      | apply Hdel ]
    | ].
  all: eexists episode_data, _, _, _;
    split; [reflexivity |]; split; [exact Hnonzero |];
    split; [reflexivity |]; split; [reflexivity |]; split; [reflexivity |].
  all: fold reachable; rewrite (Hleft st eq_refl).
  - split; [left; reflexivity |]. cbn. reflexivity.
  - split; [right; eexists _, _, _; reflexivity |]. cbn. reflexivity.
Qed.


(** X13: an end that succeeds removes the episode from both registries
    and touches nothing else; after its writes to the store it sends the
    end event to the connections that can be reached, then closes those
    same connections. *)
Theorem end_episode_closes_the_episode (env : EndEnv)
    (request : EndEpisodeRequest) (st st' : ApiState) (effects : list effect)
    (response : EndEpisodeResponse) :
  end_episode str env request st = (st', effects, Ok response) ->
  let episode_id := request.(end_episode_id) in
  let reachable :=
    filter (λ ws, env.(end_send_ok) ws = true)
      (default [] (st.(websocket_connections) !! episode_id)) in
  st'.(active_episodes) = delete episode_id st.(active_episodes) /\
  st'.(websocket_connections) = delete episode_id st.(websocket_connections) /\
  exists (writes : list effect) (irr sharpe : Q),
    (writes = [] \/
     exists agent_id new_irr new_sharpe new_ppi,
       writes = [agents_update_stats agent_id new_irr new_sharpe new_ppi]) /\
    effects =
      episodes_update episode_id request.(total_reward) request.(total_steps)
        request.(end_ppi_score) ::
      app writes
        (app ((λ ws, ws_send ws
                 (msg_end episode_id request.(final_pnl)
                    request.(end_ppi_score) irr sharpe)) <$> reachable)
             (ws_close <$> reachable)).
Proof.
  intros H episode_id reachable.
  destruct (end_episode_ok _ _ _ _ _ _ H)
    as (-> & episode_data & writes & irr & sharpe & _ & _ & _ & _ & _ &
        Hwrites & Heffects).
  split; [reflexivity |]. split; [reflexivity |].
  exists writes, irr, sharpe. split; [| exact Heffects].
  destruct Hwrites as [-> | (a & b & c & ->)]; [left; reflexivity |].
  right. eexists _, _, _, _. reflexivity.
Qed.



(** X16: a start followed by the end of the episode it started brings
    both registries back to what they were before the start, when the id
    was not in use; the end names the agent of the start and sends
    nothing to any websocket. *)
Theorem start_then_end_restores_the_registries (env : StartEnv)
    (request : StartEpisodeRequest) (env' : EndEnv)
    (request' : EndEpisodeRequest) (st st1 st2 : ApiState)
    (effects effects' : list effect) (response : StartEpisodeResponse)
    (response' : EndEpisodeResponse) :
  st.(active_episodes) !! response.(started_episode_id) = None ->
  st.(websocket_connections) !! response.(started_episode_id) = None ->
  start_episode str env request st = (st1, effects, Ok response) ->
  request'.(end_episode_id) = response.(started_episode_id) ->
  end_episode str env' request' st1 = (st2, effects', Ok response') ->
  st2 = st /\
  response'.(ended_agent_id) = response.(started_agent_id) /\
  Forall (λ e, forall ws m, e <> ws_send ws m /\ e <> ws_close ws) effects'.
Proof.
  intros Hfresh Hquiet Hstart Hid Hend.
  destruct (start_episode_ok _ _ _ _ _ _ Hstart) as (_ & Hst1 & _).
  destruct (end_episode_ok _ _ _ _ _ _ Hend)
    as (Hst2 & data & writes & irr & sharpe & Hdata & _ & _ & Hagent & _ &
        Hwrites & Heffects).
  subst st1 st2. rewrite Hid in *.
  cbn [active_episodes websocket_connections supabase] in *.
  rewrite lookup_insert_eq in Hdata. injection Hdata as <-.
  rewrite lookup_insert_eq in Heffects. cbn in Hagent, Heffects.
  split; [| split; [exact Hagent |]].
  - rewrite !delete_insert_id by assumption.
    destruct st; reflexivity.
  - rewrite Heffects. rewrite app_nil_r.
    apply Forall_cons. split; [intros ws m; split; discriminate |].
    destruct Hwrites as [-> | (a & b & c & ->)];
      [apply Forall_nil_2 |].
    apply Forall_singleton. intros ws m; split; discriminate.
Qed.

(** X17: for an episode count of at least 1 the running average is
    defined and lies in every interval that holds the old average and the
    new value; for a count of 1 it is the new value. *)
Lemma running_average_bounds (old : option Q) (episodes_count : Z)
    (value lo hi : Q) :
  (1 <= episodes_count)%Z ->
  lo <= or_0 old <= hi -> lo <= value <= hi ->
  exists updated : Q,
    running_average old episodes_count value = Ok updated /\
    lo <= updated <= hi /\
    (episodes_count = 1%Z -> updated == value).
Proof.
  intros Hn Hold Hvalue.
  rewrite running_average_nonzero by lia.
  eexists. split; [reflexivity |].
  assert (HN : 1 <= inject_Z episodes_count).
  { rewrite <- (Zle_Qle 1). exact Hn. }
  assert (Hminus : inject_Z (episodes_count - 1) == inject_Z episodes_count - 1).
  { unfold Qeq. cbn. lia. }
  rewrite Hminus.
  set (N := inject_Z episodes_count) in *.
  set (o := or_0 old) in *.
  split; [split |].
  - apply Qle_shift_div_l; [lra | nra].
  - apply Qle_shift_div_r; [lra | nra].
  - intros E. unfold N. rewrite E. change (inject_Z 1) with 1. field.
Qed.

Theorem running_average_stays_between (old : option Q) (episodes_count : Z)
    (value lo hi : Q) :
  (1 <= episodes_count)%Z ->
  lo <= or_0 old <= hi -> lo <= value <= hi ->
  exists updated : Q,
    running_average old episodes_count value = Ok updated /\
    lo <= updated <= hi /\
    (episodes_count = 1%Z -> updated == value).
Proof. apply running_average_bounds. Qed.


Lemma clamp_drift (current delta : Q) :
  0 <= current <= 100 -> -1 <= delta <= 4 ->
  current - 1 <= py_max 0 (py_min 100 (current + delta)) <= current + 4.
Proof.
  intros Hcurrent Hdelta.
  destruct (py_min_spec 100 (current + delta)) as (_ & _ & [E | E]);
    destruct (py_max_spec 0 (py_min 100 (current + delta))) as (_ & _ & [F | F]);
    rewrite F; rewrite ?E; try lra.
  all: destruct (py_min_spec 100 (current + delta)) as (H1 & H2 & _).
  all: destruct (py_max_spec 0 (py_min 100 (current + delta))) as (H3 & H4 & _).
  all: rewrite ?F, ?E in *; lra.
Qed.

Lemma take_step_drift (env : StepEnv) (request : StepRequest) (st : ApiState)
    (episode_data : EpisodeData) :
  st.(active_episodes) !! request.(step_episode_id) = Some episode_data ->
  0 <= env.(draws).(u_size) <= 1 -> 0 <= env.(draws).(u_confidence) <= 1 ->
  0 <= env.(u_reward) <= 1 ->
  let current_ppi := default 75 episode_data.(ppi_score) in
  0 <= current_ppi <= 100 ->
  exists (data' : EpisodeData) (p : Q),
    (take_step str env request st).1.1.(active_episodes)
      !! request.(step_episode_id) = Some data' /\
    data'.(ppi_score) = Some p /\
    current_ppi - 1 <= p <= current_ppi + 4.
Proof.
  intros Hlive Hu Hc Hr current_ppi Hcurrent. unfold take_step. rewrite Hlive.
  destruct (decide_action_fields episode_data.(agent) env.(draws)
              request.(market_state) request.(current_position) Hu Hc)
    as (rl & Hdecide & _ & _ & Hhold & Htrade & Hconf).
  rewrite Hdecide.
  assert (Hrl : valid_action rl).
  { unfold valid_action. split; [| lra].
    destruct (decide (rl.(type) = hold)) as [E | E].
    - specialize (Hhold E). lra.
    - specialize (Htrade E). lra. }
  cbn [mbind result_bind].
  change (default 75 (set_agent episode_data _).(ppi_score)) with current_ppi.
  destruct (get_grok_decision_valid str env.(grok) request.(market_state)
              request.(current_balance) request.(current_position) current_ppi)
    as (grok_action & Hgrok & Hvalid).
  rewrite Hgrok. cbn [mbind result_bind].
  destruct (blend_actions_fields rl grok_action Hrl Hvalid)
    as (action & Hblend & _).
  rewrite Hblend.
  assert (Haction : valid_action action).
  { unfold blend_actions in Hblend. apply new_Action_inv in Hblend. tauto. }
  match goal with |- context [broadcast_to_episode ?a ?b ?c ?d] =>
    pose proof (broadcast_active_episodes a b c d) as [Hkeep _];
    destruct (broadcast_to_episode a b c d) as [st2 sent]
  end.
  cbn [fst] in Hkeep |- *. rewrite Hkeep.
  cbn [active_episodes set_active_episodes].
  rewrite lookup_insert_eq.
  eexists _, _. split; [reflexivity |]. split; [reflexivity |].
  apply clamp_drift; [exact Hcurrent |].
  destruct Haction as [Hsize _]. unfold uniform.
  destruct action.(type); q_consts; nra.
Qed.

(** X15: one step lowers the trust score of a live episode by at most 1
    and raises it by at most 4 (the score taken as 75 when the episode has
    none yet). *)
Theorem take_step_moves_the_score_slowly (env : StepEnv)
    (request : StepRequest) (st : ApiState) (episode_data : EpisodeData) :
  st.(active_episodes) !! request.(step_episode_id) = Some episode_data ->
  0 <= env.(draws).(u_size) <= 1 -> 0 <= env.(draws).(u_confidence) <= 1 ->
  0 <= env.(u_reward) <= 1 ->
  let current_ppi := default 75 episode_data.(ppi_score) in
  0 <= current_ppi <= 100 ->
  exists (data' : EpisodeData) (p : Q),
    (take_step str env request st).1.1.(active_episodes)
      !! request.(step_episode_id) = Some data' /\
    data'.(ppi_score) = Some p /\
    current_ppi - 1 <= p <= current_ppi + 4.
Proof. apply take_step_drift. Qed.

(** X19: the first step of an episode that was just started is
    answered with step index 1, and leaves the episode a trust score
    between 74 and 79. *)
Theorem first_step_of_a_started_episode (env : StartEnv)
    (request : StartEpisodeRequest) (st st1 : ApiState)
    (effects : list effect) (response : StartEpisodeResponse)
    (env' : StepEnv) (request' : StepRequest) :
  start_episode str env request st = (st1, effects, Ok response) ->
  request'.(step_episode_id) = response.(started_episode_id) ->
  0 <= env'.(draws).(u_size) <= 1 -> 0 <= env'.(draws).(u_confidence) <= 1 ->
  0 <= env'.(u_reward) <= 1 ->
  exists (st2 : ApiState) (effects' : list effect) (response' : StepResponse)
         (data' : EpisodeData) (p : Q),
    take_step str env' request' st1 = (st2, effects', Ok response') /\
    response'.(step) = 1%Z /\
    st2.(active_episodes) !! response.(started_episode_id) = Some data' /\
    data'.(ppi_score) = Some p /\ 74 <= p <= 79.
Proof.
  intros Hstart Hid Hu Hc Hr.
  destruct (start_episode_ok _ _ _ _ _ _ Hstart) as (_ & Hst1 & _).
  set (episode_data :=
         {| agent_id := response.(started_agent_id);
            ep_agent_name := request.(start_agent_name);
            initial_balance := request.(start_initial_balance);
            current_step := 0;
            agent := new_MockRLAgent request.(start_agent_name);
            started_at := env.(start_now);
            ppi_score := None |}) in *.
  assert (Hlive : st1.(active_episodes) !! request'.(step_episode_id) =
                    Some episode_data).
  { rewrite Hid, Hst1. cbn. apply lookup_insert_eq. }
  destruct (take_step_live str env' request' st1 episode_data Hlive Hu Hc)
    as (st2 & effects' & response' & data' & p & Hrun & Hreg & Hstep & _ &
        Hppi & _ & _ & _ & _).
  destruct (take_step_drift env' request' st1 episode_data Hlive Hu Hc Hr)
    as (data2 & p2 & Hlook & Hppi2 & Hdrift); [cbn; lra |].
  rewrite Hrun in Hlook. cbn [fst] in Hlook.
  exists st2, effects', response', data2, p2.
  split; [exact Hrun |]. split; [exact Hstep |].
  split; [rewrite <- Hid; exact Hlook |].
  split; [exact Hppi2 |].
  cbn in Hdrift; lra.
Qed.


(** X18: the statistics endpoint never answers 404: its own 404 for an
    unknown agent is raised inside the [try] whose handler rewraps every
    exception, so the caller gets a 500 that quotes it.  When it answers,
    the count is the number of episodes returned and the agent is the
    first row the store returned. *)
Theorem get_agent_stats_never_answers_404 {Row : Type} (env : StatsEnv Row)
    (agent_id : string) (st : ApiState) :
  (forall e, get_agent_stats str env agent_id st = Raise e ->
     exists detail, e = HTTPException 500 detail) /\
  (st.(supabase) = true -> env.(agent_selected) = Ok [] ->
   get_agent_stats str env agent_id st =
     Raise (HTTPException 500
              ("Failed to fetch agent stats: " +:+
               str (HTTPException 404 "Agent not found")))) /\
  (forall stats, get_agent_stats str env agent_id st = Ok stats ->
     stats.(total_episodes) = Z.of_nat (length stats.(stats_episodes)) /\
     exists others, env.(agent_selected) = Ok (stats.(stats_agent) :: others)).
Proof.
  unfold get_agent_stats. split; [| split].
  - intros e H.
    destruct (negb st.(supabase)); [injection H as <-; eexists; reflexivity |].
    destruct env.(agent_selected) as [[| row rows] |]; cbn in H;
      try (injection H as <-; eexists; reflexivity).
    destruct env.(episodes_selected); cbn in H; [discriminate |].
    injection H as <-; eexists; reflexivity.
  - intros -> ->. reflexivity.
  - intros stats H.
    destruct (negb st.(supabase)); [discriminate |].
    destruct env.(agent_selected) as [[| row rows] |]; cbn in H;
      try discriminate.
    destruct env.(episodes_selected); cbn in H; [| discriminate].
    injection H as <-. cbn. split; [reflexivity |]. eexists. reflexivity.
Qed.

End Registry.


Section RegistryExample.
Import Py Main.
Local Open Scope Q_scope.
Local Open Scope string_scope.

(** The start of [ep-2] beside the live [ep-1]. *)
Lemma start_episode_registers_the_episode_ep_2 :
  exists (st' : ApiState) (effects : list effect)
         (response : StartEpisodeResponse),
    start_episode plain_text store_starts start_agent_a one_live =
      (st', effects, Ok response) /\
    response.(started_episode_id) = "ep-2" /\
    st'.(websocket_connections) !! "ep-2" = Some [] /\
    st'.(active_episodes) !! "ep-1" = Some live_episode.
Proof.
  destruct (start_episode plain_text store_starts start_agent_a one_live)
    as [[st' effects] [response | e]] eqn:E.
  2:{ exfalso. vm_compute in E. discriminate E. }
  exists st', effects, response. split; [reflexivity |].
  assert (Hid : response.(started_episode_id) = "ep-2").
  { vm_compute in E. injection E as _ _ <-. reflexivity. }
  destruct (start_episode_registers_the_episode plain_text store_starts
              start_agent_a one_live st' effects response E)
    as (_ & Hquiet & Hothers & _).
  split; [exact Hid |]. rewrite Hid in *.
  split; [exact Hquiet |].
  destruct (Hothers "ep-1") as [H _]; [discriminate |].
  rewrite H. vm_compute. reflexivity.
Defined.

(** A start whose insert fails, and an end of an id that is not live. *)
Lemma failed_start_or_end_changes_nothing_on_ep_1 :
  (start_episode plain_text store_refuses start_agent_a one_live).1.1 = one_live /\
  (end_episode plain_text store_answers end_ep_2 one_live).1.1 = one_live.
Proof.
  split.
  - destruct (start_episode plain_text store_refuses start_agent_a one_live)
      as [[st' effects] [response | e]] eqn:E.
    1:{ exfalso. vm_compute in E. discriminate E. }
    exact (proj1 (proj1 (failed_start_or_end_changes_nothing plain_text)
                    store_refuses start_agent_a one_live st' effects e E)).
  - destruct (end_episode plain_text store_answers end_ep_2 one_live)
      as [[st' effects] [response | e]] eqn:E.
    1:{ exfalso. vm_compute in E. discriminate E. }
    exact (proj1 (proj2 (failed_start_or_end_changes_nothing plain_text)
                    store_answers end_ep_2 one_live st' effects e E)).
Defined.

(** Of the two subscribers of [ep-1] only websocket 7 is sent the end
    event and closed. *)
Lemma end_episode_closes_the_episode_ep_1 :
  exists (st' : ApiState) (effects : list effect)
         (response : EndEpisodeResponse),
    end_episode plain_text only_7_reachable end_with_20_percent
      two_subscribers = (st', effects, Ok response) /\
    st'.(websocket_connections) = delete "ep-1" two_subscribers.(websocket_connections) /\
    ws_close 7%nat ∈ effects.
Proof.
  destruct (end_episode plain_text only_7_reachable end_with_20_percent
              two_subscribers) as [[st' effects] [response | e]] eqn:E.
  2:{ exfalso. vm_compute in E. discriminate E. }
  exists st', effects, response. split; [reflexivity |].
  destruct (end_episode_closes_the_episode plain_text only_7_reachable
              end_with_20_percent two_subscribers st' effects response E)
    as (_ & Hconnections & writes & irr & sharpe & _ & Heffects).
  split; [exact Hconnections |].
  rewrite Heffects. apply elem_of_cons. right.
  apply elem_of_app. right. apply elem_of_app. right.
  vm_compute. apply list_elem_of_here.
Defined.


(** [ep-2] started beside [ep-1] and ended at once. *)
Lemma start_then_end_restores_the_registries_ep_2 :
  exists (st1 : ApiState) (effects effects' : list effect)
         (response : StartEpisodeResponse) (response' : EndEpisodeResponse),
    start_episode plain_text store_starts start_agent_a one_live =
      (st1, effects, Ok response) /\
    end_episode plain_text store_answers end_ep_2 st1 =
      (one_live, effects', Ok response').
Proof.
  destruct (start_episode plain_text store_starts start_agent_a one_live)
    as [[st1 effects] [response | e]] eqn:E.
  2:{ exfalso. vm_compute in E. discriminate E. }
  assert (Hid : end_ep_2.(end_episode_id) = response.(started_episode_id)).
  { vm_compute in E. injection E as _ _ <-. reflexivity. }
  destruct (end_episode plain_text store_answers end_ep_2 st1)
    as [[st2 effects'] [response' | e]] eqn:E'.
  2:{ exfalso. vm_compute in E. injection E as <- _ _.
      vm_compute in E'. discriminate E'. }
  exists st1, effects, effects', response, response'.
  split; [reflexivity |].
  assert (Hfresh : one_live.(active_episodes) !! response.(started_episode_id)
                   = None).
  { rewrite <- Hid. vm_compute. reflexivity. }
  assert (Hquiet : one_live.(websocket_connections) !!
                     response.(started_episode_id) = None).
  { rewrite <- Hid. vm_compute. reflexivity. }
  destruct (start_then_end_restores_the_registries plain_text store_starts
              start_agent_a store_answers end_ep_2 one_live st1 st2 effects
              effects' response response' Hfresh Hquiet E Hid E')
    as (-> & _).
  exact E'.
Defined.

(** Three episodes, averages and values between 0 and 100. *)
Lemma running_average_stays_between_0_and_100 :
  (1 <= 3)%Z /\ 0 <= or_0 (Some 10) <= 100 /\ 0 <= 20 <= 100 /\
  exists updated : Q,
    running_average (Some 10) 3 20 = Ok updated /\ 0 <= updated <= 100.
Proof.
  assert (H1 : (1 <= 3)%Z) by lia.
  assert (H2 : 0 <= or_0 (Some 10) <= 100) by (cbn; lra).
  assert (H3 : 0 <= 20 <= 100) by lra.
  split; [exact H1 |]. split; [exact H2 |]. split; [exact H3 |].
  destruct (running_average_stays_between (Some 10) 3 20 0 100 H1 H2 H3)
    as (updated & Hrun & Hrange & _).
  exists updated. split; assumption.
Defined.

Lemma quiet_oracle_reward_in_range : 0 <= quiet_oracle.(u_reward) <= 1.
Proof. cbn. lra. Defined.

(** The live episode, without a score so far, ends the step between 74
    and 79. *)
Lemma take_step_moves_the_score_slowly_on_ep_1 :
  one_live.(active_episodes) !! step_on_ep_1.(step_episode_id) =
    Some live_episode /\
  0 <= default 75 live_episode.(ppi_score) <= 100 /\
  exists (data' : EpisodeData) (p : Q),
    (take_step plain_text quiet_oracle step_on_ep_1 one_live).1.1.(active_episodes)
      !! "ep-1" = Some data' /\
    data'.(ppi_score) = Some p /\ 74 <= p <= 79.
Proof.
  assert (Hlive : one_live.(active_episodes) !! step_on_ep_1.(step_episode_id)
                  = Some live_episode) by (vm_compute; reflexivity).
  assert (Hcurrent : 0 <= default 75 live_episode.(ppi_score) <= 100)
    by (cbn; lra).
  split; [exact Hlive |]. split; [exact Hcurrent |].
  destruct quiet_oracle_draws_in_range as [Hu Hc].
  destruct (take_step_moves_the_score_slowly plain_text quiet_oracle
              step_on_ep_1 one_live live_episode Hlive Hu Hc
              quiet_oracle_reward_in_range Hcurrent)
    as (data' & p & Hlook & Hppi & Hdrift).
  exists data', p. split; [exact Hlook |]. split; [exact Hppi |].
  cbn in Hdrift. lra.
Defined.

(** [ep-2] started beside [ep-1], and its first step. *)
Lemma first_step_of_a_started_episode_ep_2 :
  exists (st1 st2 : ApiState) (effects effects' : list effect)
         (response : StartEpisodeResponse) (response' : StepResponse),
    start_episode plain_text store_starts start_agent_a one_live =
      (st1, effects, Ok response) /\
    take_step plain_text quiet_oracle step_on_ep_2 st1 =
      (st2, effects', Ok response') /\
    response'.(step) = 1%Z.
Proof.
  destruct (start_episode plain_text store_starts start_agent_a one_live)
    as [[st1 effects] [response | e]] eqn:E.
  2:{ exfalso. vm_compute in E. discriminate E. }
  assert (Hid : step_on_ep_2.(step_episode_id) = response.(started_episode_id)).
  { vm_compute in E. injection E as _ _ <-. reflexivity. }
  destruct quiet_oracle_draws_in_range as [Hu Hc].
  destruct (first_step_of_a_started_episode plain_text store_starts
              start_agent_a one_live st1 effects response quiet_oracle
              step_on_ep_2 E Hid Hu Hc quiet_oracle_reward_in_range)
    as (st2 & effects' & response' & _ & _ & Hrun & Hstep & _).
  exists st1, st2, effects, effects', response, response'.
  split; [reflexivity |]. split; assumption.
Defined.

(** An agent the store does not know is answered 500. *)
Lemma get_agent_stats_never_answers_404_for_an_unknown_agent :
  one_live.(supabase) = true /\ unknown_agent.(agent_selected) = Ok [] /\
  get_agent_stats plain_text unknown_agent "agent-9" one_live =
    Raise (HTTPException 500 "Failed to fetch agent stats: error").
Proof.
  split; [reflexivity |]. split; [reflexivity |].
  exact (proj1 (proj2 (get_agent_stats_never_answers_404 plain_text
                         unknown_agent "agent-9" one_live))
           eq_refl eq_refl).
Defined.

End RegistryExample.


(** ** env_finrl.py: one step, and the reset *)

Section Stepping.
Import Py EnvFinRL.
Local Open Scope Q_scope.
Local Open Scope string_scope.

Lemma _simulate_actors_run (env : StepEnv) (self : SentientTraderFinRLEnv) :
  length self.(actor_regrets) = 6%nat ->
  length self.(actor_inventory) = 6%nat ->
  length self.(actor_last_action) = 6%nat ->
  let regret := default (fin 0) (self.(actor_regrets) !! 0%nat) in
  _simulate_actors env self =
    (set_actor_last_action (actions_taken env regret)
       (set_actor_inventory
          (inventories_moved env regret self.(actor_inventory)) self),
     Ok tt).
Proof.
  destruct self as [d k ms c ic p v regrets inventory last silos dx vx fg vol
                     tr ph dh mc nc].
  cbn [actor_regrets actor_inventory actor_last_action].
  intros Hr Hi Hl.
  destruct regrets as [| r0 [| r1 [| r2 [| r3 [| r4 [| r5 [|]]]]]]];
    try discriminate.
  destruct inventory as [| i0 [| i1 [| i2 [| i3 [| i4 [| i5 [|]]]]]]];
    try discriminate.
  destruct last as [| l0 [| l1 [| l2 [| l3 [| l4 [| l5 [|]]]]]]];
    try discriminate.
  clear Hr Hi Hl. cbn [default lookup list_lookup].
  unfold _simulate_actors, enumerate, ACTORS.
  cbn [imap for_each compose].
  repeat first [rewrite decide_True by reflexivity
               | rewrite decide_False by discriminate].
  unfold actions_taken, inventories_moved, id.
  unfold set_last_action, update_inventory, mbind, M_bind, gets, lift, getitem,
    setitem, modify, mret, M_ret.
  cbn -[float_ltb float_gtb Qltb Qgtb py_max Qplus Qminus choice].
  destruct (float_ltb r0 0.3); [| destruct (float_gtb r0 0.8)];
    cbn -[float_ltb float_gtb Qltb Qgtb py_max Qplus Qminus choice];
    destruct (Qltb (u_whale env) 0.05);
    cbn -[float_ltb float_gtb Qltb Qgtb py_max Qplus Qminus choice];
    destruct (Qltb (u_arb env) 0.3); reflexivity.
Qed.


Lemma _update_ppi_silos_run (env : StepEnv) (pnl_pct drawdown : Q)
    (self : SentientTraderFinRLEnv) :
  length self.(ppi_silos) = 7%nat ->
  _update_ppi_silos env pnl_pct drawdown self =
    (set_ppi_silos (silos_written env self.(volatility) pnl_pct drawdown) self,
     Ok tt).
Proof.
  destruct self as [d k ms c ic p v regrets inventory last silos dx vx fg vol
                     tr ph dh mc nc].
  cbn [ppi_silos volatility]. intros Hs.
  destruct silos as [| s0 [| s1 [| s2 [| s3 [| s4 [| s5 [| s6 [|]]]]]]]];
    try discriminate.
  reflexivity.
Qed.

Lemma set_capital_same (self : SentientTraderFinRLEnv) :
  set_capital self.(capital) self = self.
Proof. destruct self. reflexivity. Qed.

(** The trade of an action, case by case. *)
Lemma execute_action_run (action : Z) (self : SentientTraderFinRLEnv) :
  exists (capital' trade_size : Q) (action_name : string),
    execute_action action self =
      (traded capital' trade_size action_name self, Ok action_name) /\
    trade_of action self.(capital) capital' trade_size action_name.
Proof.
  unfold execute_action, trade_of.
  unfold mbind at 1. unfold M_bind at 1. unfold gets at 1.
  assert (Hrecord : forall (capital' trade_size : Q) (action_name : string),
    ((if Qeq_bool trade_size 0 then mret tt
      else self ← gets id;
           modify (set_trades
                     (app self.(trades)
                        [ {| trade_step := self.(current_step);
                             trade_action := action_name;
                             EnvFinRL.trade_size := trade_size;
                             trade_price := self.(price) |} ])))
     ≫= λ _, mret action_name) (set_capital capital' self) =
    (traded capital' trade_size action_name self, Ok action_name)).
  { intros capital' trade_size action_name. unfold traded.
    destruct (Qeq_bool trade_size 0); reflexivity. }
  assert (Hhold :
    (let (self', r) := (mret (0, "hold") : M (Q * string)) self in
     match r with
     | Ok a =>
         (let '(trade_size, action_name) := a in
          (if Qeq_bool trade_size 0 then mret tt
           else self0 ← gets id;
                modify (set_trades
                          (app self0.(trades)
                             [ {| trade_step := self0.(current_step);
                                  trade_action := action_name;
                                  EnvFinRL.trade_size := trade_size;
                                  trade_price := self0.(price) |} ])))
          ≫= λ _, mret action_name) self'
     | Raise e => (self', Raise e)
     end) = (traded self.(capital) 0 "hold" self, Ok "hold")).
  { unfold traded. cbn. rewrite set_capital_same. reflexivity. }
  destruct (decide (action = 0)%Z) as [-> | H0].
  { eexists _, _, _. split; [exact Hhold |]. left.
    repeat split; try reflexivity. lia. }
  destruct (decide (1 ≤ action ≤ 3)%Z) as [H13 | H13].
  { assert (Hcase : action = 1%Z \/ action = 2%Z \/ action = 3%Z) by lia.
    destruct Hcase as [-> | [-> | ->]];
      (eexists _, _, _; split;
       [ unfold mbind at 1; unfold M_bind at 1;
         cbn -[Qeq_bool Qmult Qdiv Qminus]; apply Hrecord
       | right; left; split; [lia |]; split; [| reflexivity];
         eexists _, _; split; [reflexivity |]; split; reflexivity ]). }
  destruct (decide (4 ≤ action ≤ 6)%Z) as [H46 | H46].
  { assert (Hcase : action = 4%Z \/ action = 5%Z \/ action = 6%Z) by lia.
    destruct Hcase as [-> | [-> | ->]];
      (eexists _, _, _; split;
       [ unfold mbind at 1; unfold M_bind at 1;
         cbn -[Qeq_bool Qmult Qdiv Qplus]; apply Hrecord
       | right; right; left; split; [lia |]; split; [| reflexivity];
         eexists _, _; split; [reflexivity |]; split; reflexivity ]). }
  destruct (decide (action = 7)%Z) as [-> | H7].
  { eexists _, _, _; split;
      [ unfold mbind at 1; unfold M_bind at 1;
        cbn -[Qeq_bool Qmult Qdiv Qminus]; apply Hrecord
      | right; right; right; left; repeat split; reflexivity ]. }
  destruct (decide (action = 8)%Z) as [-> | H8].
  { eexists _, _, _; split;
      [ unfold mbind at 1; unfold M_bind at 1;
        cbn -[Qeq_bool Qmult Qdiv Qminus]; apply Hrecord
      | right; right; right; right; repeat split; reflexivity ]. }
  eexists _, _, _. split; [exact Hhold |]. left.
  repeat split; try reflexivity. lia.
Qed.

Lemma choice_of_three (k : nat) :
  choice [0; 1; 2] k = 0 \/ choice [0; 1; 2] k = 1 \/ choice [0; 1; 2] k = 2.
Proof.
  unfold choice. cbn [length].
  pose proof (Nat.mod_upper_bound k 3) as H.
  destruct (k mod 3)%nat as [| [| [| n]]]; cbn; [tauto | tauto | tauto | lia].
Qed.

Lemma choice_of_two (k : nat) :
  choice [1; 2] k = 1 \/ choice [1; 2] k = 2.
Proof.
  unfold choice. cbn [length].
  pose proof (Nat.mod_upper_bound k 2) as H.
  destruct (k mod 2)%nat as [| [| n]]; cbn; [tauto | tauto | lia].
Qed.

(** X22: with six actors, [_simulate_actors] returns, keeps non-negative
    inventories non-negative, leaves every last action at 0, 1 or 2, adds
    0.1 to the inventory of the institution, leaves the inventories of
    the market maker, the arbitrage bot and the trader alone, and touches
    neither the regrets nor the capital nor the trade log. *)
Theorem _simulate_actors_keeps_inventories_non_negative (env : StepEnv)
    (self : SentientTraderFinRLEnv) :
  length self.(actor_regrets) = 6%nat ->
  length self.(actor_inventory) = 6%nat ->
  length self.(actor_last_action) = 6%nat ->
  Forall (λ x, 0 <= x) self.(actor_inventory) ->
  exists self' : SentientTraderFinRLEnv,
    _simulate_actors env self = (self', Ok tt) /\
    Forall (λ x, 0 <= x) self'.(actor_inventory) /\
    Forall (λ a, a = 0 \/ a = 1 \/ a = 2) self'.(actor_last_action) /\
    (forall x, self.(actor_inventory) !! 3%nat = Some x ->
               self'.(actor_inventory) !! 3%nat = Some (x + 0.1)) /\
    (forall i, (i = 2 \/ i = 4 \/ i = 5)%nat ->
               self'.(actor_inventory) !! i = self.(actor_inventory) !! i) /\
    self'.(actor_regrets) = self.(actor_regrets) /\
    self'.(capital) = self.(capital) /\ self'.(trades) = self.(trades).
Proof.
  intros Hr Hi Hl Hpos.
  eexists. split; [apply (_simulate_actors_run env self Hr Hi Hl) |].
  cbn [actor_inventory actor_last_action actor_regrets capital trades
       set_actor_last_action set_actor_inventory].
  set (regret := default (fin 0) (self.(actor_regrets) !! 0%nat)).
  destruct self.(actor_inventory)
    as [| i0 [| i1 [| i2 [| i3 [| i4 [| i5 [|]]]]]]]; try discriminate.
  apply Forall_cons in Hpos as [H0 Hpos].
  apply Forall_cons in Hpos as [H1 Hpos].
  apply Forall_cons in Hpos as [H2 Hpos].
  apply Forall_cons in Hpos as [H3 Hpos].
  apply Forall_cons in Hpos as [H4 Hpos].
  apply Forall_cons in Hpos as [H5 _].
  unfold inventories_moved, actions_taken.
  split.
  { repeat (apply Forall_cons; split); try apply Forall_nil_2; try lra.
    - destruct (float_ltb regret 0.3); [lra |].
      destruct (float_gtb regret 0.8); [| exact H0].
      apply py_max_spec.
    - destruct (Qltb env.(u_whale) 0.05); lra. }
  split.
  { repeat (apply Forall_cons; split); try apply Forall_nil_2; try tauto.
    - destruct (float_ltb regret 0.3); [tauto |].
      destruct (float_gtb regret 0.8); tauto.
    - destruct (Qltb env.(u_whale) 0.05); tauto.
    - apply choice_of_three.
    - destruct (Qltb env.(u_arb) 0.3); [| tauto].
      destruct (choice_of_two env.(k_arb)) as [-> | ->]; tauto. }
  split; [intros x Hx; cbn in Hx |- *; congruence |].
  split; [intros i [-> | [-> | ->]]; reflexivity |].
  repeat split.
Qed.

Variable log1p : Q -> Q.
Variable float32 : Q -> Q.

Lemma observed_length (self : SentientTraderFinRLEnv) (row : Bar) :
  length (observed log1p float32 self row) = 42%nat.
Proof.
  unfold observed. rewrite length_take, length_fmap.
  destruct (decide _); [rewrite length_app, length_replicate |]; lia.
Qed.

Lemma account_run (env : StepEnv) (action_name : string)
    (regret_blocked : bool) (self : SentientTraderFinRLEnv) :
  length self.(actor_regrets) = 6%nat ->
  length self.(actor_inventory) = 6%nat ->
  length self.(actor_last_action) = 6%nat ->
  length self.(ppi_silos) = 7%nat ->
  let '(pnl, pnl_pct, max_capital, drawdown) := figures self in
  let after := accounted env self in
  account log1p float32 env action_name regret_blocked self =
    match self.(df) !! S self.(current_step) with
    | Some row =>
        (set_market row.(close) row.(bar_volume) after,
         Ok (reported action_name regret_blocked after pnl pnl_pct drawdown
               (stable self.(actor_regrets)) (observed log1p float32 after row)))
    | None => (after, Raise IndexError)
    end.
Proof.
  intros Hr Hi Hl Hs.
  unfold account. unfold mbind at 1. unfold M_bind at 1.
  rewrite (_simulate_actors_run env self Hr Hi Hl).
  destruct self as [d k ms c ic p v regrets inventory last silos dx vx fg vol
                     tr ph dh mc nc].
  cbn [actor_regrets actor_inventory actor_last_action ppi_silos df
       current_step] in *.
  unfold figures, accounted.
  cbn [actor_regrets actor_inventory actor_last_action ppi_silos df
       current_step max_steps capital initial_capital price volatility dxy vix
       fear_greed volume trades pnl_history drawdown_history max_capital
       nash_equilibrium_count figures].
  unfold set_actor_last_action, set_actor_inventory.
  cbn [actor_regrets actor_inventory actor_last_action ppi_silos df
       current_step max_steps capital initial_capital price volatility dxy vix
       fear_greed volume trades pnl_history drawdown_history max_capital
       nash_equilibrium_count].
  unfold mbind at 1. unfold M_bind at 1.
  unfold mbind at 1. unfold M_bind at 1. unfold gets at 1. unfold id at 1.
  unfold modify at 1. unfold set_current_step at 1.
  cbn [actor_regrets actor_inventory actor_last_action ppi_silos df
       current_step max_steps capital initial_capital price volatility dxy vix
       fear_greed volume trades pnl_history drawdown_history max_capital
       nash_equilibrium_count].
  unfold mbind at 1. unfold M_bind at 1. unfold gets at 1. unfold id at 1.
  cbn [actor_regrets actor_inventory actor_last_action ppi_silos df
       current_step max_steps capital initial_capital price volatility dxy vix
       fear_greed volume trades pnl_history drawdown_history max_capital
       nash_equilibrium_count].
  unfold mbind at 1. unfold M_bind at 1. unfold modify at 1.
  unfold set_performance at 1.
  cbn [actor_regrets actor_inventory actor_last_action ppi_silos df
       current_step max_steps capital initial_capital price volatility dxy vix
       fear_greed volume trades pnl_history drawdown_history max_capital
       nash_equilibrium_count].
  unfold mbind at 1. unfold M_bind at 1.
  rewrite _update_ppi_silos_run by exact Hs.
  unfold set_ppi_silos at 1.
  cbn [actor_regrets actor_inventory actor_last_action ppi_silos df
       current_step max_steps capital initial_capital price volatility dxy vix
       fear_greed volume trades pnl_history drawdown_history max_capital
       nash_equilibrium_count].
  unfold mbind at 1. unfold M_bind at 1.
  unfold _check_nash_equilibrium at 1.
  unfold mbind at 1. unfold M_bind at 1. unfold gets at 1.
  unfold mret at 1. unfold M_ret at 1.
  cbn [actor_regrets].
  fold (stable regrets).
  replace (k + 1)%nat with (S k) by lia.
  destruct (stable regrets).
  - unfold mbind at 1. unfold M_bind at 1.
    unfold mbind at 1. unfold M_bind at 1. unfold gets at 1. unfold id at 1.
    unfold modify at 1. unfold set_nash_equilibrium_count at 1.
    cbn [actor_regrets actor_inventory actor_last_action ppi_silos df
         current_step max_steps capital initial_capital price volatility dxy
         vix fear_greed volume trades pnl_history drawdown_history max_capital
         nash_equilibrium_count].
    unfold mbind at 1. unfold M_bind at 1. unfold gets at 1. unfold id at 1.
    unfold mbind at 1. unfold M_bind at 1.
    destruct (d !! S k) as [row |] eqn:Hrow.
    + rewrite (_get_obs_run log1p float32 _ row) by exact Hrow. reflexivity.
    + rewrite _get_obs_no_bar by exact Hrow. reflexivity.
  - unfold mbind at 1. unfold M_bind at 1. unfold mret at 1. unfold M_ret at 1.
    unfold mbind at 1. unfold M_bind at 1. unfold gets at 1. unfold id at 1.
    unfold mbind at 1. unfold M_bind at 1.
    destruct (d !! S k) as [row |] eqn:Hrow.
    + rewrite (_get_obs_run log1p float32 _ row) by exact Hrow. reflexivity.
    + rewrite _get_obs_no_bar by exact Hrow. reflexivity.
Qed.


Lemma traded_frame (capital' trade_size : Q) (action_name : string)
    (self : SentientTraderFinRLEnv) :
  let after := traded capital' trade_size action_name self in
  after.(df) = self.(df) /\ after.(current_step) = self.(current_step) /\
  after.(actor_regrets) = self.(actor_regrets) /\
  after.(actor_inventory) = self.(actor_inventory) /\
  after.(actor_last_action) = self.(actor_last_action) /\
  after.(ppi_silos) = self.(ppi_silos) /\
  after.(capital) = capital' /\ after.(price) = self.(price) /\
  after.(pnl_history) = self.(pnl_history) /\
  after.(drawdown_history) = self.(drawdown_history) /\
  after.(nash_equilibrium_count) = self.(nash_equilibrium_count) /\
  after.(max_steps) = self.(max_steps) /\
  after.(max_capital) = self.(max_capital) /\
  after.(volatility) = self.(volatility).
Proof. unfold traded. destruct (Qeq_bool trade_size 0); repeat split. Qed.

(** A step from a state with six actors and seven silos, in one piece:
    the forecast, the gate, the trade, and the accounting, which ends in
    the observation of the next bar or in its absence. *)
Lemma step_outcome (env : StepEnv) (action : Z)
    (self : SentientTraderFinRLEnv) :
  length self.(actor_regrets) = 6%nat ->
  length self.(actor_inventory) = 6%nat ->
  length self.(actor_last_action) = 6%nat ->
  length self.(ppi_silos) = 7%nat ->
  exists (highest : float) (capital' trade_size : Q) (action_name : string),
    np_max (forecast_all env self) = Ok highest /\
    let blocked := float_gtb highest 0.7 in
    let self2 :=
      traded capital' trade_size action_name
        (set_actor_regrets (forecast_all env self) self) in
    let after := accounted env self2 in
    trade_of (if blocked then 0%Z else action) self.(capital) capital'
      trade_size action_name /\
    step log1p float32 env action self =
      match self.(df) !! S self.(current_step) with
      | Some row =>
          (set_market row.(close) row.(bar_volume) after,
           Ok (reported action_name blocked after (figures self2).1.1.1
                 (figures self2).1.1.2 (figures self2).2
                 (stable (forecast_all env self)) (observed log1p float32 after row)))
      | None => (after, Raise IndexError)
      end.
Proof.
  intros Hr Hi Hl Hs.
  set (self1 := set_actor_regrets (forecast_all env self) self).
  destruct (np_max_six (forecast_all env self)) as [highest Hmax].
  { rewrite forecast_all_length. exact Hr. }
  set (blocked := float_gtb highest 0.7).
  destruct (execute_action_run (if blocked then 0%Z else action) self1)
    as (capital' & trade_size & action_name & Htrade & Hcase).
  exists highest, capital', trade_size, action_name.
  split; [exact Hmax |]. fold blocked. cbv zeta. fold self1.
  split; [exact Hcase |].
  set (self2 := traded capital' trade_size action_name self1) in *.
  destruct (traded_frame capital' trade_size action_name self1)
    as (Hd & Hk & Hr2 & Hi2 & Hl2 & Hs2 & _).
  fold self2 in Hd, Hk, Hr2, Hi2, Hl2, Hs2.
  assert (Hregrets : self2.(actor_regrets) = forecast_all env self)
    by (rewrite Hr2; reflexivity).
  pose proof (account_run env action_name blocked self2) as Haccount.
  rewrite Hr2, Hi2, Hl2, Hs2 in Haccount.
  specialize (Haccount (eq_trans (forecast_all_length env self) Hr) Hi Hl Hs).
  destruct (figures self2) as [[[pnl pnl_pct] max_capital] drawdown] eqn:Hfig.
  cbv zeta in Haccount. rewrite Hd, Hk in Haccount.
  change (df self1) with (df self) in Haccount.
  change (current_step self1) with (current_step self) in Haccount.
  cbn [fst snd].
  unfold step, mbind, M_bind.
  rewrite (_update_actor_regrets_run env self Hr). fold self1.
  rewrite (regret_gate_run action self1 highest Hmax). fold blocked.
  assert (Hexec :
    execute_action (if blocked then 0%Z else action) self1 =
    (self2, Ok action_name)) by exact Htrade.
  destruct blocked; rewrite Hexec; exact Haccount.
Qed.


Lemma accounted_fields (env : StepEnv) (self : SentientTraderFinRLEnv) :
  let after := accounted env self in
  let regret := default (fin 0) (self.(actor_regrets) !! 0%nat) in
  after.(df) = self.(df) /\
  after.(current_step) = S self.(current_step) /\
  after.(capital) = self.(capital) /\
  after.(trades) = self.(trades) /\
  after.(price) = self.(price) /\
  after.(max_steps) = self.(max_steps) /\
  after.(actor_regrets) = self.(actor_regrets) /\
  after.(actor_inventory) = inventories_moved env regret self.(actor_inventory) /\
  after.(actor_last_action) = actions_taken env regret /\
  after.(ppi_silos) =
    silos_written env self.(volatility) (figures self).1.1.2 (figures self).2 /\
  after.(pnl_history) = app self.(pnl_history) [(figures self).1.1.2] /\
  after.(drawdown_history) = app self.(drawdown_history) [(figures self).2] /\
  after.(max_capital) = (figures self).1.2 /\
  after.(nash_equilibrium_count) =
    (if stable self.(actor_regrets)
     then (self.(nash_equilibrium_count) + 1)%Z
     else self.(nash_equilibrium_count)).
Proof.
  unfold accounted.
  destruct (figures self) as [[[pnl pnl_pct] max_capital] drawdown].
  cbn. repeat split. lia.
Qed.

Lemma traded_trades (capital' trade_size : Q) (action_name : string)
    (self : SentientTraderFinRLEnv) :
  let after := traded capital' trade_size action_name self in
  trade_size == 0 /\ after.(trades) = self.(trades) \/
  ~ trade_size == 0 /\
  after.(trades) =
    app self.(trades)
      [ {| trade_step := self.(current_step); trade_action := action_name;
           trade_size := trade_size; trade_price := self.(price) |} ].
Proof.
  unfold traded. destruct (Qeq_bool trade_size 0) eqn:E.
  - left. split; [apply Qeq_bool_iff; exact E | reflexivity].
  - right. split; [| reflexivity].
    intros H. apply Qeq_bool_iff in H. congruence.
Qed.

Lemma inventories_moved_length (env : StepEnv) (regret : float)
    (inventory : list Q) :
  length inventory = 6%nat ->
  length (inventories_moved env regret inventory) = 6%nat.
Proof.
  intros H.
  destruct inventory as [| i0 [| i1 [| i2 [| i3 [| i4 [| i5 [|]]]]]]];
    try discriminate.
  reflexivity.
Qed.

(** The state that a step leaves is again one with six actors and seven
    silos. *)
Lemma accounted_lengths (env : StepEnv) (self : SentientTraderFinRLEnv) :
  length self.(actor_regrets) = 6%nat ->
  length self.(actor_inventory) = 6%nat ->
  let after := accounted env self in
  length after.(actor_regrets) = 6%nat /\
  length after.(actor_inventory) = 6%nat /\
  length after.(actor_last_action) = 6%nat /\
  length after.(ppi_silos) = 7%nat.
Proof.
  intros Hr Hi after.
  destruct (accounted_fields env self)
    as (_ & _ & _ & _ & _ & _ & Hr' & Hi' & Hl' & Hs' & _).
  fold after in Hr', Hi', Hl', Hs'.
  rewrite Hr', Hi', Hl', Hs'.
  split; [exact Hr |]. split; [apply inventories_moved_length; exact Hi |].
  split; reflexivity.
Qed.

(** The gate of a step that returns, read from the regrets that the
    result reports: the step is blocked exactly when every one of them is
    a number and one of them exceeds 0.7.  A blocked step executes a hold
    and leaves the capital and the trade log alone; a step that is not
    blocked makes the trade of the requested action. *)
Lemma step_gate (env : StepEnv) (action : Z)
    (self self' : SentientTraderFinRLEnv) (result : StepResult) :
  length self.(actor_regrets) = 6%nat ->
  length self.(actor_inventory) = 6%nat ->
  length self.(actor_last_action) = 6%nat ->
  length self.(ppi_silos) = 7%nat ->
  step log1p float32 env action self = (self', Ok result) ->
  result.(info).(info_actor_regrets) = forecast_all env self /\
  (result.(info).(regret_blocked) = true <->
   closes_the_gate result.(info).(info_actor_regrets)) /\
  (result.(info).(regret_blocked) = true ->
   result.(info).(info_action) = "hold" /\
   self'.(capital) = self.(capital) /\ self'.(trades) = self.(trades)) /\
  (result.(info).(regret_blocked) = false ->
   exists trade_size : Q,
     trade_of action self.(capital) self'.(capital) trade_size
       result.(info).(info_action)).
Proof.
  intros Hr Hi Hl Hs Hrun.
  destruct (step_outcome env action self Hr Hi Hl Hs)
    as (highest & capital' & trade_size & action_name & Hmax & Hcase & Hstep).
  rewrite Hrun in Hstep.
  destruct (self.(df) !! S self.(current_step)) as [row |];
    [| discriminate Hstep].
  injection Hstep as Hself Hresult. rewrite Hresult, Hself.
  set (self1 := set_actor_regrets (forecast_all env self) self) in *.
  set (self2 := traded capital' trade_size action_name self1) in *.
  destruct (traded_frame capital' trade_size action_name self1)
    as (_ & _ & Hr2 & _ & _ & _ & Hcapital & _).
  fold self2 in Hr2, Hcapital.
  destruct (accounted_fields env self2)
    as (_ & _ & Acapital & Atrades & _ & _ & Ar & _).
  cbn [info info_actor_regrets regret_blocked info_action reported capital
       trades set_market].
  rewrite Ar, Hr2, Acapital, Atrades, Hcapital.
  change (actor_regrets self1) with (forecast_all env self).
  split; [reflexivity |].
  split; [apply np_max_closes; exact Hmax |].
  split.
  - intros Hblocked. rewrite Hblocked in Hcase. unfold trade_of in Hcase.
    destruct Hcase as [(_ & Hc & Hsize & Hname)
                      | [(H & _) | [(H & _) | [(H & _) | (H & _)]]]];
      try (exfalso; lia).
    split; [exact Hname |]. split; [exact Hc |].
    unfold self2, traded. rewrite Hsize. reflexivity.
  - intros Hfree. rewrite Hfree in Hcase. exists trade_size. exact Hcase.
Qed.

(** X20: a step that returns has moved the clock by one bar and left the
    data frame alone; the state holds the price and the volume of the new
    bar while the result reports the price the step started with; the two
    histories have grown by the figures the result reports; and the trade
    log has grown by at most one record, of a size other than 0, stamped
    with the clock and the price the step started with. *)
Theorem step_keeps_the_books (env : StepEnv) (action : Z)
    (self : SentientTraderFinRLEnv) :
  can_step self ->
  exists (self' : SentientTraderFinRLEnv) (result : StepResult) (row : Bar),
    step log1p float32 env action self = (self', Ok result) /\
    self.(df) !! S self.(current_step) = Some row /\
    self'.(df) = self.(df) /\
    self'.(current_step) = S self.(current_step) /\
    self'.(price) = row.(close) /\ self'.(volume) = row.(bar_volume) /\
    result.(info).(info_price) = self.(price) /\
    self'.(pnl_history) = app self.(pnl_history) [result.(info).(pnl_pct)] /\
    self'.(drawdown_history) =
      app self.(drawdown_history) [result.(info).(drawdown)] /\
    (self'.(trades) = self.(trades) \/
     exists t : Trade,
       self'.(trades) = app self.(trades) [t] /\
       t.(trade_step) = self.(current_step) /\
       t.(trade_price) = self.(price) /\
       t.(trade_action) = result.(info).(info_action) /\
       ~ t.(trade_size) == 0) /\
    length result.(obs) = 42%nat.
Proof.
  intros [(_ & _ & Hr & Hi & Hl & Hs) [row Hrow]].
  destruct (step_outcome env action self Hr Hi Hl Hs)
    as (highest & capital' & trade_size & action_name & _ & _ & Hstep).
  rewrite Hrow in Hstep.
  set (self1 := set_actor_regrets (forecast_all env self) self) in *.
  set (self2 := traded capital' trade_size action_name self1) in *.
  destruct (traded_frame capital' trade_size action_name self1)
    as (Hd & Hk & _ & _ & _ & _ & _ & Hprice & Hpnl & Hdd & _).
  fold self2 in Hd, Hk, Hprice, Hpnl, Hdd.
  destruct (accounted_fields env self2)
    as (Ad & Ak & _ & At & Aprice & _ & _ & _ & _ & _ & Apnl & Add & _).
  eexists _, _, row. split; [exact Hstep |].
  split; [exact Hrow |].
  cbn [df current_step price volume set_market pnl_history drawdown_history
       trades info info_price pnl_pct drawdown info_action obs reported].
  split; [rewrite Ad, Hd; reflexivity |].
  split; [rewrite Ak, Hk; reflexivity |].
  split; [reflexivity |]. split; [reflexivity |].
  split; [rewrite Aprice, Hprice; reflexivity |].
  split; [rewrite Apnl, Hpnl; reflexivity |].
  split; [rewrite Add, Hdd; reflexivity |].
  split; [| apply observed_length].
  rewrite At.
  destruct (traded_trades capital' trade_size action_name self1)
    as [[_ Hsame] | [Hsize Hlog]]; fold self2 in Hsame || fold self2 in Hlog.
  - left. exact Hsame.
  - right. eexists. split; [exact Hlog |]. cbn.
    repeat split; try reflexivity. exact Hsize.
Qed.

Lemma risk_pcts_bounds (i : nat) (risk_pct : Q) (text : string) :
  risk_pcts !! i = Some (risk_pct, text) -> 0 <= risk_pct <= 1.
Proof.
  unfold risk_pcts.
  destruct i as [| [| [| i]]]; cbn; intros H; try discriminate;
    injection H as <- _; lra.
Qed.

(** X21: an action outside 0..8 is executed as a hold, without an error;
    a long that the gate lets through takes at most 1% of a non-negative
    capital, a short adds at most 1%, the ramp takes 10%; the trac takes
    a fixed 0.02 whatever the capital is, so it alone can make the
    capital negative. *)
Theorem step_moves_the_capital_by_the_action (env : StepEnv) (action : Z)
    (self : SentientTraderFinRLEnv) :
  can_step self ->
  exists (self' : SentientTraderFinRLEnv) (result : StepResult),
    step log1p float32 env action self = (self', Ok result) /\
    ((action <= 0 \/ 8 < action)%Z ->
     result.(info).(info_action) = "hold" /\
     self'.(capital) = self.(capital) /\ self'.(trades) = self.(trades)) /\
    (result.(info).(regret_blocked) = false -> 0 <= self.(capital) ->
     ((1 <= action <= 3)%Z ->
      0.99 * self.(capital) <= self'.(capital) <= self.(capital)) /\
     ((4 <= action <= 6)%Z ->
      self.(capital) <= self'.(capital) <= 1.01 * self.(capital)) /\
     (action = 7%Z -> self'.(capital) == 0.9 * self.(capital))) /\
    (result.(info).(regret_blocked) = false -> action = 8%Z ->
     self'.(capital) == self.(capital) - 0.02).
Proof.
  intros [(_ & _ & Hr & Hi & Hl & Hs) [row Hrow]].
  destruct (step_outcome env action self Hr Hi Hl Hs)
    as (highest & capital' & trade_size & action_name & _ & Hcase & Hstep).
  rewrite Hrow in Hstep.
  set (self1 := set_actor_regrets (forecast_all env self) self) in *.
  set (self2 := traded capital' trade_size action_name self1) in *.
  destruct (traded_frame capital' trade_size action_name self1)
    as (_ & _ & _ & _ & _ & _ & Hcapital & _).
  fold self2 in Hcapital.
  destruct (accounted_fields env self2)
    as (_ & _ & Acapital & Atrades & _).
  eexists _, _. split; [exact Hstep |].
  cbn [capital trades set_market info info_action regret_blocked reported].
  rewrite Acapital, Atrades, Hcapital.
  unfold trade_of in Hcase.
  split; [| split].
  - intros Hunknown.
    assert (Hhold : capital' = self.(capital) /\ trade_size = 0 /\
                    action_name = "hold").
    { destruct (float_gtb highest 0.7);
        destruct Hcase as [(_ & H) | [(H & _) | [(H & _) | [(H & _) | (H & _)]]]];
        try exact H; exfalso; lia. }
    destruct Hhold as (-> & Hsize & ->).
    split; [reflexivity |]. split; [reflexivity |].
    unfold self2, traded. rewrite Hsize. reflexivity.
  - intros Hfree Hcap. rewrite Hfree in Hcase.
    split; [| split].
    + intros Hlong.
      destruct Hcase as [(H & _) | [(_ & (risk & text & Hrisk & Hsize & _) & Hc)
                        | [(H & _) | [(H & _) | (H & _)]]]];
        try (exfalso; lia).
      apply risk_pcts_bounds in Hrisk. rewrite Hc, Hsize.
      q_consts. nra.
    + intros Hshort.
      destruct Hcase as [(H & _) | [(H & _) |
                        [(_ & (risk & text & Hrisk & Hsize & _) & Hc)
                        | [(H & _) | (H & _)]]]];
        try (exfalso; lia).
      apply risk_pcts_bounds in Hrisk. rewrite Hc, Hsize.
      q_consts. nra.
    + intros Hramp.
      destruct Hcase as [(H & _) | [(H & _) | [(H & _) |
                        [(_ & Hsize & Hc & _) | (H & _)]]]];
        try (exfalso; lia).
      rewrite Hc, Hsize. ring.
  - intros Hfree Htrac. rewrite Hfree in Hcase.
    destruct Hcase as [(H & _) | [(H & _) | [(H & _) |
                      [(H & _) | (_ & Hsize & Hc & _)]]]];
      try (exfalso; lia).
    rewrite Hc, Hsize. reflexivity.
Qed.


Lemma no_swing_in_the_last_silos (a b c d : Q) :
  Qgtb (np_sum (Qabs <$> np_diff (last_n 3 [a; b; c; d; 7; 6.5; 6]))) 15 = false.
Proof. vm_compute. reflexivity. Qed.

(** X23: the stop flag [truncated] of a step is exactly [drawdown > 5]:
    the last three silos are always written as 7, 6.5 and 6, so the swing
    test on them never fires; and the composite that the step reports
    lies between 395/7 and 505/7 (about 56.4 and 72.1). *)
Theorem step_truncates_on_drawdown_only (env : StepEnv) (action : Z)
    (self : SentientTraderFinRLEnv) :
  can_step self -> 0 <= env.(u_belonging) <= 1 ->
  exists (self' : SentientTraderFinRLEnv) (result : StepResult),
    step log1p float32 env action self = (self', Ok result) /\
    result.(truncated) = Qgtb result.(info).(drawdown) 5 /\
    drop 3 self'.(ppi_silos) = [8; 7; 6.5; 6] /\
    395 # 7 <= result.(info).(ppi_composite) <= 505 # 7.
Proof.
  intros [(_ & _ & Hr & Hi & Hl & Hs) [row Hrow]] Hu.
  destruct (step_outcome env action self Hr Hi Hl Hs)
    as (highest & capital' & trade_size & action_name & _ & _ & Hstep).
  rewrite Hrow in Hstep.
  set (self1 := set_actor_regrets (forecast_all env self) self) in *.
  set (self2 := traded capital' trade_size action_name self1) in *.
  destruct (accounted_fields env self2)
    as (_ & _ & _ & _ & _ & _ & _ & _ & _ & Asilos & _).
  eexists _, _. split; [exact Hstep |].
  cbn [truncated info drawdown ppi_composite reported ppi_silos set_market].
  rewrite Asilos. unfold silos_written.
  split; [rewrite no_swing_in_the_last_silos; apply orb_false_r |].
  split; [reflexivity |].
  unfold np_mean, np_sum, uniform. cbn [foldl length].
  change (inject_Z (Z.of_nat 7)) with 7.
  destruct (Qltb _ 0.05 && Qltb _ 10); destruct (Qgtb _ 0); q_consts; lra.
Qed.

(** X24: with [max_steps] at the index of the last bar, a step reports
    [terminated] exactly when it has moved the clock onto the last bar;
    a further step then raises [IndexError], after it has moved the clock
    and extended the histories once more. *)
Theorem step_after_the_last_bar_raises (env env' : StepEnv)
    (action action' : Z) (self : SentientTraderFinRLEnv) :
  can_step self ->
  self.(max_steps) = (Z.of_nat (length self.(df)) - 1)%Z ->
  exists (self' : SentientTraderFinRLEnv) (result : StepResult),
    step log1p float32 env action self = (self', Ok result) /\
    (result.(terminated) = true <->
     self.(df) !! S (S self.(current_step)) = None) /\
    (result.(terminated) = true ->
     exists self'' : SentientTraderFinRLEnv,
       step log1p float32 env' action' self' = (self'', Raise IndexError) /\
       self''.(current_step) = S (S self.(current_step)) /\
       length self''.(pnl_history) = S (S (length self.(pnl_history)))).
Proof.
  intros [(_ & _ & Hr & Hi & Hl & Hs) [row Hrow]] Hmax.
  destruct (step_outcome env action self Hr Hi Hl Hs)
    as (highest & capital' & trade_size & action_name & _ & _ & Hstep).
  rewrite Hrow in Hstep.
  set (self1 := set_actor_regrets (forecast_all env self) self) in *.
  set (self2 := traded capital' trade_size action_name self1) in *.
  destruct (traded_frame capital' trade_size action_name self1)
    as (Hd & Hk & Hr2 & Hi2 & _ & _ & _ & _ & Hpnl & _ & _ & Hms & _).
  fold self2 in Hd, Hk, Hr2, Hi2, Hpnl, Hms.
  destruct (accounted_fields env self2)
    as (Ad & Ak & _ & _ & _ & Ams & _ & _ & _ & _ & Apnl & _).
  assert (Hr1 : length self2.(actor_regrets) = 6%nat).
  { rewrite Hr2. unfold self1. cbn [actor_regrets set_actor_regrets].
    rewrite forecast_all_length. exact Hr. }
  assert (Hi1 : length self2.(actor_inventory) = 6%nat).
  { rewrite Hi2. exact Hi. }
  destruct (accounted_lengths env self2 Hr1 Hi1) as (Lr & Li & Ll & Ls).
  set (after := accounted env self2) in *.
  set (self' := set_market row.(close) row.(bar_volume) after) in *.
  assert (Hlast :
    bool_decide (after.(max_steps) ≤ Z.of_nat after.(current_step))%Z = true
    <-> self.(df) !! S (S self.(current_step)) = None).
  { rewrite Ams, Hms, Ak, Hk. change (max_steps self1) with (max_steps self).
    change (current_step self1) with (current_step self).
    rewrite Hmax, bool_decide_eq_true, lookup_ge_None. lia. }
  eexists self', _. split; [exact Hstep |].
  cbn [terminated reported].
  split; [exact Hlast |].
  intros Hterminated. apply Hlast in Hterminated.
  destruct (step_outcome env' action' self' Lr Li Ll Ls)
    as (highest' & capital'' & trade_size' & action_name' & _ & _ & Hstep').
  assert (Hd' : self'.(df) = self.(df)).
  { unfold self'. cbn [df set_market]. rewrite Ad, Hd. reflexivity. }
  assert (Hk' : self'.(current_step) = S self.(current_step)).
  { unfold self'. cbn [current_step set_market]. rewrite Ak, Hk. reflexivity. }
  rewrite Hd', Hk', Hterminated in Hstep'.
  eexists. split; [exact Hstep' |].
  match goal with |- context [accounted env' ?x] =>
    destruct (accounted_fields env' x)
      as (_ & Bk & _ & _ & _ & _ & _ & _ & _ & _ & Bpnl & _);
    rewrite Bk, Bpnl
  end.
  match goal with |- context [traded ?a ?b ?c ?d] =>
    destruct (traded_frame a b c d)
      as (_ & Ck & _ & _ & _ & _ & _ & _ & Cpnl & _);
    rewrite Ck, Cpnl
  end.
  cbn [current_step pnl_history set_actor_regrets].
  rewrite Hk'. split; [reflexivity |].
  rewrite length_app. cbn [length]. unfold self'. cbn [pnl_history set_market].
  rewrite Apnl, Hpnl, length_app. cbn. lia.
Qed.

(** X25: with an oracle that never answers [null] and whose numbers are
    in [[0,1]], and regrets that are numbers in [[0,1]], the regrets are
    numbers in [[0,1]] after a step, however it ends, and so are the
    regrets that the result reports; such a step is blocked exactly when
    one of the reported regrets exceeds 0.7; blocked, it executes a hold
    and leaves the capital and the trade log as they were, and not
    blocked, it makes the trade of the requested action. *)
Theorem step_keeps_regrets_in_unit (env : StepEnv) (action : Z)
    (self : SentientTraderFinRLEnv) :
  length self.(actor_regrets) = 6%nat ->
  length self.(actor_inventory) = 6%nat ->
  length self.(actor_last_action) = 6%nat ->
  length self.(ppi_silos) = 7%nat ->
  oracle_in_unit env -> Forall in_unit self.(actor_regrets) ->
  Forall in_unit (step log1p float32 env action self).1.(actor_regrets) /\
  (forall self' result,
     step log1p float32 env action self = (self', Ok result) ->
     Forall in_unit result.(info).(info_actor_regrets) /\
     (result.(info).(regret_blocked) = true <->
      Exists (λ r, float_gtb r 0.7 = true) result.(info).(info_actor_regrets)) /\
     (result.(info).(regret_blocked) = true ->
      result.(info).(info_action) = "hold" /\
      self'.(capital) = self.(capital) /\ self'.(trades) = self.(trades)) /\
     (result.(info).(regret_blocked) = false ->
      exists trade_size : Q,
        trade_of action self.(capital) self'.(capital) trade_size
          result.(info).(info_action))).
Proof.
  intros Hr Hi Hl Hs Horacle Hunit.
  destruct (step_outcome env action self Hr Hi Hl Hs)
    as (highest & capital' & trade_size & action_name & _ & _ & Hstep).
  set (self1 := set_actor_regrets (forecast_all env self) self) in *.
  set (self2 := traded capital' trade_size action_name self1) in *.
  destruct (traded_frame capital' trade_size action_name self1)
    as (_ & _ & Hr2 & _).
  fold self2 in Hr2.
  destruct (accounted_fields env self2)
    as (_ & _ & _ & _ & _ & _ & Ar & _).
  pose proof (forecast_all_in_unit env self Horacle Hunit) as Hall.
  assert (Hafter : Forall in_unit (accounted env self2).(actor_regrets)).
  { rewrite Ar, Hr2. exact Hall. }
  split.
  { rewrite Hstep.
    destruct (self.(df) !! S self.(current_step)); exact Hafter. }
  intros self' result Hrun.
  destruct (step_gate env action self self' result Hr Hi Hl Hs Hrun)
    as (Hreported & Hgate & Hhold & Htrade).
  rewrite Hreported in *.
  split; [exact Hall |].
  split; [| split; [exact Hhold | exact Htrade]].
  rewrite Hgate. unfold closes_the_gate.
  split; [intros [_ H]; exact H |].
  intros H. split; [apply in_unit_number; exact Hall | exact H].
Qed.

(** X26: a step reports [nash_stable] exactly when at least three of
    the updated regrets are below 0.3, and counts it; the count never
    exceeds the clock, so the stability it reports is between 0 and 100
    percent. *)
Theorem step_counts_the_stable_steps (env : StepEnv) (action : Z)
    (self : SentientTraderFinRLEnv) :
  can_step self ->
  (0 <= self.(nash_equilibrium_count) <= Z.of_nat self.(current_step))%Z ->
  exists (self' : SentientTraderFinRLEnv) (result : StepResult),
    step log1p float32 env action self = (self', Ok result) /\
    result.(info).(nash_stable) = stable self'.(actor_regrets) /\
    self'.(nash_equilibrium_count) =
      (if result.(info).(nash_stable)
       then (self.(nash_equilibrium_count) + 1)%Z
       else self.(nash_equilibrium_count)) /\
    (0 <= self'.(nash_equilibrium_count) <= Z.of_nat self'.(current_step))%Z /\
    0 <= result.(info).(nash_stability_pct) <= 100.
Proof.
  intros [(_ & _ & Hr & Hi & Hl & Hs) [row Hrow]] Hcount.
  destruct (step_outcome env action self Hr Hi Hl Hs)
    as (highest & capital' & trade_size & action_name & _ & _ & Hstep).
  rewrite Hrow in Hstep.
  set (self1 := set_actor_regrets (forecast_all env self) self) in *.
  set (self2 := traded capital' trade_size action_name self1) in *.
  destruct (traded_frame capital' trade_size action_name self1)
    as (_ & Hk & Hr2 & _ & _ & _ & _ & _ & _ & _ & Hn & _).
  fold self2 in Hk, Hr2, Hn.
  destruct (accounted_fields env self2)
    as (_ & Ak & _ & _ & _ & _ & Ar & _ & _ & _ & _ & _ & _ & An).
  eexists _, _. split; [exact Hstep |].
  cbn [info nash_stable nash_stability_pct reported actor_regrets
       nash_equilibrium_count current_step set_market].
  rewrite Ar, Hr2, An, Ak, Hk, Hn, Hr2.
  change (actor_regrets self1) with (forecast_all env self).
  change (nash_equilibrium_count self1) with (nash_equilibrium_count self).
  change (current_step self1) with (current_step self).
  split; [reflexivity |]. split; [reflexivity |].
  set (count' := if stable (forecast_all env self)
                 then (self.(nash_equilibrium_count) + 1)%Z
                 else self.(nash_equilibrium_count)).
  assert (Hcount' : (0 <= count' <= Z.of_nat (S self.(current_step)))%Z).
  { unfold count'. destruct (stable _); lia. }
  split; [exact Hcount' |].
  replace (Nat.max (S self.(current_step)) 1) with (S self.(current_step))
    by lia.
  set (n := Z.of_nat (S self.(current_step))) in *.
  assert (Hn0 : 0 < inject_Z n).
  { rewrite <- (Zlt_Qlt 0). unfold n. lia. }
  assert (Hlo : 0 <= inject_Z count').
  { rewrite <- (Zle_Qle 0). lia. }
  assert (Hhi : inject_Z count' <= inject_Z n).
  { rewrite <- Zle_Qle. lia. }
  assert (Hratio : 0 <= inject_Z count' / inject_Z n <= 1).
  { split.
    - apply Qle_shift_div_l; [exact Hn0 | lra].
    - apply Qle_shift_div_r; [exact Hn0 | lra]. }
  lra.
Qed.



(** X27: on an empty data frame [reset] raises [IndexError]; on a data
    frame of two bars or more it returns an observation of 42 entries and
    a state at the price of the first bar, with a capital of 1, empty
    logs, regrets in [[0.2, 0.5]], from which a step returns whatever the
    oracle and the action are. *)
Theorem reset_prepares_a_step (env : ResetEnv) (self : SentientTraderFinRLEnv) :
  (self.(df) = [] -> (reset log1p float32 env self).2 = Raise IndexError) /\
  (forall first second rest,
     self.(df) = first :: second :: rest ->
     (forall i, 0 <= env.(u_regrets) i <= 1) ->
     exists (self' : SentientTraderFinRLEnv) (obs : list float),
       reset log1p float32 env self = (self', Ok obs) /\
       length obs = 42%nat /\
       can_step self' /\
       self'.(price) = first.(close) /\
       self'.(capital) = 1 /\ self'.(trades) = [] /\
       self'.(pnl_history) = [] /\ self'.(nash_equilibrium_count) = 0%Z /\
       Forall (within 0.2 0.5) self'.(actor_regrets) /\
       forall (env' : StepEnv) (action : Z),
       exists (self'' : SentientTraderFinRLEnv) (result : StepResult),
         step log1p float32 env' action self' = (self'', Ok result)).
Proof.
  split.
  - intros Hdf. unfold reset, mbind, M_bind, modify.
    rewrite _get_obs_no_bar; [reflexivity |].
    cbn [df current_step]. rewrite Hdf. reflexivity.
  - intros first second rest Hdf Hdraws.
    unfold reset, mbind, M_bind, modify.
    match goal with |- context [_get_obs log1p float32 ?x] =>
      set (cleared := x) end.
    assert (Hrow : cleared.(df) !! cleared.(current_step) = Some first).
    { unfold cleared. cbn [df current_step]. rewrite Hdf. reflexivity. }
    rewrite (_get_obs_run log1p float32 cleared first Hrow).
    eexists _, _. split; [reflexivity |].
    split.
    { rewrite length_take, length_fmap.
      destruct (decide _); [rewrite length_app, length_replicate |]; lia. }
    assert (Hcan : can_step (set_market first.(close) first.(bar_volume) cleared)).
    { unfold can_step, ready. cbn. rewrite Hdf.
      repeat split. eexists. reflexivity. }
    split; [exact Hcan |].
    cbn [price capital trades pnl_history nash_equilibrium_count actor_regrets
         set_market cleared].
    repeat (split; [reflexivity |]).
    split.
    { cbn [seq fmap list_fmap].
      repeat (apply Forall_cons; split); try apply Forall_nil_2;
        unfold within, uniform;
        match goal with |- context [env.(u_regrets) ?i] =>
          specialize (Hdraws i) end; lra. }
    intros env' action.
    destruct Hcan as [(_ & _ & Hr & Hi & Hl & Hs) [row Hnext]].
    destruct (step_outcome env' action _ Hr Hi Hl Hs)
      as (highest & capital' & trade_size & action_name & _ & _ & Hstep).
    rewrite Hnext in Hstep.
    eexists _, _. exact Hstep.
Qed.

End Stepping.


(** *** The environment of two bars again *)

Section SteppingExample.
Import Py EnvFinRL.
Local Open Scope Q_scope.
Local Open Scope string_scope.

Lemma after_reset_six_actors :
  length after_reset.(actor_regrets) = 6%nat /\
  length after_reset.(actor_inventory) = 6%nat /\
  length after_reset.(actor_last_action) = 6%nat /\
  length after_reset.(ppi_silos) = 7%nat.
Proof. repeat split. Defined.

(** A long of 0.25% with calm actors: the clock moves to 1 and one trade
    is logged. *)
Lemma step_keeps_the_books_on_a_long :
  can_step after_reset /\
  exists (self' : SentientTraderFinRLEnv) (result : StepResult),
    step as_is as_is calm_oracle 1 after_reset = (self', Ok result) /\
    self'.(current_step) = 1%nat /\
    self'.(price) = 112500 /\ result.(info).(info_price) = 112000 /\
    length result.(obs) = 42%nat.
Proof.
  split; [exact can_step_after_reset |].
  destruct (step_keeps_the_books as_is as_is calm_oracle 1 after_reset
              can_step_after_reset)
    as (self' & result & row & Hstep & Hrow & _ & Hclock & Hprice & _ &
        Hinfo & _ & _ & _ & Hobs).
  exists self', result. split; [exact Hstep |].
  split; [exact Hclock |].
  injection Hrow as <-.
  split; [exact Hprice |]. split; [exact Hinfo | exact Hobs].
Defined.

(** The action 9 is executed as a hold. *)
Lemma step_moves_the_capital_by_the_action_9 :
  can_step after_reset /\
  exists (self' : SentientTraderFinRLEnv) (result : StepResult),
    step as_is as_is calm_oracle 9 after_reset = (self', Ok result) /\
    result.(info).(info_action) = "hold" /\ self'.(capital) = 1.
Proof.
  split; [exact can_step_after_reset |].
  destruct (step_moves_the_capital_by_the_action as_is as_is calm_oracle 9
              after_reset can_step_after_reset)
    as (self' & result & Hstep & Hunknown & _).
  exists self', result. split; [exact Hstep |].
  destruct Hunknown as (Hname & Hcapital & _); [right; lia |].
  split; [exact Hname | exact Hcapital].
Defined.

Lemma after_reset_inventories : Forall (λ x, 0 <= x) after_reset.(actor_inventory).
Proof.
  cbn. repeat (apply Forall_cons; split); try apply Forall_nil_2; lra.
Defined.

(** The institution goes from 100 to 100.1. *)
Lemma _simulate_actors_keeps_inventories_non_negative_after_reset :
  length after_reset.(actor_regrets) = 6%nat /\
  length after_reset.(actor_inventory) = 6%nat /\
  length after_reset.(actor_last_action) = 6%nat /\
  Forall (λ x, 0 <= x) after_reset.(actor_inventory) /\
  exists self' : SentientTraderFinRLEnv,
    _simulate_actors calm_oracle after_reset = (self', Ok tt) /\
    self'.(actor_inventory) !! 3%nat = Some (100 + 0.1).
Proof.
  destruct after_reset_six_actors as (Hr & Hi & Hl & _).
  split; [exact Hr |]. split; [exact Hi |]. split; [exact Hl |].
  split; [exact after_reset_inventories |].
  destruct (_simulate_actors_keeps_inventories_non_negative calm_oracle
              after_reset Hr Hi Hl after_reset_inventories)
    as (self' & Hrun & _ & _ & Hetf & _).
  exists self'. split; [exact Hrun |].
  apply Hetf. reflexivity.
Defined.

Lemma calm_oracle_belonging : 0 <= calm_oracle.(u_belonging) <= 1.
Proof. cbn. lra. Defined.

(** The step of a long is not truncated. *)
Lemma step_truncates_on_drawdown_only_on_a_long :
  can_step after_reset /\ 0 <= calm_oracle.(u_belonging) <= 1 /\
  exists (self' : SentientTraderFinRLEnv) (result : StepResult),
    step as_is as_is calm_oracle 1 after_reset = (self', Ok result) /\
    result.(truncated) = Qgtb result.(info).(drawdown) 5 /\
    drop 3 self'.(ppi_silos) = [8; 7; 6.5; 6].
Proof.
  split; [exact can_step_after_reset |].
  split; [exact calm_oracle_belonging |].
  destruct (step_truncates_on_drawdown_only as_is as_is calm_oracle 1
              after_reset can_step_after_reset calm_oracle_belonging)
    as (self' & result & Hstep & Htruncated & Hsilos & _).
  exists self', result. split; [exact Hstep |].
  split; [exact Htruncated | exact Hsilos].
Defined.

(** Of two bars the second is the last: the first step reports
    [terminated], the second raises. *)
Lemma step_after_the_last_bar_raises_on_two_bars :
  can_step after_reset /\
  after_reset.(max_steps) = (Z.of_nat (length after_reset.(df)) - 1)%Z /\
  exists (self' self'' : SentientTraderFinRLEnv) (result : StepResult),
    step as_is as_is calm_oracle 1 after_reset = (self', Ok result) /\
    result.(terminated) = true /\
    step as_is as_is calm_oracle 0 self' = (self'', Raise IndexError) /\
    self''.(current_step) = 2%nat.
Proof.
  split; [exact can_step_after_reset |].
  assert (Hmax : after_reset.(max_steps) =
                 (Z.of_nat (length after_reset.(df)) - 1)%Z) by reflexivity.
  split; [exact Hmax |].
  destruct (step_after_the_last_bar_raises as_is as_is calm_oracle calm_oracle
              1 0 after_reset can_step_after_reset Hmax)
    as (self' & result & Hstep & Hlast & Hnext).
  assert (Hterminated : result.(terminated) = true).
  { apply Hlast. reflexivity. }
  destruct (Hnext Hterminated) as (self'' & Hraise & Hclock & _).
  exists self', self'', result.
  split; [exact Hstep |]. split; [exact Hterminated |].
  split; [exact Hraise | exact Hclock].
Defined.

Lemma calm_oracle_in_unit : oracle_in_unit calm_oracle.
Proof.
  intros request value H. cbn in H. injection H as <-. lra.
Defined.

Lemma after_reset_regrets_in_unit : Forall in_unit after_reset.(actor_regrets).
Proof.
  cbn. repeat (apply Forall_cons; split); try apply Forall_nil_2;
    unfold in_unit, within; lra.
Defined.

(** With the calm oracle the regrets stay in range through a step. *)
Lemma step_keeps_regrets_in_unit_with_a_calm_oracle :
  oracle_in_unit calm_oracle /\ Forall in_unit after_reset.(actor_regrets) /\
  Forall in_unit
    (step as_is as_is calm_oracle 1 after_reset).1.(actor_regrets).
Proof.
  split; [exact calm_oracle_in_unit |].
  split; [exact after_reset_regrets_in_unit |].
  destruct after_reset_six_actors as (Hr & Hi & Hl & Hs).
  exact (proj1 (step_keeps_regrets_in_unit as_is as_is calm_oracle 1
                  after_reset Hr Hi Hl Hs calm_oracle_in_unit
                  after_reset_regrets_in_unit)).
Defined.

Lemma after_reset_count :
  (0 <= after_reset.(nash_equilibrium_count)
     <= Z.of_nat after_reset.(current_step))%Z.
Proof. cbn. lia. Defined.

(** With every regret at 0.2 the first step is stable and counted. *)
Lemma step_counts_the_stable_steps_with_a_calm_oracle :
  can_step after_reset /\
  (0 <= after_reset.(nash_equilibrium_count)
     <= Z.of_nat after_reset.(current_step))%Z /\
  exists (self' : SentientTraderFinRLEnv) (result : StepResult),
    step as_is as_is calm_oracle 1 after_reset = (self', Ok result) /\
    (0 <= self'.(nash_equilibrium_count) <= Z.of_nat self'.(current_step))%Z /\
    0 <= result.(info).(nash_stability_pct) <= 100.
Proof.
  split; [exact can_step_after_reset |].
  split; [exact after_reset_count |].
  destruct (step_counts_the_stable_steps as_is as_is calm_oracle 1 after_reset
              can_step_after_reset after_reset_count)
    as (self' & result & Hstep & _ & _ & Hcount & Hpct).
  exists self', result. split; [exact Hstep |].
  split; [exact Hcount | exact Hpct].
Defined.

Lemma middle_draws_in_range : forall i, 0 <= middle_draws.(u_regrets) i <= 1.
Proof. intros i. cbn. lra. Defined.

(** A reset of the environment of two bars, and the step after it. *)
Lemma reset_prepares_a_step_on_two_bars :
  (forall i, 0 <= middle_draws.(u_regrets) i <= 1) /\
  exists (self' self'' : SentientTraderFinRLEnv) (obs : list float)
         (result : StepResult),
    reset as_is as_is middle_draws after_reset = (self', Ok obs) /\
    length obs = 42%nat /\ self'.(price) = 112000 /\
    step as_is as_is alarmed_oracle 1 self' = (self'', Ok result).
Proof.
  split; [exact middle_draws_in_range |].
  destruct (proj2 (reset_prepares_a_step as_is as_is middle_draws after_reset)
              _ _ _ eq_refl middle_draws_in_range)
    as (self' & obs & Hreset & Hobs & _ & Hprice & _ & _ & _ & _ & _ & Hstep).
  destruct (Hstep alarmed_oracle 1%Z) as (self'' & result & Hrun).
  exists self', self'', obs, result.
  split; [exact Hreset |]. split; [exact Hobs |].
  split; [exact Hprice | exact Hrun].
Defined.

End SteppingExample.


(** ** train_sentient_trader.py: one training step *)

Section Training.
Import Py Train.
Local Open Scope Q_scope.
Local Open Scope string_scope.

Variable str : Q -> string.
Variable exp : Q -> Q.
Variable log : Q -> Q.
Variable float32 : Q -> Q.

Lemma call_grok_size (env : StepEnv) (state : list Q)
    (grok_action : GrokAction) (v : Q) :
  sizes_non_negative env ->
  call_grok float32 env state = Ok grok_action ->
  grok_action.(size) = json_number v -> 0 <= v.
Proof.
  intros Hsizes Hcall Hsize. unfold call_grok in Hcall.
  destruct state as [| a [| b [| c [| d [| e [|]]]]]]; try discriminate.
  destruct (env.(grok) _) as [| status_code [data |]] eqn:Hreply.
  - injection Hcall as <-. cbn in Hsize. injection Hsize as <-. lra.
  - destruct (decide (status_code = 200%Z)).
    + injection Hcall as <-. cbn in Hsize.
      destruct data.(data_size) as [size |] eqn:Hdata; cbn in Hsize.
      * subst size. exact (Hsizes _ _ _ _ Hreply Hdata).
      * injection Hsize as <-. lra.
    + injection Hcall as <-. cbn in Hsize. injection Hsize as <-. lra.
  - destruct (decide (status_code = 200%Z));
      injection Hcall as <-; cbn in Hsize; injection Hsize as <-; lra.
Qed.

(** The trade of a step leaves the capital between 0 and 1. *)
Lemma trade_within_the_holdings (final_action : Z) (capital capital' : Q)
    (size : json_value) :
  0 <= capital <= 1 ->
  (forall v, size = json_number v -> 0 <= v) ->
  (buys ← (if decide (final_action = 1%Z)
           then at_least capital size else Ok false);
   if buys : bool then minus capital size
   else
     sells ← (if decide (final_action = 2%Z)
              then at_least (1 - capital) size else Ok false);
     if sells : bool then plus capital size
     else Ok capital) = Ok capital' ->
  0 <= capital' <= 1.
Proof.
  intros Hcapital Hsize Htrade.
  destruct size as [v |].
  - specialize (Hsize v eq_refl).
    destruct (decide (final_action = 1%Z)); cbn in Htrade.
    + destruct (Qgeb capital v) eqn:E; cbn in Htrade.
      * injection Htrade as <-. unfold Qgeb in E. q_cases. lra.
      * destruct (decide (final_action = 2%Z)); [lia |].
        cbn in Htrade. injection Htrade as <-. exact Hcapital.
    + destruct (decide (final_action = 2%Z)); cbn in Htrade.
      * destruct (Qgeb (1 - capital) v) eqn:E; cbn in Htrade;
          injection Htrade as <-; [| exact Hcapital].
        unfold Qgeb in E. q_cases. lra.
      * injection Htrade as <-. exact Hcapital.
  - destruct (decide (final_action = 1%Z)); cbn in Htrade; [discriminate |].
    destruct (decide (final_action = 2%Z)); cbn in Htrade; [discriminate |].
    injection Htrade as <-. exact Hcapital.
Qed.

(** X30: a training step never trades more than it holds: with a
    capital between 0 and 1 and an oracle whose sizes are not negative,
    the capital is between 0 and 1 after the step, however it ends; the
    peak value and the maximal drawdown never decrease.  A step that
    returns has counted itself, is never truncated, is done exactly when
    the count has reached [max_steps], carries a report exactly when it
    is done, and that report never rates the risk [High]. *)
Theorem step_never_trades_more_than_it_has (env : StepEnv) (action : Z)
    (self : SentientTraderEnv) :
  0 <= self.(capital) <= 1 -> sizes_non_negative env ->
  let after := (step str exp log float32 env action self).1.1 in
  0 <= after.(capital) <= 1 /\
  self.(peak_value) <= after.(peak_value) /\
  self.(max_drawdown) <= after.(max_drawdown) /\
  forall result : StepResult,
    (step str exp log float32 env action self).2 = Ok result ->
    after.(step_count) = (self.(step_count) + 1)%Z /\
    result.(done) =
      bool_decide (self.(max_steps) ≤ self.(step_count) + 1)%Z /\
    result.(truncated) = false /\
    (result.(done) = true <-> is_Some result.(info).(report)) /\
    (env.(u_volatility) <= 1 ->
     forall r, result.(info).(report) = Some r ->
               r.(short_term_risk) = "Moderate").
Proof.
  intros Hcapital Hsizes after. subst after. unfold step.
  assert (Hsame :
    0 <= self.(capital) <= 1 /\ self.(peak_value) <= self.(peak_value) /\
    self.(max_drawdown) <= self.(max_drawdown)).
  { split; [exact Hcapital |]. split; apply Qle_refl. }
  destruct (_get_obs float32 self ≫= call_grok float32 env)
    as [grok_action | e] eqn:Hcall.
  2:{ cbn [fst snd]. destruct Hsame as (H1 & H2 & H3).
      split; [exact H1 |]. split; [exact H2 |]. split; [exact H3 |].
      intros result H. discriminate H. }
  assert (Hsize : forall v, grok_action.(size) = json_number v -> 0 <= v).
  { intros v Hv.
    destruct (_get_obs float32 self) as [state |]; [| discriminate].
    cbn in Hcall. exact (call_grok_size env state grok_action v Hsizes Hcall Hv). }
  cbv zeta.
  match goal with |- context [mbind ?f ?m] =>
    match m with
    | context [at_least] => destruct (mbind f m) as [capital' | e] eqn:Htrade
    end
  end.
  2:{ cbn [fst snd]. destruct Hsame as (H1 & H2 & H3).
      split; [exact H1 |]. split; [exact H2 |]. split; [exact H3 |].
      intros result H. discriminate H. }
  apply trade_within_the_holdings in Htrade; [| exact Hcapital | exact Hsize].
  destruct (calculate_hybrid_ppi str _) as [ppi silos].
  set (price' := self.(price) * exp (env.(randn) * 0.01)).
  set (portfolio_value := capital' + (1 - capital') * (price' / 112000)).
  assert (Hpeak :
    self.(peak_value) <=
    (if Qgtb portfolio_value self.(peak_value) then portfolio_value
     else self.(peak_value))).
  { destruct (Qgtb portfolio_value self.(peak_value)) eqn:E;
      [unfold Qgtb in E; q_cases; lra | apply Qle_refl]. }
  assert (Hdraw : forall d, self.(max_drawdown) <= py_max self.(max_drawdown) d).
  { intros d. apply py_max_spec. }
  assert (Hclose : forall (after : SentientTraderEnv) (P : Prop),
    after.(capital) = capital' ->
    after.(peak_value) =
      (if Qgtb portfolio_value self.(peak_value) then portfolio_value
       else self.(peak_value)) ->
    (exists d, after.(max_drawdown) = py_max self.(max_drawdown) d) ->
    P ->
    0 <= after.(capital) <= 1 /\
    self.(peak_value) <= after.(peak_value) /\
    self.(max_drawdown) <= after.(max_drawdown) /\ P).
  { intros after P -> -> [d ->] HP.
    split; [exact Htrade |]. split; [exact Hpeak |].
    split; [apply Hdraw | exact HP]. }
  cbn [max_steps].
  destruct (bool_decide (self.(max_steps) ≤ self.(step_count) + 1)%Z)
    eqn:Hdone.
  - match goal with |- context [_generate_report ?a ?b ?c ?d] =>
      destruct (_generate_report a b c d) as [r |] eqn:Hreport
    end; lazy beta iota zeta delta [mbind result_bind mret result_ret fst snd].
    2:{ apply Hclose; try reflexivity;
          [eexists; reflexivity | intros result H; discriminate H]. }
    match goal with |- context [_get_obs float32 ?x] =>
      destruct (_get_obs float32 x) as [obs |]
    end; lazy beta iota zeta delta [fst snd].
    2:{ apply Hclose; try reflexivity;
          [eexists; reflexivity | intros result H; discriminate H]. }
    apply Hclose; try reflexivity; [eexists; reflexivity |].
    intros result H. injection H as <-.
    cbn [step_count done truncated info report].
    split; [reflexivity |]. split; [reflexivity |]. split; [reflexivity |].
    split; [split; [intros _; eexists; reflexivity | reflexivity] |].
    intros Hu r0 Hr. injection Hr as <-.
    unfold _generate_report in Hreport.
    cbn [episode_data set_sharpe etf_inflows sharpe] in Hreport.
    destruct self.(episode_data).(etf_inflows);
      cbn [mbind result_bind mret result_ret] in Hreport; [| discriminate].
    injection Hreport as <-. cbn [short_term_risk volatility].
    destruct (Qgtb (0.03 + env.(u_volatility) * 0.02) 0.05) eqn:E;
      [| reflexivity].
    unfold Qgtb in E. q_cases. lra.
  - lazy beta iota zeta delta [mbind result_bind mret result_ret fst snd].
    match goal with |- context [_get_obs float32 ?x] =>
      destruct (_get_obs float32 x) as [obs |]
    end; lazy beta iota zeta delta [fst snd].
    2:{ apply Hclose; try reflexivity;
          [eexists; reflexivity | intros result H; discriminate H]. }
    apply Hclose; try reflexivity; [eexists; reflexivity |].
    intros result H. injection H as <-.
    cbn [step_count done truncated info report].
    split; [reflexivity |]. split; [reflexivity |]. split; [reflexivity |].
    split; [split; [discriminate | intros [x Hx]; discriminate Hx] |].
    intros _ r Hr. discriminate Hr.
Qed.

End Training.

(** ** report.py: the wording of a report *)

Section ReportWording.
Import Py Report.
Local Open Scope Q_scope.
Local Open Scope string_scope.

(** X28: the mood and the recommendation of a report always go together
    (bullish with accumulate, neutral with hold, bearish with scale out);
    a bullish mood implies a bullish macro bias and a bearish bias a
    bearish mood; without a score row the mood is bearish while the bias
    is [Neutral]; and a risk rated [Low] never comes with the alert for
    high volatility. *)
Theorem report_wording_is_consistent (episode : Episode)
    (ppi_data : option PpiData) :
  let mood := _get_mood_snapshot episode ppi_data in
  let advice := _get_recommendation episode ppi_data in
  let bias := _get_macro_bias ppi_data in
  (mood = "Bullish with strong confidence" <->
   advice = "Accumulate on dips; maintain core position") /\
  (mood = "Neutral with cautious optimism" <->
   advice = "Hold core positions; wait for clearer signals") /\
  (mood = "Bearish caution - risk management mode" <->
   advice = "Scale out; preserve capital in risk-off mode") /\
  (mood = "Bullish with strong confidence" -> bias = "Bullish") /\
  (bias = "Bearish" -> mood = "Bearish caution - risk management mode") /\
  (ppi_data = None ->
   mood = "Bearish caution - risk management mode" /\ bias = "Neutral") /\
  (_get_risk_level episode = "Low" ->
   _get_trigger_watch episode =
     "Alert for vol from Fed; watch key support levels").
Proof.
  unfold _get_mood_snapshot, _get_recommendation, _get_macro_bias,
    _get_risk_level, _get_trigger_watch.
  cbv zeta.
  destruct ppi_data as [data |].
  - destruct (Qgtb data.(composite_score) 70) eqn:E70;
      destruct (Qgtb (default 0 episode.(total_reward)) 0);
      destruct (Qgtb data.(composite_score) 50) eqn:E50;
      destruct (Qgtb (default 0.03 episode.(volatility)) 0.05);
      destruct (Qgtb (default 0 episode.(max_drawdown)) 0.1);
      destruct (Qgtb (default 0.03 episode.(volatility)) 0.03);
      destruct (Qgtb (default 0 episode.(max_drawdown)) 0.05);
      cbn [andb orb];
      repeat split; intros; try discriminate; try reflexivity;
      exfalso; unfold Qgtb in *; q_cases; lra.
  - assert (H70 : Qgtb 0 70 = false) by reflexivity.
    assert (H50 : Qgtb 0 50 = false) by reflexivity.
    rewrite H70, H50. cbn [andb].
    destruct (Qgtb (default 0.03 episode.(volatility)) 0.05);
      destruct (Qgtb (default 0 episode.(max_drawdown)) 0.1);
      destruct (Qgtb (default 0.03 episode.(volatility)) 0.03);
      destruct (Qgtb (default 0 episode.(max_drawdown)) 0.05);
      cbn [orb];
      repeat split; intros; try discriminate; reflexivity.
Qed.

End ReportWording.

(** ** env.py: the range of Strategy A *)

Section StrategyA.
Import Py Env.
Local Open Scope Q_scope.

(** X29: for draws in [[0,1]] the score of Strategy A is at least 26 (and
    at most 100), at least 66 when the volatility is below 0.05 and the
    drawdown below 10, and at least 86 when the return is 10 percent or
    more on top. *)
Theorem _calculate_ppi_is_at_least_26 (self : SentientTraderEnv)
    (u_belonging u_solar pnl_pct drawdown : Q) :
  0 <= u_belonging <= 1 -> 0 <= u_solar <= 1 ->
  26 <= _calculate_ppi self u_belonging u_solar pnl_pct drawdown <= 100 /\
  (self.(volatility) < 0.05 -> drawdown < 10 ->
   66 <= _calculate_ppi self u_belonging u_solar pnl_pct drawdown) /\
  (10 <= pnl_pct -> self.(volatility) < 0.05 -> drawdown < 10 ->
   86 <= _calculate_ppi self u_belonging u_solar pnl_pct drawdown).
Proof.
  intros Hb Hs. unfold _calculate_ppi. cbv zeta.
  set (safety := (_ / 100) * 40).
  set (esteem := if Qgtb pnl_pct 0 then _ else 0).
  assert (Hsafety : 0 <= safety <= 40 /\
                    (self.(volatility) < 0.05 -> drawdown < 10 ->
                     safety == 40)).
  { unfold safety.
    destruct (Qltb self.(volatility) 0.05) eqn:E1;
      destruct (Qltb drawdown 10) eqn:E2; q_cases;
      (split; [q_consts; lra | intros; try lra; q_consts; try lra]). }
  assert (Hesteem : 0 <= esteem <= 20 /\ (10 <= pnl_pct -> esteem == 20)).
  { unfold esteem. destruct (Qgtb pnl_pct 0) eqn:E.
    - unfold Qgtb in E. q_cases.
      destruct (py_min_spec (pnl_pct / 10) 1) as (H1 & H2 & [H3 | H3]);
        rewrite H3 in *; q_consts;
        (split; [lra |]); intros H10; lra.
    - unfold Qgtb in E. q_cases. split; [lra | intros; lra]. }
  destruct Hsafety as [Hsafety Hcalm]. destruct Hesteem as [Hesteem Hgain].
  unfold uniform.
  set (total := safety + (0.6 + (1 - 0.6) * u_belonging) * 20 + esteem +
                (0.7 + (1 - 0.7) * u_solar) * 20).
  assert (Htotal : 26 <= total <= 100) by (unfold total; lra).
  assert (Hclip : np_clip total 0 100 == total).
  { unfold np_clip.
    destruct (py_max_spec total 0) as (H1 & H2 & [E | E]); rewrite E in *;
      [| lra].
    destruct (py_min_spec total 100) as (H3 & H4 & [F | F]); rewrite F in *;
      lra. }
  split; [| split].
  - destruct (np_clip_bounds total 0 100) as [H0 H100]; [lra |].
    split; [| exact H100]. rewrite Hclip. lra.
  - intros Hv Hd. rewrite Hclip. specialize (Hcalm Hv Hd). unfold total. lra.
  - intros Hp Hv Hd. rewrite Hclip. specialize (Hcalm Hv Hd).
    specialize (Hgain Hp). unfold total. lra.
Qed.

End StrategyA.

Section LastExamples.
Import Py.
Local Open Scope Q_scope.
Local Open Scope string_scope.

(** An episode without a score row. *)
Lemma report_wording_is_consistent_without_a_score :
  Report._get_mood_snapshot rewarded_episode None =
    "Bearish caution - risk management mode" /\
  Report._get_macro_bias None = "Neutral" /\
  Report._get_recommendation rewarded_episode None =
    "Scale out; preserve capital in risk-off mode".
Proof.
  destruct (report_wording_is_consistent rewarded_episode None)
    as (_ & _ & Hbearish & _ & _ & Hnone & _).
  destruct (Hnone eq_refl) as [Hmood Hbias].
  split; [exact Hmood |]. split; [exact Hbias |].
  apply Hbearish. exact Hmood.
Defined.

(** Draws in the middle, a calm market and a return of 12 percent. *)
Lemma _calculate_ppi_is_at_least_26_in_the_middle :
  0 <= 0.5 <= 1 /\
  86 <= Env._calculate_ppi
          {| Env.capital := 1; Env.price := 112000; Env.volatility := 0.03;
             Env.initial_capital := 1; Env.max_capital := 1 |}
          0.5 0.5 12 0.
Proof.
  assert (H : 0 <= 0.5 <= 1) by lra.
  split; [exact H |].
  destruct (_calculate_ppi_is_at_least_26
              {| Env.capital := 1; Env.price := 112000; Env.volatility := 0.03;
                 Env.initial_capital := 1; Env.max_capital := 1 |}
              0.5 0.5 12 0 H H) as (_ & _ & Hgain).
  apply Hgain; cbn; lra.
Defined.

Lemma fresh_trainer_capital : 0 <= fresh_trainer.(Train.capital) <= 1.
Proof. cbn. lra. Defined.

Lemma buying_oracle_sizes : sizes_non_negative buying_oracle.
Proof.
  intros request status_code data v Hreply Hsize. cbn in Hreply.
  injection Hreply as _ <-. cbn in Hsize. injection Hsize as <-. lra.
Defined.

(** The advised buy of a tenth leaves a capital between 0 and 1. *)
Lemma step_never_trades_more_than_it_has_on_a_buy :
  0 <= fresh_trainer.(Train.capital) <= 1 /\
  sizes_non_negative buying_oracle /\
  0 <= (Train.step number_text as_is as_is as_is buying_oracle 0
          fresh_trainer).1.1.(Train.capital) <= 1.
Proof.
  split; [exact fresh_trainer_capital |].
  split; [exact buying_oracle_sizes |].
  exact (proj1 (step_never_trades_more_than_it_has number_text as_is as_is
                  as_is buying_oracle 0 fresh_trainer fresh_trainer_capital
                  buying_oracle_sizes)).
Defined.

End LastExamples.
